(** * Renesas digital multiphase regulator: configuration programming and
      black-box retrieval (drivers/hwmon/pmbus/isl68137.c)

    A shallow embedding of the debugfs programming path
    (raa_dmpvr2_parse_cfg, raa_dmpvr2_verify_device, raa_dmpvr2_check_cfg,
    raa_dmpvr2_send_cfg, raa_dmpvr2_cfg_write_result, raa_dmpvr2_write_cfg)
    and of the black-box reader (raa_dmpvr2_read_black_box), followed by
    the properties of the design document that concern them.

    The hwmon side of the same file (the AVS attribute, the sensor
    description and the probe) and the companion driver isl692xx.c follow,
    with further properties read off the code.

    Conventions.
    - A byte (u8, char) is a [Z] in [0, 256); C [int] values are [Z].  The
      only narrowing store of the code, [cmds[i].len = b - 3], is written
      with its reduction modulo 256.  Line and command counters stay far
      below INT_MAX because the buffer comes from one kmalloc.
    - A pointer into a byte buffer is the list of bytes from that address to
      the end of the allocation; [p + k] is [skipn k p], and a read that
      leaves the allocation is [Undefined].  NULL is [None].
    - Functions that can fail return a [result]. *)

From Stdlib Require Import String Ascii.
From Stdlib Require Import ZArith List Bool Lia.
Import ListNotations.
Open Scope Z_scope.

(** ** Results of C functions *)

Inductive result (A : Type) : Type :=
| Ok (a : A)        (* ran to the normal return path *)
| Err (ret : Z)     (* left early, returning the non-zero status [ret] *)
| Undefined         (* out-of-bounds or NULL access: no defined behaviour *)
| OutOfFuel.        (* a loop was still running when the fuel ended *)

Arguments Ok {A} a.
Arguments Err {A} ret.
Arguments Undefined {A}.
Arguments OutOfFuel {A}.

Definition bind {A B : Type} (r : result A) (k : A -> result B) : result B :=
  match r with
  | Ok a => k a
  | Err e => Err e
  | Undefined => Undefined
  | OutOfFuel => OutOfFuel
  end.

Notation "x <- r ;; k" := (bind r (fun x => k))
  (at level 61, r at next level, right associativity).
Notation "' p <- r ;; k" := (bind r (fun x => let p := x in k))
  (at level 61, p pattern, r at next level, right associativity).

Definition of_option {A : Type} (o : option A) : result A :=
  match o with
  | Some a => Ok a
  | None => Undefined
  end.

(** Boolean comparison of two results, true on equal values only. *)
Definition result_eqb (a b : result Z) : bool :=
  match a, b with
  | Ok x, Ok y => x =? y
  | _, _ => false
  end.

(** ** Constants *)

Definition EIO : Z := 5.
Definition ENOMEM : Z := 12.
Definition EINVAL : Z := 22.
Definition ERANGE : Z := 34.
Definition ETIME : Z := 62.

Definition RAA_DMPVR2_DMA_FIX : Z := 0xc5.
Definition RAA_DMPVR2_DMA_SEQ : Z := 0xc6.
Definition RAA_DMPVR2_DMA_ADDR : Z := 0xc7.
Definition RAA_DMPVR2_BB_BASE_ADDR : Z := 0xef80.
Definition RAA_DMPVR2_BB_WSIZE : nat := 4.
Definition RAA_DMPVR2_BB_WCNT : nat := 32.
Definition RAA_DMPVR2_BB_BUF_SIZE : nat := 288.
Definition RAA_DMPVR2_NVM_CNT_ADDR : Z := 0x00c2.
Definition RAA_DMPVR2_PRGM_STATUS_ADDR : Z := 0x0707.
Definition RAA_DMPVR2_BANK0_STATUS_ADDR : Z := 0x0709.
Definition RAA_DMPVR2_BANK1_STATUS_ADDR : Z := 0x070a.
Definition RAA_DMPVR2_CFG_MAX_SLOT : Z := 16.
Definition RAA_DMPVR2_CFG_HEAD_LEN : Z := 290.
Definition RAA_DMPVR2_CFG_SLOT_LEN : Z := 358.

(** Modelled from the spec: PMBUS_IC_DEVICE_ID and PMBUS_IC_DEVICE_REV come
    from pmbus.h, which is not among the sources; they are the two
    identity registers the design document has the verifier read, with their
    PMBus command codes. *)
Definition PMBUS_IC_DEVICE_ID : Z := 0xAD.
Definition PMBUS_IC_DEVICE_REV : Z := 0xAE.

(** Character codes used by the parser. *)
Definition NUL : Z := 0.
Definition NL : Z := 10.      (* '\n' *)
Definition CH_4 : Z := 52.    (* '4' *)
Definition CH_9 : Z := 57.    (* '9' *)

Definition bytes_of_string (s : string) : list Z :=
  map (fun a => Z.of_N (N_of_ascii a)) (list_ascii_of_string s).

(** ** Kernel library routines used by the driver

    These live in lib/string.c, lib/kstrtox.c and fs/libfs.c, outside the
    driver; they are written here after their kernel-doc contracts. *)

Module Klib.

(** Modelled from the spec: strlen (lib/string.c) is not among the sources;
    the number of bytes before the first NUL, undefined when the allocation
    holds no NUL from [p] on. *)
Fixpoint strlen (p : list Z) : result nat :=
  match p with
  | [] => Undefined
  | c :: t => if c =? NUL then Ok O else n <- strlen t ;; Ok (S n)
  end.

(** A [strsep] call returns the token pointer and the updated cursor. *)
Record strsep_ret : Type := mk_strsep {
  tok : option (list Z);    (* return value: start of the token, or NULL *)
  cursor : option (list Z)  (* new value of [*s] *)
}.

(** Modelled from the spec: strsep (lib/string.c) is not among the sources;
    with the single delimiter '\n' it overwrites the first newline of the
    string at [*s] with NUL, moves [*s] behind it (NULL when the string has
    no newline) and returns the old [*s]; a NULL [*s] gives NULL. *)
Fixpoint strsep_from (p : list Z) : result strsep_ret :=
  match p with
  | [] => Undefined
  | c :: t =>
      if c =? NUL then Ok (mk_strsep (Some p) None)
      else if c =? NL then Ok (mk_strsep (Some (NUL :: t)) (Some t))
      else
        r <- strsep_from t ;;
        match tok r with
        | Some l => Ok (mk_strsep (Some (c :: l)) (cursor r))
        | None => Undefined
        end
  end.

Definition strsep (s : option (list Z)) : result strsep_ret :=
  match s with
  | None => Ok (mk_strsep None None)
  | Some p => strsep_from p
  end.

(** Modelled from the spec: strncmp (lib/string.c) is not among the sources;
    [strncmp(line, "49", 2) == 0] holds exactly when the first two bytes at
    [line] are '4' and '9' (the comparison stops at a differing byte). *)
Definition strncmp_49_is_zero (line : list Z) : result bool :=
  match line with
  | [] => Undefined
  | c0 :: t =>
      if negb (c0 =? CH_4) then Ok false
      else match t with
           | [] => Undefined
           | c1 :: _ => Ok (c1 =? CH_9)
           end
  end.

(** Value of a hexadecimal digit, as _parse_integer computes it:
    '0'..'9', or a letter whose lower-case form [c | 0x20] is 'a'..'f'. *)
Definition hex_digit (c : Z) : option Z :=
  if (48 <=? c) && (c <=? 57) then Some (c - 48)
  else
    let lc := Z.lor c 32 in
    if (97 <=? lc) && (lc <=? 102) then Some (lc - 97 + 10) else None.

Fixpoint _parse_integer (s : list Z) (res : Z) (rv : nat) : Z * nat * list Z :=
  match s with
  | [] => (res, rv, [])
  | c :: t =>
      match hex_digit c with
      | Some v => _parse_integer t (res * 16 + v) (S rv)
      | None => (res, rv, s)
      end
  end.

Definition ULLONG_MAX : Z := 2 ^ 64 - 1.

(** Modelled from the spec: kstrtou8 (lib/kstrtox.c) is not among the
    sources; this is its contract for base 16, the "hex-pair decode" of the
    design document: an optional '+', an optional "0x", at least one
    hexadecimal digit, an optional final newline, then the terminating NUL;
    -EINVAL for anything else and -ERANGE for a value that does not fit.
    [Ok v] stands for return value 0 with [*res = v]. *)
Definition kstrtou8 (s : list Z) : result Z :=
  let s1 := match s with
            | 43 :: t => t
            | _ => s
            end in
  let s2 := match s1 with
            | 48 :: x :: t => if Z.lor x 32 =? 120 then t else s1
            | _ => s1
            end in
  let '(res, rv, rest) := _parse_integer s2 0 O in
  if ULLONG_MAX <? res then Err (- ERANGE)
  else if Nat.eqb rv O then Err (- EINVAL)
  else
    let rest' := match rest with
                 | 10 :: t => t
                 | _ => rest
                 end in
    match rest' with
    | [] => Undefined
    | c :: _ =>
        if negb (c =? NUL) then Err (- EINVAL)
        else if 255 <? res then Err (- ERANGE)
        else Ok res
    end.

(** Modelled from the spec: memcmp (lib/string.c) is not among the sources;
    the generic kernel routine returns the difference of the first pair of
    differing bytes, 0 when the [count] bytes agree. *)
Fixpoint memcmp (cs ct : list Z) (count : nat) {struct count} : result Z :=
  match count with
  | O => Ok 0
  | S n =>
      match cs, ct with
      | a :: cs', b :: ct' =>
          if negb (a - b =? 0) then Ok (a - b) else memcmp cs' ct' n
      | _, _ => Undefined
      end
  end.

(** Upper-case hexadecimal digit for a value in [0, 16). *)
Definition hex_upper (v : Z) : Z :=
  if v <? 10 then 48 + v else 65 + (v - 10).

(** Modelled from the spec: snprintf (lib/vsprintf.c) is not among the
    sources; with the format "%02X" and an unsigned char argument it
    produces two upper-case hexadecimal digits (and returns 2). *)
Definition fmt_02X (b : Z) : list Z :=
  [hex_upper (b / 16); hex_upper (b mod 16)].

(** Modelled from the spec: simple_read_from_buffer (fs/libfs.c) is not
    among the sources; by its kernel-doc it reads up to [count] bytes from
    the buffer [from] of [available] bytes at offset [*ppos]: -EINVAL for a
    negative position, 0 at or past the end or for a zero count, otherwise
    the bytes copied and their number, the position advanced by it.  The
    copy to user space is taken to succeed.  The result is the return value,
    the bytes copied out and the new position. *)
Definition simple_read_from_buffer (count : Z) (pos : Z) (from : list Z)
    (available : Z) : Z * list Z * Z :=
  if pos <? 0 then (- EINVAL, [], pos)
  else if (available <=? pos) || (count =? 0) then (0, [], pos)
  else
    let count' := if available - pos <? count then available - pos else count in
    (count', firstn (Z.to_nat count') (skipn (Z.to_nat pos) from), pos + count').

(** Modelled from the spec: simple_write_to_buffer (fs/libfs.c) is not
    among the sources; by its kernel-doc it writes up to [count] bytes of
    [from] into the buffer [to] of [available] bytes at offset [*ppos], with
    the same conventions as simple_read_from_buffer.  The copy from user
    space is taken to succeed.  The result is the return value and the
    buffer afterwards. *)
Definition simple_write_to_buffer (to : list Z) (available pos : Z)
    (from : list Z) (count : Z) : Z * list Z :=
  if pos <? 0 then (- EINVAL, to)
  else if (available <=? pos) || (count =? 0) then (0, to)
  else
    let count' := if available - pos <? count then available - pos else count in
    let put := map (fun b => b mod 256) (firstn (Z.to_nat count') from) in
    (count',
     firstn (Z.to_nat pos) to ++ put ++ skipn (Z.to_nat pos + length put) to).

(** Modelled from the spec: time_after (linux/jiffies.h) is not among the
    sources; [time_after(a, b)] is [(long)(b - a) < 0] on unsigned long
    values, which stays right across a wrap of the tick counter. *)
Definition BITS_PER_LONG : Z := 64.

Definition to_long (x : Z) : Z :=
  let m := x mod 2 ^ BITS_PER_LONG in
  if m <? 2 ^ (BITS_PER_LONG - 1) then m else m - 2 ^ BITS_PER_LONG.

Definition time_after (a b : Z) : bool := to_long (b - a) <? 0.

End Klib.

(** ** Data model *)

(** [struct raa_dmpvr_cfg_cmd]: one register write of the configuration. *)
Record raa_dmpvr_cfg_cmd : Type := mk_cmd {
  cmd : Z;            (* u8 cmd *)
  len : Z;            (* u8 len *)
  data : list Z       (* u8 data[4] *)
}.

(** [struct raa_dmpvr2_cfg]; its [crc] field is never read or written. *)
Record raa_dmpvr2_cfg : Type := mk_cfg {
  dev_id : list Z;                  (* u8 dev_id[4] *)
  dev_rev : list Z;                 (* u8 dev_rev[4] *)
  slot_cnt : Z;                     (* int slot_cnt *)
  cmd_cnt : Z;                      (* int cmd_cnt *)
  cmds : list raa_dmpvr_cfg_cmd     (* the kmalloc'ed array behind cmds *)
}.

(** Storing into a fixed-size array: an index outside it is undefined. *)
Fixpoint store {A : Type} (l : list A) (i : nat) (x : A) : result (list A) :=
  match l, i with
  | [], _ => Undefined
  | _ :: t, O => Ok (x :: t)
  | a :: t, S i' => t' <- store t i' x ;; Ok (a :: t')
  end.

Definition load {A : Type} (l : list A) (i : nat) : result A :=
  of_option (nth_error l i).

(** ** Config parser *)

Module Parser.

Definition lsta : nat := 2.
Definition csta : nat := 6.
Definition dsta : nat := 8.

Definition sizeof_cfg_cmd : Z := 6.

(** [strlen(buf) - 2] in size_t: it wraps for strings shorter than 2. *)
Definition size_t_sub (a b : Z) : Z := (a - b) mod 2 ^ Klib.BITS_PER_LONG.

(** raa_dmpvr2_hextou8: copies two bytes into [s[3]], terminates them with
    NUL and hands them to kstrtou8. *)
Definition raa_dmpvr2_hextou8 (buf : list Z) : result Z :=
  match buf with
  | c0 :: c1 :: _ => Klib.kstrtou8 [c0; c1; NUL]
  | _ => Undefined
  end.

(** [buf[i+1] != '4' || buf[i+2] != '9'], with [p] pointing at [buf[i+1]]
    and the second byte read only when the first is '4'. *)
Definition not_49 (p : list Z) : result bool :=
  match p with
  | [] => Undefined
  | c1 :: t =>
      if negb (c1 =? CH_4) then Ok true
      else match t with
           | [] => Undefined
           | c2 :: _ => Ok (negb (c2 =? CH_9))
           end
  end.

(** The sizing loop of raa_dmpvr2_parse_cfg.  [p] is [buf + i] and [n] is
    [strlen(buf)]; the loop ends at the first NUL, where [i] reaches [n]. *)
Fixpoint count_lines (p : list Z) (i n : Z) (lcnt ccnt : Z) : result (Z * Z) :=
  match p with
  | [] => Undefined
  | c :: t =>
      if c =? NUL then Ok (lcnt, ccnt)
      else if (c =? NL) && (i <? size_t_sub n 2) then
        b <- not_49 t ;;
        count_lines t (i + 1) n (lcnt + 1) (if b then ccnt + 1 else ccnt)
      else count_lines t (i + 1) n lcnt ccnt
  end.

(** One header line: four hex pairs from column [dsta], stored from index 3
    down to index 0. *)
Fixpoint parse_header_bytes (cptr : list Z) (count : nat) : result (list Z) :=
  match count with
  | O => Ok []
  | S j =>
      b <- raa_dmpvr2_hextou8 cptr ;;
      lower <- parse_header_bytes (skipn 2 cptr) j ;;
      Ok (lower ++ [b])
  end.

Definition parse_header_line (line : option (list Z)) : result (list Z) :=
  match line with
  | None => Undefined
  | Some l => parse_header_bytes (skipn dsta l) 4
  end.

(** The payload loop [for (j = 0; j < cmds[i].len; j++)]; [todo] counts the
    iterations left.  [data] has four bytes, so a fifth store is undefined. *)
Fixpoint parse_payload (line : list Z) (d : list Z) (j todo : nat)
  : result (list Z) :=
  match todo with
  | O => Ok d
  | S todo' =>
      b <- raa_dmpvr2_hextou8 (skipn (dsta + 2 * j) line) ;;
      d' <- store d j b ;;
      parse_payload line d' (S j) todo'
  end.

(** The body of [if (strncmp(line, "49", 2) != 0)]: fills [cmds[i]]. *)
Definition parse_cmd (line : list Z) (cmds : list raa_dmpvr_cfg_cmd) (i : nat)
  : result (list raa_dmpvr_cfg_cmd) :=
  b <- raa_dmpvr2_hextou8 (skipn lsta line) ;;
  old <- load cmds i ;;
  let l := (b - 3) mod 256 in
  c <- raa_dmpvr2_hextou8 (skipn csta line) ;;
  d <- parse_payload line (data old) 0 (Z.to_nat l) ;;
  store cmds i (mk_cmd c l d).

(** The command loop [while (line != NULL && strlen(line) > dsta + 2)].
    It returns the array and the number of entries filled. *)
Fixpoint parse_cmds (fuel : nat) (line buf : option (list Z))
    (cmds : list raa_dmpvr_cfg_cmd) (i : nat)
  : result (list raa_dmpvr_cfg_cmd * nat) :=
  match fuel with
  | O => OutOfFuel
  | S fuel' =>
      match line with
      | None => Ok (cmds, i)
      | Some l =>
          n <- Klib.strlen l ;;
          if (n <=? dsta + 2)%nat then Ok (cmds, i)
          else
            is49 <- Klib.strncmp_49_is_zero l ;;
            ' (cmds', i') <- (if is49 then Ok (cmds, i)
                              else cmds' <- parse_cmd l cmds i ;;
                                   Ok (cmds', S i)) ;;
            r <- Klib.strsep buf ;;
            parse_cmds fuel' (Klib.tok r) (Klib.cursor r) cmds' i'
      end
  end.

(** The array returned by [kmalloc(ccnt * sizeof(struct raa_dmpvr_cfg_cmd))]:
    [ccnt] entries holding whatever the fresh memory [junk] holds. *)
Definition fresh_cmds (junk : nat -> Z) (ccnt : Z) : list raa_dmpvr_cfg_cmd :=
  map (fun k => mk_cmd (junk (6 * k)%nat) (junk (6 * k + 1)%nat)
                  [junk (6 * k + 2)%nat; junk (6 * k + 3)%nat;
                   junk (6 * k + 4)%nat; junk (6 * k + 5)%nat])
      (seq 0 (Z.to_nat ccnt)).

(** raa_dmpvr2_parse_cfg.  [kmalloc] answers the one allocation request of
    the function: [None] for NULL, otherwise the content of the fresh
    memory.  [Ok cfg] is return value 0 with [*cfg] filled; the number of
    array entries the command loop filled comes along. *)
Definition parse_cfg_filled (kmalloc : Z -> option (nat -> Z)) (buf : list Z)
  : result (raa_dmpvr2_cfg * nat) :=
  n <- Klib.strlen buf ;;
  ' (lcnt, ccnt) <- count_lines buf 0 (Z.of_nat n) 1 0 ;;
  let slots := Z.quot (lcnt - RAA_DMPVR2_CFG_HEAD_LEN) RAA_DMPVR2_CFG_SLOT_LEN in
  if (slots <? 1) || (RAA_DMPVR2_CFG_MAX_SLOT <? slots) then Err (- EINVAL)
  else
    match kmalloc (ccnt * sizeof_cfg_cmd) with
    | None => Err (- ENOMEM)
    | Some junk =>
        r1 <- Klib.strsep (Some buf) ;;
        id <- parse_header_line (Klib.tok r1) ;;
        r2 <- Klib.strsep (Klib.cursor r1) ;;
        rev <- parse_header_line (Klib.tok r2) ;;
        ' (cs, filled) <- parse_cmds (S (S (length buf))) (Klib.tok r2)
                            (Klib.cursor r2) (fresh_cmds junk ccnt) 0 ;;
        Ok (mk_cfg id rev slots ccnt cs, filled)
    end.

Definition raa_dmpvr2_parse_cfg (kmalloc : Z -> option (nat -> Z))
    (buf : list Z) : result raa_dmpvr2_cfg :=
  ' (cfg, _) <- parse_cfg_filled kmalloc buf ;; Ok cfg.

(** The number of bytes a cursor can still move over, NULL counting 0. *)
Definition cursor_size (buf : option (list Z)) : nat :=
  match buf with
  | None => 0
  | Some p => S (length p)
  end.

(** Every entry of the array has its four data bytes. *)
Definition data4 (c : raa_dmpvr_cfg_cmd) : Prop := length (data c) = 4%nat.

End Parser.

(** ** The platform: bus, clock and allocator

    Everything outside the driver that its code consults.  [W] is the state
    of the world: the device behind the bus, the tick counter and the
    memory the kernel hands out. *)

Inductive i2c_msg : Type :=
| I2C_WR (buf : list Z)     (* a message without I2C_M_RD: bytes sent *)
| I2C_RD (len : nat).       (* a message with I2C_M_RD: bytes requested *)

Class Platform (W : Type) : Type := {
  (* i2c_transfer(adapter, msg, n): the return value, and the bytes put into
     the buffer of the read message ([None]: the buffer is left as it was) *)
  i2c_transfer : W -> list i2c_msg -> W * (Z * option (list Z));
  (* i2c_smbus_write_word_data(client, command, value): the return value *)
  i2c_smbus_write_word_data : W -> Z -> Z -> W * Z;
  (* the tick counter, and ticks per second *)
  jiffies : W -> Z;
  HZ : Z;
  (* kmalloc(size, GFP_KERNEL): NULL, or the content of the fresh memory *)
  kmalloc : W -> Z -> option (nat -> Z);
  (* the indeterminate content of an uninitialised automatic array *)
  auto_junk : W -> nat -> Z
}.

(** A computation on the world with a [result]. *)
Definition io (W A : Type) : Type := W -> W * result A.

Definition io_ret {W A : Type} (a : A) : io W A := fun w => (w, Ok a).

Definition io_lift {W A : Type} (r : result A) : io W A := fun w => (w, r).

Definition io_bind {W A B : Type} (c : io W A) (k : A -> io W B) : io W B :=
  fun w =>
    match c w with
    | (w', Ok a) => k a w'
    | (w', Err e) => (w', Err e)
    | (w', Undefined) => (w', Undefined)
    | (w', OutOfFuel) => (w', OutOfFuel)
    end.

Notation "x <~ c ;; k" := (io_bind c (fun x => k))
  (at level 61, c at next level, right associativity).
Notation "' p <~ c ;; k" := (io_bind c (fun x => let p := x in k))
  (at level 61, p pattern, c at next level, right associativity).

(** What a call leaves in a [len]-byte read buffer that held [old]. *)
Definition rx_into (old : list Z) (len : nat) (rx : option (list Z)) : list Z :=
  match rx with
  | None => old
  | Some bs =>
      let got := map (fun b => b mod 256) (firstn len bs) in
      got ++ skipn (length got) old
  end.

Module Driver.

Section WithPlatform.

Context {W : Type} {P : Platform W}.

(** *** Transport helpers: status and the caller's buffer afterwards *)

Definition raa_smbus_read40 (command : Z) (data : list Z) : io W (Z * list Z) :=
  fun w =>
    let '(w', (status, rx)) := i2c_transfer w [I2C_WR [command]; I2C_RD 5] in
    (w', Ok (if negb (status =? 2) then status else 0, rx_into data 5 rx)).

Definition raa_dmpvr2_smbus_read32 (command : Z) (data : list Z)
  : io W (Z * list Z) :=
  fun w =>
    let '(w', (status, rx)) := i2c_transfer w [I2C_WR [command]; I2C_RD 4] in
    (w', Ok (if negb (status =? 2) then status else 0, rx_into data 4 rx)).

Definition raa_dmpvr2_smbus_write32 (command value : Z) : io W Z :=
  fun w =>
    let msgbuf := [command;
                   Z.land value 0xFF;
                   Z.land (Z.shiftr value 8) 0xFF;
                   Z.land (Z.shiftr value 16) 0xFF;
                   Z.land (Z.shiftr value 24) 0xFF] in
    let '(w', (status, _)) := i2c_transfer w [I2C_WR msgbuf] in
    (w', Ok (if negb (status =? 1) then status else 0)).

Definition smbus_write_word (command value : Z) : io W Z :=
  fun w => let '(w', status) := i2c_smbus_write_word_data w command value in
           (w', Ok status).

Definition junk_array (n : nat) : io W (list Z) :=
  fun w => (w, Ok (map (auto_junk w) (seq 0 n))).

(** *** Black-box reader *)

(** [optr += snprintf(optr, sizeof(out), "%02X", b)]: two digits and the
    terminating NUL are stored at [optr]. *)
Definition put_02X (out : list Z) (optr : nat) (b : Z) : result (list Z * nat) :=
  match Klib.fmt_02X b with
  | [h; l] =>
      o1 <- store out optr h ;;
      o2 <- store o1 (S optr) l ;;
      o3 <- store o2 (S (S optr)) NUL ;;
      Ok (o3, (optr + 2)%nat)
  | _ => Undefined
  end.

(** The inner loop [for (j = 0; j < RAA_DMPVR2_BB_WSIZE; j++)]. *)
Fixpoint bb_word (out : list Z) (optr : nat) (data : list Z) (j todo : nat)
  : result (list Z * nat) :=
  match todo with
  | O => Ok (out, optr)
  | S todo' =>
      b <- load data j ;;
      ' (out', optr') <- put_02X out optr b ;;
      bb_word out' optr' data (S j) todo'
  end.

(** The outer loop [for (i = 0; i < RAA_DMPVR2_BB_WCNT; i++)]; the status
    of the read is dropped, as in the source. *)
Fixpoint bb_loop (out : list Z) (optr : nat) (data : list Z) (todo : nat)
  : io W (list Z) :=
  match todo with
  | O => io_ret out
  | S todo' =>
      ' (_, data') <~ raa_dmpvr2_smbus_read32 RAA_DMPVR2_DMA_SEQ data ;;
      ' (out1, optr1) <~ io_lift (bb_word out optr data' 0 RAA_DMPVR2_BB_WSIZE) ;;
      out2 <~ io_lift (store out1 optr1 NL) ;;
      bb_loop out2 (S optr1) data' todo'
  end.

(** The buffer [out] as raa_dmpvr2_read_black_box leaves it before the copy
    to user space. *)
Definition black_box_text : io W (list Z) :=
  _ <~ smbus_write_word RAA_DMPVR2_DMA_ADDR RAA_DMPVR2_BB_BASE_ADDR ;;
  bb_loop (repeat 0 RAA_DMPVR2_BB_BUF_SIZE) 0 (repeat 0 RAA_DMPVR2_BB_WSIZE)
          RAA_DMPVR2_BB_WCNT.

(** raa_dmpvr2_read_black_box: the return value, the bytes handed to the
    caller and the new file position. *)
Definition raa_dmpvr2_read_black_box (len : Z) (ppos : Z)
  : io W (Z * list Z * Z) :=
  out <~ black_box_text ;;
  io_ret (Klib.simple_read_from_buffer len ppos out
            (Z.of_nat RAA_DMPVR2_BB_BUF_SIZE)).

(** *** Device verifier *)

(** raa_dmpvr2_verify_device: its return value. *)
Definition raa_dmpvr2_verify_device (cfg : raa_dmpvr2_cfg) : io W Z :=
  id0 <~ junk_array 5 ;;
  rev0 <~ junk_array 5 ;;
  ' (status, id) <~ raa_smbus_read40 PMBUS_IC_DEVICE_ID id0 ;;
  if negb (status =? 0) then io_ret status
  else
    ' (status, rev) <~ raa_smbus_read40 PMBUS_IC_DEVICE_REV rev0 ;;
    if negb (status =? 0) then io_ret status
    else
      a <~ io_lift (Klib.memcmp (dev_id cfg) (skipn 1 id) 4) ;;
      b <~ io_lift (Klib.memcmp (skipn 3 (dev_rev cfg)) (skipn 4 rev) 1) ;;
      io_ret (Z.lor a b).

(** raa_dmpvr2_check_cfg: its return value.  [data] is not initialised and
    both statuses are dropped, as in the source. *)
Definition raa_dmpvr2_check_cfg (cfg : raa_dmpvr2_cfg) : io W Z :=
  data0 <~ junk_array 4 ;;
  _ <~ smbus_write_word RAA_DMPVR2_DMA_ADDR RAA_DMPVR2_NVM_CNT_ADDR ;;
  ' (_, data) <~ raa_dmpvr2_smbus_read32 RAA_DMPVR2_DMA_SEQ data0 ;;
  d0 <~ io_lift (load data 0) ;;
  if d0 <? slot_cnt cfg then io_ret (- EINVAL) else io_ret 0.

(** *** Programming engine *)

(** One pass of the loop of raa_dmpvr2_send_cfg over [cmds[i]]: [None] to
    go on with the next command, [Some r] for [return r]. *)
Definition send_one (c : raa_dmpvr_cfg_cmd) : io W (option Z) :=
  if len c =? 2 then
    d0 <~ io_lift (load (data c) 0) ;;
    d1 <~ io_lift (load (data c) 1) ;;
    let word := (Z.lor d0 (Z.shiftl d1 8)) mod 2 ^ 16 in
    status <~ smbus_write_word (cmd c) word ;;
    io_ret (if status <? 0 then Some status else None)
  else if len c =? 4 then
    d0 <~ io_lift (load (data c) 0) ;;
    d1 <~ io_lift (load (data c) 1) ;;
    d2 <~ io_lift (load (data c) 2) ;;
    d3 <~ io_lift (load (data c) 3) ;;
    let dbl_word := (Z.lor (Z.lor (Z.lor d0 (Z.shiftl d1 8)) (Z.shiftl d2 16))
                           (Z.shiftl d3 24)) mod 2 ^ 32 in
    status <~ raa_dmpvr2_smbus_write32 (cmd c) dbl_word ;;
    io_ret (if status <? 0 then Some status else None)
  else io_ret (Some (- EINVAL)).

Fixpoint send_loop (cs : list raa_dmpvr_cfg_cmd) (i todo : nat) : io W Z :=
  match todo with
  | O => io_ret 0
  | S todo' =>
      c <~ io_lift (load cs i) ;;
      r <~ send_one c ;;
      match r with
      | Some status => io_ret status
      | None => send_loop cs (S i) todo'
      end
  end.

(** raa_dmpvr2_send_cfg: its return value. *)
Definition raa_dmpvr2_send_cfg (cfg : raa_dmpvr2_cfg) : io W Z :=
  send_loop (cmds cfg) 0 (Z.to_nat (cmd_cnt cfg)).

(** The polling loop
    [while (data[0] == 0 && !time_after(jiffies, start + HZ + HZ))];
    it yields [data] and the number of reads made. *)
Fixpoint poll_status (fuel : nat) (start : Z) (data : list Z) (reads : nat)
  : io W (list Z * nat) :=
  match fuel with
  | O => io_lift OutOfFuel
  | S fuel' =>
      d0 <~ io_lift (load data 0) ;;
      fun w =>
        if (d0 =? 0) && negb (Klib.time_after (jiffies w) (start + HZ + HZ))
        then (' (_, data') <~ raa_dmpvr2_smbus_read32 RAA_DMPVR2_DMA_FIX data ;;
              poll_status fuel' start data' (S reads)) w
        else (w, Ok (data, reads))
  end.

(** The status nibble of slot [i]:
    [(dptr[j/2] >> (4 * (j % 2))) & 0x0F]. *)
Definition slot_status (data data1 : list Z) (i : Z) : result Z :=
  let '(j, dptr) := if i <? 8 then (i, data) else (i - 8, data1) in
  b <- load dptr (Z.to_nat (Z.quot j 2)) ;;
  Ok (Z.land (Z.shiftr b (4 * Z.rem j 2)) 0x0F).

(** The loop [for (i = 0; i < cfg->slot_cnt; i++)]: the return value and
    the value of [i] when the loop is left. *)
Fixpoint check_slots (data data1 : list Z) (i : Z) (todo : nat)
  : result (Z * Z) :=
  match todo with
  | O => Ok (0, i)
  | S todo' =>
      status <- slot_status data data1 i ;;
      if negb (status =? 1) then Ok (- EIO, i)
      else check_slots data data1 (i + 1) todo'
  end.

(** raa_dmpvr2_cfg_write_result: its return value.  [fuel] bounds the
    number of polls the model follows. *)
Definition raa_dmpvr2_cfg_write_result (fuel : nat) (cfg : raa_dmpvr2_cfg)
  : io W Z :=
  data1_0 <~ junk_array 4 ;;
  fun w0 =>
    let start := jiffies w0 in
    (_ <~ smbus_write_word RAA_DMPVR2_DMA_ADDR RAA_DMPVR2_PRGM_STATUS_ADDR ;;
     ' (data, _) <~ poll_status fuel start (repeat 0 4) 0 ;;
     d0 <~ io_lift (load data 0) ;;
     if negb (d0 =? 1) then io_ret (- ETIME)
     else
       _ <~ smbus_write_word RAA_DMPVR2_DMA_ADDR RAA_DMPVR2_BANK0_STATUS_ADDR ;;
       ' (_, data) <~ raa_dmpvr2_smbus_read32 RAA_DMPVR2_DMA_FIX data ;;
       _ <~ smbus_write_word RAA_DMPVR2_DMA_ADDR RAA_DMPVR2_BANK1_STATUS_ADDR ;;
       ' (_, data1) <~ raa_dmpvr2_smbus_read32 RAA_DMPVR2_DMA_FIX data1_0 ;;
       ' (ret, _) <~ io_lift (check_slots data data1 0
                                (Z.to_nat (slot_cnt cfg))) ;;
       io_ret ret) w0.

(** *** Diagnostic port *)

Definition sizeof_cfg : Z := 32.

(** The part of raa_dmpvr2_write_cfg that follows a successful parse: the
    four device steps, each leaving through [dev_err] on a non-zero status,
    and [return ret] at the end. *)
Definition program_device (fuel : nat) (cfg : raa_dmpvr2_cfg) (ret : Z)
  : io W Z :=
  status <~ raa_dmpvr2_verify_device cfg ;;
  if negb (status =? 0) then io_ret status
  else
    status <~ raa_dmpvr2_check_cfg cfg ;;
    if negb (status =? 0) then io_ret status
    else
      status <~ raa_dmpvr2_send_cfg cfg ;;
      if negb (status =? 0) then io_ret status
      else
        status <~ raa_dmpvr2_cfg_write_result fuel cfg ;;
        if negb (status =? 0) then io_ret status
        else io_ret ret.

(** raa_dmpvr2_write_cfg: its return value.  [ubuf] holds the [len] bytes
    the caller passes and [ppos] the file position. *)
Definition raa_dmpvr2_write_cfg (fuel : nat) (ubuf : list Z) (ppos : Z)
  : io W Z :=
  fun w =>
    let len := Z.of_nat (length ubuf) in
    match kmalloc w sizeof_cfg with
    | None => (w, Ok (- ENOMEM))
    | Some _ =>
        match kmalloc w len with
        | None => (w, Ok (- ENOMEM))
        | Some junk =>
            let '(ret, cbuf) :=
              Klib.simple_write_to_buffer (map junk (seq 0 (length ubuf)))
                                          len ppos ubuf len in
            match Parser.raa_dmpvr2_parse_cfg (kmalloc w) cbuf with
            | Err status => (w, Ok status)
            | Undefined => (w, Undefined)
            | OutOfFuel => (w, OutOfFuel)
            | Ok cfg => program_device fuel cfg ret w
            end
        end
    end.

(** The two debugfs entries. *)
Inductive debugfs_entry : Type :=
| RAA_DMPVR2_DEBUGFS_CFG_W
| RAA_DMPVR2_DEBUGFS_BB_R.

(** raa_dmpvr2_debugfs_read: the dump endpoint. *)
Definition raa_dmpvr2_debugfs_read (idx : debugfs_entry) (len ppos : Z)
  : io W (Z * list Z * Z) :=
  match idx with
  | RAA_DMPVR2_DEBUGFS_BB_R => raa_dmpvr2_read_black_box len ppos
  | _ => io_ret (- EINVAL, [], ppos)
  end.

(** raa_dmpvr2_debugfs_write: the program endpoint. *)
Definition raa_dmpvr2_debugfs_write (fuel : nat) (idx : debugfs_entry)
    (ubuf : list Z) (ppos : Z) : io W Z :=
  match idx with
  | RAA_DMPVR2_DEBUGFS_CFG_W => raa_dmpvr2_write_cfg fuel ubuf ppos
  | _ => io_ret (- EINVAL)
  end.

End WithPlatform.

End Driver.

(** ** Configuration files as lists of lines *)

Module Format.

(** The text of a file whose lines each end in a newline. *)
Definition unlines (ls : list (list Z)) : list Z :=
  concat (map (fun l => l ++ [NL]) ls).

(** A line holds neither NUL nor newline. *)
Definition text_line (l : list Z) : bool :=
  forallb (fun c => negb (c =? NUL) && negb (c =? NL)) l.

Definition nonempty_text (l : list Z) : bool :=
  text_line l && negb (Nat.eqb (length l) 0).

(** The line begins with the two characters "49". *)
Definition starts_49 (l : list Z) : bool :=
  match l with
  | c0 :: c1 :: _ => (c0 =? CH_4) && (c1 =? CH_9)
  | _ => false
  end.

Definition is_hex (c : Z) : bool :=
  match Klib.hex_digit c with
  | Some _ => true
  | None => false
  end.

(** The characters that _parse_integer takes for hexadecimal digits. *)
Definition hex_chars : list Z :=
  [48; 49; 50; 51; 52; 53; 54; 55; 56; 57;
   65; 66; 67; 68; 69; 70; 97; 98; 99; 100; 101; 102].

Definition hex_value (c : Z) : Z :=
  match Klib.hex_digit c with
  | Some v => v
  | None => 0
  end.

(** [n] pairs of hexadecimal digits from column [off] on. *)
Definition hex_pairs_at (off n : nat) (l : list Z) : bool :=
  (off + 2 * n <=? length l)%nat && forallb is_hex (firstn (2 * n) (skipn off l)).

(** The byte written by the pair of digits at column [off]. *)
Definition pair_value (off : nat) (l : list Z) : Z :=
  16 * hex_value (nth off l 0) + hex_value (nth (S off) l 0).

(** Device-identity lines are of the type "49" and carry four hex pairs
    from column 8. *)
Definition header_line (l : list Z) : bool :=
  text_line l && starts_49 l && hex_pairs_at 8 4 l.

(** Sentinel lines: any text beginning with "49". *)
Definition sentinel_line (l : list Z) : bool :=
  text_line l && starts_49 l.

(** Command lines: encoded length at column 2 (payload length plus 3, the
    payload being 2 or 4 bytes), register at column 6, payload pairs from
    column 8. *)
Definition command_line (l : list Z) : bool :=
  text_line l && negb (starts_49 l)
  && hex_pairs_at 2 1 l && hex_pairs_at 6 1 l
  && ((pair_value 2 l =? 5) && hex_pairs_at 8 2 l
      || (pair_value 2 l =? 7) && hex_pairs_at 8 4 l).

Definition data_line (l : list Z) : bool :=
  sentinel_line l || command_line l.

(** A line the command loop does not stop at: more than 10 characters. *)
Definition long_line (l : list Z) : bool := (10 <? length l)%nat.

(** The number of lines that do not begin with "49". *)
Definition count_commands (ls : list (list Z)) : Z :=
  Z.of_nat (length (filter (fun l => negb (starts_49 l)) ls)).

(** A C string: no NUL among its characters. *)
Definition c_string (s : list Z) : bool :=
  forallb (fun c => negb (c =? NUL)) s.

(** The line count of a string as the sizing loop takes it: 1, and 1 more
    for every newline at an index below [strlen - 2].  In size_t that bound
    wraps for a string shorter than 2, all of whose newlines then count. *)
Definition counted_lines (s : list Z) : Z :=
  1 + Z.of_nat (count_occ Z.eq_dec
                  (firstn (if (length s <? 2)%nat then length s
                           else (length s - 2)%nat) s) NL).

(** A well-formed file of [k] slots: 290 + 358 k lines, two header lines,
    then sentinel and command lines. *)
Definition well_formed (k : Z) (ls : list (list Z)) : bool :=
  (1 <=? k) && (k <=? RAA_DMPVR2_CFG_MAX_SLOT)
  && (Z.of_nat (length ls)
      =? RAA_DMPVR2_CFG_HEAD_LEN + RAA_DMPVR2_CFG_SLOT_LEN * k)
  && match ls with
     | h1 :: h2 :: body =>
         header_line h1 && header_line h2 && forallb data_line body
     | _ => false
     end.

(** How the design document has the black box rendered: each byte of a
    word as two upper-case hexadecimal digits, a newline after the word. *)
Definition render_word (w : list Z) : list Z :=
  concat (map Klib.fmt_02X w) ++ [NL].

Definition render_words (ws : list (list Z)) : list Z :=
  concat (map render_word ws).

Definition is_upper_hex (c : Z) : bool :=
  (48 <=? c) && (c <=? 57) || (65 <=? c) && (c <=? 70).

(** How the design document has a slot status decoded: slot [i < 8] is the
    nibble [(bank0[i/2] >> (4*(i%2))) & 0xF], slot [i >= 8] the like nibble
    of bank 1 at [i - 8]. *)
Definition spec_nibble (bank0 bank1 : list Z) (i : Z) : Z :=
  if i <? 8
  then Z.land (Z.shiftr (nth (Z.to_nat (i / 2)) bank0 0) (4 * (i mod 2))) 0xF
  else Z.land (Z.shiftr (nth (Z.to_nat ((i - 8) / 2)) bank1 0)
                        (4 * ((i - 8) mod 2))) 0xF.

Definition byte_range (b : Z) : Prop := 0 <= b < 256.

End Format.

(** ** A simulated device

    A scripted world for running the driver: transfers are answered from a
    script, every bus transaction takes [tick] ticks, and all traffic is
    logged. *)

Module Sim.

Inductive bus_event : Type :=
| Transfer (msgs : list i2c_msg)
| WriteWord (command value : Z).

Record world : Type := mk_world {
  script : list (Z * option (list Z));   (* answers of i2c_transfer, in order *)
  fallback : Z * option (list Z);        (* the answer once the script is used up *)
  word_status : Z;                       (* status of i2c_smbus_write_word_data *)
  now : Z;                               (* the tick counter *)
  tick : Z;                              (* ticks taken by one transaction *)
  junk : Z;                              (* the byte found in fresh memory *)
  log : list bus_event                   (* traffic so far, oldest first *)
}.

Definition sim_transfer (w : world) (msgs : list i2c_msg)
  : world * (Z * option (list Z)) :=
  let answer := match script w with
                | a :: _ => a
                | [] => fallback w
                end in
  (mk_world (tl (script w)) (fallback w) (word_status w) (now w + tick w)
            (tick w) (junk w) (log w ++ [Transfer msgs]),
   answer).

Definition sim_write_word (w : world) (command value : Z) : world * Z :=
  (mk_world (script w) (fallback w) (word_status w) (now w + tick w)
            (tick w) (junk w) (log w ++ [WriteWord command value]),
   word_status w).

#[global] Instance sim_platform : Platform world := {
  i2c_transfer := sim_transfer;
  i2c_smbus_write_word_data := sim_write_word;
  jiffies := now;
  HZ := 100;
  kmalloc := fun w _ => Some (fun _ => junk w);
  auto_junk := fun w _ => junk w
}.

(** A healthy read of [bs], and a transfer that fails with -EIO. *)
Definition reads (bs : list Z) : Z * option (list Z) := (2, Some bs).
Definition written : Z * option (list Z) := (1, None).
Definition failing : Z * option (list Z) := (- EIO, None).

Definition start (sc : list (Z * option (list Z))) (fb : Z * option (list Z))
  : world :=
  mk_world sc fb 0 0 1 0 [].

(** A bus on which every transaction fails with -EIO, fresh memory holding
    the byte [j]. *)
Definition dead_bus (j : Z) : world :=
  mk_world [] failing (- EIO) 0 1 j [].

(** Sample lines of a configuration file. *)
Definition hdr_id : list Z := bytes_of_string "49070000040302010000".
Definition hdr_rev : list Z := bytes_of_string "49070000050000000000".
Definition sentinel : list Z := bytes_of_string "4900000000000".
Definition cmd4 : list Z := bytes_of_string "00070010AABBCCDD".
Definition cmd2 : list Z := bytes_of_string "000500201122".
Definition cmd3 : list Z := bytes_of_string "00060030112233".

(** One slot: 648 lines, two of them commands. *)
Definition lines_648 : list (list Z) :=
  hdr_id :: hdr_rev :: cmd4 :: cmd2 :: repeat sentinel 644.

(** One line more than one slot. *)
Definition lines_649 : list (list Z) := lines_648 ++ [sentinel].

(** One slot, with a command line declaring the encoded length 06. *)
Definition lines_len3 : list (list Z) :=
  hdr_id :: hdr_rev :: cmd4 :: cmd3 :: repeat sentinel 644.

Definition blob (ls : list (list Z)) : list Z := Format.unlines ls ++ [NUL].

(** 6376 lines, 290 + 17 * 358, with an empty line among them. *)
Definition lines_6376_gap : list (list Z) :=
  hdr_id :: hdr_rev
  :: repeat sentinel 3000 ++ [] :: repeat sentinel 3373.

(** 6376 lines, the last of them empty. *)
Definition lines_6376_short : list (list Z) :=
  hdr_id :: hdr_rev :: repeat sentinel 3000 ++ repeat sentinel 3373 ++ [[]].

(** 6375 lines and one more character that no newline follows. *)
Definition text_6375_and_one : list Z :=
  Format.unlines (hdr_id :: hdr_rev
                  :: repeat sentinel 3000 ++ repeat sentinel 3373)
  ++ [CH_4].

Definition plain_kmalloc : Z -> option (nat -> Z) := fun _ => Some (fun _ => 0).

End Sim.

(** ** What the device is seen to answer *)

Module Observe.

Section WithPlatform.

Context {W : Type} {P : Platform W}.

(** The next reads of the sequential window are answered with the words
    [ws]: the world they leave, or [None] when an answer differs. *)
Fixpoint reads_yield (w : W) (ws : list (list Z)) : option W :=
  match ws with
  | [] => Some w
  | d :: ws' =>
      let '(w1, (_, rx)) :=
        i2c_transfer w [I2C_WR [RAA_DMPVR2_DMA_SEQ]; I2C_RD 4] in
      match rx with
      | Some d' =>
          if list_eq_dec Z.eq_dec d' d then reads_yield w1 ws' else None
      | None => None
      end
  end.

(** The content of [data] after each of [todo] reads of the sequential
    window, and the world they leave. *)
Fixpoint bb_words (todo : nat) (data : list Z) (w : W) : list (list Z) * W :=
  match todo with
  | O => ([], w)
  | S n =>
      let '(w1, (_, rx)) :=
        i2c_transfer w [I2C_WR [RAA_DMPVR2_DMA_SEQ]; I2C_RD 4] in
      let d := rx_into data 4 rx in
      let '(ws, w') := bb_words n d w1 in
      (d :: ws, w')
  end.

(** One read of the fixed window, as the status poll issues it. *)
Definition poll_read (w : W) : W * (Z * option (list Z)) :=
  i2c_transfer w [I2C_WR [RAA_DMPVR2_DMA_FIX]; I2C_RD 4].

(** The world after [n] status polls. *)
Fixpoint after_polls (n : nat) (w : W) : W :=
  match n with
  | O => w
  | S n' => after_polls n' (fst (poll_read w))
  end.

(** The answer leaves a zero in the first byte of a buffer that held one:
    no data at all, or a first byte of 0. *)
Definition leaves_zero (rx : option (list Z)) : bool :=
  match rx with
  | Some (b :: _) => b mod 256 =? 0
  | _ => true
  end.

(** A status poll made in the world [w] reports "busy". *)
Definition busy_at (w : W) : bool := leaves_zero (snd (snd (poll_read w))).

(** The deadline of the poll started at tick [start] has passed in [w]. *)
Definition expired (start : Z) (w : W) : bool :=
  Klib.time_after (jiffies w) (start + HZ + HZ).

End WithPlatform.

End Observe.

(** ** Outcomes of the hex-pair decoder *)

Module Decode.

(** Equality of two outcomes that are a value or an error code. *)
Definition same_result (r1 r2 : result Z) : bool :=
  match r1, r2 with
  | Ok x, Ok y => x =? y
  | Err x, Err y => x =? y
  | _, _ => false
  end.

(** What the engine uses of an array entry: the command code, the length
    and the first [len] data bytes. *)
Definition command_view (c : raa_dmpvr_cfg_cmd) : Z * Z * list Z :=
  (cmd c, len c, firstn (Z.to_nat (len c)) (data c)).

(** What a command line of the file says: the command code at column 6,
    the encoded length at column 2 less 3, and that many data bytes from
    column 8 on, in the order of the line. *)
Definition decode_command (l : list Z) : Z * Z * list Z :=
  (Format.pair_value 6 l,
   Format.pair_value 2 l - 3,
   map (fun k => Format.pair_value (8 + 2 * k) l)
       (seq 0 (Z.to_nat (Format.pair_value 2 l - 3)))).

(** The command lines among the lines [ls]. *)
Definition command_lines (ls : list (list Z)) : list (list Z) :=
  filter (fun l => negb (Format.starts_49 l)) ls.

(** The two characters at column [off] of a text line are taken by the
    decoder: two hexadecimal digits, or a plus sign and one digit. *)
Definition pair_ok (l : list Z) (off : nat) : bool :=
  let a := nth off l 0 in
  let b := nth (S off) l 0 in
  Format.is_hex a && Format.is_hex b || (a =? 43) && Format.is_hex b.

(** The byte they are decoded to. *)
Definition pair_decoded (l : list Z) (off : nat) : Z :=
  let a := nth off l 0 in
  let b := nth (S off) l 0 in
  if Format.is_hex a && Format.is_hex b
  then 16 * Format.hex_value a + Format.hex_value b
  else Format.hex_value b.

(** The payload length a command line declares: the byte at column 2 less
    3, as a u8. *)
Definition declared_len (l : list Z) : nat :=
  Z.to_nat ((pair_decoded l 2 - 3) mod 256).

(** A header line with a malformed pair among the four from column 8. *)
Definition malformed_header (l : list Z) : bool :=
  negb (forallb (fun k => pair_ok l (8 + 2 * k)) (seq 0 4)).

(** A command line with a malformed length, command code, or payload pair
    among those the declared length has the parser store. *)
Definition malformed_command (l : list Z) : bool :=
  negb (pair_ok l 2) || negb (pair_ok l 6)
  || negb (forallb (fun k => pair_ok l (8 + 2 * k))
                   (seq 0 (Nat.min 4 (declared_len l)))).

(** The number of lines gives a slot count the parser accepts. *)
Definition slots_in_range (ls : list (list Z)) : bool :=
  let k := Z.quot (Z.of_nat (length ls) - RAA_DMPVR2_CFG_HEAD_LEN)
                  RAA_DMPVR2_CFG_SLOT_LEN in
  (1 <=? k) && (k <=? RAA_DMPVR2_CFG_MAX_SLOT).

(** A command line that declares more than 4 payload bytes and carries at
    least five well-formed payload pairs. *)
Definition overlong_command (l : list Z) : bool :=
  pair_ok l 2 && pair_ok l 6
  && forallb (fun k => pair_ok l (8 + 2 * k)) (seq 0 5)
  && (4 <? declared_len l)%nat.

End Decode.

(** ** Traffic on the simulated bus *)

Module Traffic.

(** Every transaction of the simulated device succeeds: no status below 0. *)
Definition healthy (w : Sim.world) : bool :=
  (0 <=? Sim.word_status w)
  && forallb (fun a => 0 <=? fst a) (Sim.script w)
  && (0 <=? fst (Sim.fallback w)).

(** The bus transaction that carries one command of length 2 or 4: a
    write-word with the two data bytes, low byte first, or a block write of
    the command code and the four data bytes. *)
Definition wire_event (c : raa_dmpvr_cfg_cmd) : Sim.bus_event :=
  if len c =? 2
  then Sim.WriteWord (cmd c) (nth 0 (data c) 0 + 256 * nth 1 (data c) 0)
  else Sim.Transfer [I2C_WR (cmd c :: data c)].

(** A command the engine transmits: length 2 or 4, four data bytes. *)
Definition sendable (c : raa_dmpvr_cfg_cmd) : bool :=
  ((len c =? 2) || (len c =? 4))
  && Nat.eqb (length (data c)) 4
  && forallb (fun b => (0 <=? b) && (b <? 256)) (data c).

(** The transaction that carries a command given by its code, length and
    data bytes, and the one a command line of the file asks for. *)
Definition view_event (v : Z * Z * list Z) : Sim.bus_event :=
  let '(c, n, d) := v in
  if n =? 2 then Sim.WriteWord c (nth 0 d 0 + 256 * nth 1 d 0)
  else Sim.Transfer [I2C_WR (c :: d)].

Definition line_event (l : list Z) : Sim.bus_event :=
  view_event (Decode.decode_command l).

(** Every data byte of the entry is a byte. *)
Definition byte_data (c : raa_dmpvr_cfg_cmd) : Prop :=
  Forall Format.byte_range (data c).

(** The simulated world after [events] have gone over the bus, [n] of them
    transfers answered from the script. *)
Definition advance (w : Sim.world) (n : nat) (events : list Sim.bus_event)
  : Sim.world :=
  Sim.mk_world (skipn n (Sim.script w)) (Sim.fallback w) (Sim.word_status w)
               (Sim.now w + Z.of_nat (length events) * Sim.tick w)
               (Sim.tick w) (Sim.junk w) (Sim.log w ++ events).

(** The number of commands that go out as a block write. *)
Definition block_writes (cs : list raa_dmpvr_cfg_cmd) : nat :=
  length (filter (fun c => len c =? 4) cs).

(** The bus traffic of the identity check, of the capacity check and of
    the result phase with a device that is ready at the first poll. *)
Definition identity_traffic : list Sim.bus_event :=
  [Sim.Transfer [I2C_WR [PMBUS_IC_DEVICE_ID]; I2C_RD 5];
   Sim.Transfer [I2C_WR [PMBUS_IC_DEVICE_REV]; I2C_RD 5]].

Definition capacity_traffic : list Sim.bus_event :=
  [Sim.WriteWord RAA_DMPVR2_DMA_ADDR RAA_DMPVR2_NVM_CNT_ADDR;
   Sim.Transfer [I2C_WR [RAA_DMPVR2_DMA_SEQ]; I2C_RD 4]].

Definition result_traffic : list Sim.bus_event :=
  [Sim.WriteWord RAA_DMPVR2_DMA_ADDR RAA_DMPVR2_PRGM_STATUS_ADDR;
   Sim.Transfer [I2C_WR [RAA_DMPVR2_DMA_FIX]; I2C_RD 4];
   Sim.WriteWord RAA_DMPVR2_DMA_ADDR RAA_DMPVR2_BANK0_STATUS_ADDR;
   Sim.Transfer [I2C_WR [RAA_DMPVR2_DMA_FIX]; I2C_RD 4];
   Sim.WriteWord RAA_DMPVR2_DMA_ADDR RAA_DMPVR2_BANK1_STATUS_ADDR;
   Sim.Transfer [I2C_WR [RAA_DMPVR2_DMA_FIX]; I2C_RD 4]].

End Traffic.

(** ** A machine short of memory *)

Module Starved.

(** A platform with a silent bus whose allocator refuses requests of
    exactly [n] bytes and hands out zeroed memory otherwise. *)
Definition refusing (n : Z) : Platform unit := {|
  i2c_transfer := fun w _ => (w, (- EIO, None));
  i2c_smbus_write_word_data := fun w _ _ => (w, - EIO);
  jiffies := fun _ => 0;
  HZ := 100;
  kmalloc := fun _ sz => if sz =? n then None else Some (fun _ => 0);
  auto_junk := fun _ _ => 0
|}.

End Starved.

(** ** Sensor description, probing and the AVS attribute

    The remaining code of isl68137.c (the hwmon side of the driver) and
    the companion driver isl692xx.c. *)

Definition ENODEV : Z := 19.
Definition ENODATA : Z := 61.
Definition ISL68137_VOUT_AVS : Z := 0x30.
Definition RAA_DMPVR2_READ_VMON : Z := 0xc8.

Module Pmbus.

(** Modelled from the spec: struct pmbus_driver_info, its sensor classes,
    data formats and capability flags come from pmbus.h, which is not among
    the sources.  The classes and flags below are those the two drivers
    name.  A capability mask is kept as the set of its flags, so that [|]
    is union and [& ~f] removal, whichever bit pmbus.h gives each flag. *)
Inductive sensor_class : Type :=
| PSC_VOLTAGE_IN
| PSC_VOLTAGE_OUT
| PSC_CURRENT_IN
| PSC_CURRENT_OUT
| PSC_POWER
| PSC_TEMPERATURE.

Inductive data_format : Type :=
| linear
| direct
| vid.

Inductive pmbus_flag : Type :=
| PMBUS_HAVE_VIN
| PMBUS_HAVE_IIN
| PMBUS_HAVE_PIN
| PMBUS_HAVE_STATUS_INPUT
| PMBUS_HAVE_TEMP
| PMBUS_HAVE_TEMP2
| PMBUS_HAVE_TEMP3
| PMBUS_HAVE_STATUS_TEMP
| PMBUS_HAVE_VOUT
| PMBUS_HAVE_STATUS_VOUT
| PMBUS_HAVE_IOUT
| PMBUS_HAVE_STATUS_IOUT
| PMBUS_HAVE_POUT
| PMBUS_HAVE_VMON.

Definition all_classes : list sensor_class :=
  [PSC_VOLTAGE_IN; PSC_VOLTAGE_OUT; PSC_CURRENT_IN; PSC_CURRENT_OUT;
   PSC_POWER; PSC_TEMPERATURE].

Definition all_flags : list pmbus_flag :=
  [PMBUS_HAVE_VIN; PMBUS_HAVE_IIN; PMBUS_HAVE_PIN; PMBUS_HAVE_STATUS_INPUT;
   PMBUS_HAVE_TEMP; PMBUS_HAVE_TEMP2; PMBUS_HAVE_TEMP3;
   PMBUS_HAVE_STATUS_TEMP; PMBUS_HAVE_VOUT; PMBUS_HAVE_STATUS_VOUT;
   PMBUS_HAVE_IOUT; PMBUS_HAVE_STATUS_IOUT; PMBUS_HAVE_POUT; PMBUS_HAVE_VMON].

Definition class_eqb (c1 c2 : sensor_class) : bool :=
  match c1, c2 with
  | PSC_VOLTAGE_IN, PSC_VOLTAGE_IN
  | PSC_VOLTAGE_OUT, PSC_VOLTAGE_OUT
  | PSC_CURRENT_IN, PSC_CURRENT_IN
  | PSC_CURRENT_OUT, PSC_CURRENT_OUT
  | PSC_POWER, PSC_POWER
  | PSC_TEMPERATURE, PSC_TEMPERATURE => true
  | _, _ => false
  end.

Definition flag_eqb (f1 f2 : pmbus_flag) : bool :=
  match f1, f2 with
  | PMBUS_HAVE_VIN, PMBUS_HAVE_VIN
  | PMBUS_HAVE_IIN, PMBUS_HAVE_IIN
  | PMBUS_HAVE_PIN, PMBUS_HAVE_PIN
  | PMBUS_HAVE_STATUS_INPUT, PMBUS_HAVE_STATUS_INPUT
  | PMBUS_HAVE_TEMP, PMBUS_HAVE_TEMP
  | PMBUS_HAVE_TEMP2, PMBUS_HAVE_TEMP2
  | PMBUS_HAVE_TEMP3, PMBUS_HAVE_TEMP3
  | PMBUS_HAVE_STATUS_TEMP, PMBUS_HAVE_STATUS_TEMP
  | PMBUS_HAVE_VOUT, PMBUS_HAVE_VOUT
  | PMBUS_HAVE_STATUS_VOUT, PMBUS_HAVE_STATUS_VOUT
  | PMBUS_HAVE_IOUT, PMBUS_HAVE_IOUT
  | PMBUS_HAVE_STATUS_IOUT, PMBUS_HAVE_STATUS_IOUT
  | PMBUS_HAVE_POUT, PMBUS_HAVE_POUT
  | PMBUS_HAVE_VMON, PMBUS_HAVE_VMON => true
  | _, _ => false
  end.

(** A capability mask (u32 func[page]). *)
Definition mask : Type := pmbus_flag -> bool.

(** [f1 | f2 | ...] *)
Definition of_flags (l : list pmbus_flag) : mask :=
  fun f => existsb (flag_eqb f) l.

(** [s & ~f] *)
Definition without (s : mask) (f : pmbus_flag) : mask :=
  fun g => s g && negb (flag_eqb g f).

(** The [read_word_data] callbacks the two drivers install. *)
Inductive word_hook : Type :=
| hook_raa_dmpvr2_read_word_data
| hook_isl692xx_read_word_data.

(** The fields of struct pmbus_driver_info the drivers set; a field that an
    initialiser leaves out is zero. *)
Record pmbus_driver_info : Type := mk_info {
  pages : Z;
  format : sensor_class -> data_format;
  m : sensor_class -> Z;
  b : sensor_class -> Z;
  R : sensor_class -> Z;
  func : nat -> mask;
  read_word_data : option word_hook;
  groups : bool            (* [groups] points at isl68137_attribute_groups *)
}.

Definition set_pages (i : pmbus_driver_info) (v : Z) : pmbus_driver_info :=
  mk_info v (format i) (m i) (b i) (R i) (func i) (read_word_data i) (groups i).

Definition set_m (i : pmbus_driver_info) (c : sensor_class) (v : Z)
  : pmbus_driver_info :=
  mk_info (pages i) (format i)
          (fun c' => if class_eqb c' c then v else m i c')
          (b i) (R i) (func i) (read_word_data i) (groups i).

Definition set_R (i : pmbus_driver_info) (c : sensor_class) (v : Z)
  : pmbus_driver_info :=
  mk_info (pages i) (format i) (m i) (b i)
          (fun c' => if class_eqb c' c then v else R i c')
          (func i) (read_word_data i) (groups i).

Definition set_func (i : pmbus_driver_info) (p : nat) (v : mask)
  : pmbus_driver_info :=
  mk_info (pages i) (format i) (m i) (b i) (R i)
          (fun p' => if Nat.eqb p' p then v else func i p')
          (read_word_data i) (groups i).

Definition set_read_word_data (i : pmbus_driver_info) (h : word_hook)
  : pmbus_driver_info :=
  mk_info (pages i) (format i) (m i) (b i) (R i) (func i) (Some h) (groups i).

Definition set_groups (i : pmbus_driver_info) : pmbus_driver_info :=
  mk_info (pages i) (format i) (m i) (b i) (R i) (func i) (read_word_data i)
          true.

(** The PMBus core as the drivers call it.  [W] is the state of the device
    and of the core's caches. *)
Class Core (W : Type) : Type := {
  (* register numbers of pmbus.h *)
  PMBUS_OPERATION : Z;
  PMBUS_VOUT_COMMAND : Z;
  PMBUS_VIRT_READ_VMON : Z;
  (* pmbus_read_byte_data(client, page, reg) *)
  pmbus_read_byte_data : W -> Z -> Z -> W * Z;
  (* pmbus_read_word_data(client, page, phase, reg) *)
  pmbus_read_word_data : W -> Z -> Z -> Z -> W * Z;
  (* pmbus_write_word_data(client, page, reg, word) *)
  pmbus_write_word_data : W -> Z -> Z -> Z -> W * Z;
  (* pmbus_update_byte_data(client, page, reg, mask, value) *)
  pmbus_update_byte_data : W -> Z -> Z -> Z -> Z -> W * Z
}.

End Pmbus.

(** *** isl68137.c: AVS attribute, word-read hook, probe *)

Module Hwmon.

Import Pmbus.

(** Modelled from the spec: kstrtobool (lib/kstrtox.c) is not among the
    sources; by its kernel-doc it looks at the first character, 'y', 'Y'
    and '1' standing for true, 'n', 'N' and '0' for false, and at the second
    one after 'o' or 'O' ("on", "off"); anything else is -EINVAL. *)
Definition kstrtobool (s : list Z) : result bool :=
  match s with
  | [] => Undefined
  | c :: t =>
      if (c =? 121) || (c =? 89) || (c =? 49) then Ok true
      else if (c =? 110) || (c =? 78) || (c =? 48) then Ok false
      else if (c =? 111) || (c =? 79) then
        match t with
        | [] => Undefined
        | c1 :: _ =>
            if (c1 =? 110) || (c1 =? 78) then Ok true
            else if (c1 =? 102) || (c1 =? 70) then Ok false
            else Err (- EINVAL)
        end
      else Err (- EINVAL)
  end.

Section WithCore.

Context {W : Type} {C : Core W}.

(** isl68137_avs_enable_show_page: the return value of sprintf and the text
    it leaves in [buf] ("%d\n" of 0 or 1). *)
Definition isl68137_avs_enable_show_page (page : Z) (w : W)
  : W * (Z * list Z) :=
  let '(w', val) := pmbus_read_byte_data w page PMBUS_OPERATION in
  let shown :=
    if Z.land val ISL68137_VOUT_AVS =? ISL68137_VOUT_AVS then 1 else 0 in
  (w', (2, [48 + shown; NL])).

(** isl68137_avs_enable_store_page: its return value.  The word written
    back is the int [rc] narrowed to u16. *)
Definition isl68137_avs_enable_store_page (page : Z) (buf : list Z)
    (count : Z) : io W Z :=
  fun w =>
    match kstrtobool buf with
    | Err rc => (w, Ok rc)
    | Undefined => (w, Undefined)
    | OutOfFuel => (w, OutOfFuel)
    | Ok result =>
        let op_val := if result then ISL68137_VOUT_AVS else 0 in
        let update w0 :=
          let '(w3, rc) :=
            pmbus_update_byte_data w0 page PMBUS_OPERATION ISL68137_VOUT_AVS
                                   op_val in
          (w3, Ok (if rc <? 0 then rc else count)) in
        if op_val =? ISL68137_VOUT_AVS then
          let '(w1, rc) := pmbus_read_word_data w page 0xff PMBUS_VOUT_COMMAND in
          if rc <? 0 then (w1, Ok rc)
          else
            let '(w2, rc2) :=
              pmbus_write_word_data w1 page PMBUS_VOUT_COMMAND (rc mod 2 ^ 16) in
            if rc2 <? 0 then (w2, Ok rc2) else update w2
        else update w
    end.

(** raa_dmpvr2_read_word_data *)
Definition raa_dmpvr2_read_word_data (page phase reg : Z) (w : W) : W * Z :=
  if reg =? PMBUS_VIRT_READ_VMON
  then pmbus_read_word_data w page phase RAA_DMPVR2_READ_VMON
  else (w, - ENODATA).

End WithCore.

(** [enum variants] *)
Inductive variants : Type :=
| raa_dmpvr1_2rail
| raa_dmpvr2_1rail
| raa_dmpvr2_2rail
| raa_dmpvr2_3rail
| raa_dmpvr2_hv.

(** The enumerator behind a [driver_data] value. *)
Definition variant_of_data (driver_data : Z) : option variants :=
  if driver_data =? 0 then Some raa_dmpvr1_2rail
  else if driver_data =? 1 then Some raa_dmpvr2_1rail
  else if driver_data =? 2 then Some raa_dmpvr2_2rail
  else if driver_data =? 3 then Some raa_dmpvr2_3rail
  else if driver_data =? 4 then Some raa_dmpvr2_hv
  else None.

Definition data_of_variant (v : variants) : Z :=
  match v with
  | raa_dmpvr1_2rail => 0
  | raa_dmpvr2_1rail => 1
  | raa_dmpvr2_2rail => 2
  | raa_dmpvr2_3rail => 3
  | raa_dmpvr2_hv => 4
  end.

(** [static struct pmbus_driver_info raa_dmpvr_info] *)
Definition raa_dmpvr_info : pmbus_driver_info :=
  mk_info 3
    (fun _ => direct)
    (fun _ => 1)
    (fun _ => 0)
    (fun c => match c with
              | PSC_VOLTAGE_IN => 2
              | PSC_VOLTAGE_OUT => 3
              | PSC_CURRENT_IN => 2
              | PSC_CURRENT_OUT => 1
              | PSC_POWER => 0
              | PSC_TEMPERATURE => 0
              end)
    (fun p => match p with
              | 0%nat =>
                  of_flags [PMBUS_HAVE_VIN; PMBUS_HAVE_IIN; PMBUS_HAVE_PIN;
                            PMBUS_HAVE_STATUS_INPUT; PMBUS_HAVE_TEMP;
                            PMBUS_HAVE_TEMP2; PMBUS_HAVE_TEMP3;
                            PMBUS_HAVE_STATUS_TEMP; PMBUS_HAVE_VOUT;
                            PMBUS_HAVE_STATUS_VOUT; PMBUS_HAVE_IOUT;
                            PMBUS_HAVE_STATUS_IOUT; PMBUS_HAVE_POUT;
                            PMBUS_HAVE_VMON]
              | 1%nat | 2%nat =>
                  of_flags [PMBUS_HAVE_IIN; PMBUS_HAVE_PIN;
                            PMBUS_HAVE_STATUS_INPUT; PMBUS_HAVE_TEMP;
                            PMBUS_HAVE_TEMP3; PMBUS_HAVE_STATUS_TEMP;
                            PMBUS_HAVE_VOUT; PMBUS_HAVE_STATUS_VOUT;
                            PMBUS_HAVE_IOUT; PMBUS_HAVE_STATUS_IOUT;
                            PMBUS_HAVE_POUT]
              | _ => of_flags []
              end)
    None false.

(** The [switch (id->driver_data)] of isl68137_probe, applied to the copy
    of [raa_dmpvr_info]. *)
Definition adjust_info (v : variants) (info : pmbus_driver_info)
  : pmbus_driver_info :=
  match v with
  | raa_dmpvr1_2rail =>
      let i1 := set_pages info 2 in
      let i2 := set_R i1 PSC_VOLTAGE_IN 3 in
      let i3 := set_func i2 0 (without (func i2 0) PMBUS_HAVE_VMON) in
      let i4 := set_func i3 1
                  (of_flags [PMBUS_HAVE_VOUT; PMBUS_HAVE_STATUS_VOUT;
                             PMBUS_HAVE_IOUT; PMBUS_HAVE_STATUS_IOUT;
                             PMBUS_HAVE_POUT]) in
      set_groups i4
  | raa_dmpvr2_1rail =>
      set_read_word_data (set_pages info 1) hook_raa_dmpvr2_read_word_data
  | raa_dmpvr2_2rail =>
      set_read_word_data (set_pages info 2) hook_raa_dmpvr2_read_word_data
  | raa_dmpvr2_3rail =>
      set_read_word_data info hook_raa_dmpvr2_read_word_data
  | raa_dmpvr2_hv =>
      let i1 := set_pages info 1 in
      let i2 := set_R i1 PSC_VOLTAGE_IN 1 in
      let i3 := set_m i2 PSC_VOLTAGE_OUT 2 in
      let i4 := set_R i3 PSC_VOLTAGE_OUT 2 in
      let i5 := set_m i4 PSC_CURRENT_IN 2 in
      let i6 := set_m i5 PSC_POWER 2 in
      let i7 := set_R i6 PSC_POWER (-1) in
      set_read_word_data i7 hook_raa_dmpvr2_read_word_data
  end.

(** What isl68137_probe meets outside the driver: whether its two
    allocations and the two debugfs directories come out non-NULL, and what
    pmbus_do_probe returns for the description it is given. *)
Record probe_env : Type := mk_env {
  info_alloc : bool;
  pmbus_do_probe : pmbus_driver_info -> Z;
  ctrl_alloc : bool;
  pmbus_get_debugfs_dir : bool;
  debugfs_create_dir : bool
}.

(** A debugfs file: name, mode (0222 is 146, 0444 is 292), and the entry
    index behind its private data. *)
Record debugfs_file : Type := mk_file {
  file_name : string;
  file_mode : Z;
  file_entry : Driver.debugfs_entry
}.

(** What isl68137_probe does: its return value, the description it has
    registered with pmbus_do_probe, and the debugfs files it has created. *)
Record probe_result : Type := mk_probe {
  probe_ret : Z;
  probed_with : option pmbus_driver_info;
  debugfs_files : list debugfs_file
}.

Definition isl68137_probe (env : probe_env) (driver_data : Z) : probe_result :=
  if negb (info_alloc env) then mk_probe (- ENOMEM) None []
  else
    match variant_of_data driver_data with
    | None => mk_probe (- ENODEV) None []
    | Some v =>
        let info := adjust_info v raa_dmpvr_info in
        let ret := pmbus_do_probe env info in
        match v with
        | raa_dmpvr1_2rail => mk_probe ret (Some info) []
        | _ =>
            if negb (ret =? 0) then mk_probe ret (Some info) []
            else if negb (ctrl_alloc env) then mk_probe 0 (Some info) []
            else if negb (pmbus_get_debugfs_dir env)
            then mk_probe 0 (Some info) []
            else if negb (debugfs_create_dir env)
            then mk_probe 0 (Some info) []
            else
              mk_probe 0 (Some info)
                [mk_file "write_config" 146 Driver.RAA_DMPVR2_DEBUGFS_CFG_W;
                 mk_file "read_black_box" 292 Driver.RAA_DMPVR2_DEBUGFS_BB_R]
        end
    end.

(** [raa_dmpvr_id] *)
Definition raa_dmpvr_id : list (string * variants) :=
  [("isl68137", raa_dmpvr1_2rail);
   ("isl68220", raa_dmpvr2_2rail);
   ("isl68221", raa_dmpvr2_3rail);
   ("isl68222", raa_dmpvr2_2rail);
   ("isl68223", raa_dmpvr2_2rail);
   ("isl68224", raa_dmpvr2_3rail);
   ("isl68225", raa_dmpvr2_2rail);
   ("isl68226", raa_dmpvr2_3rail);
   ("isl68227", raa_dmpvr2_1rail);
   ("isl68229", raa_dmpvr2_3rail);
   ("isl68233", raa_dmpvr2_2rail);
   ("isl68239", raa_dmpvr2_3rail);
   ("isl69222", raa_dmpvr2_2rail);
   ("isl69223", raa_dmpvr2_3rail);
   ("isl69224", raa_dmpvr2_2rail);
   ("isl69225", raa_dmpvr2_2rail);
   ("isl69227", raa_dmpvr2_3rail);
   ("isl69228", raa_dmpvr2_3rail);
   ("isl69234", raa_dmpvr2_2rail);
   ("isl69236", raa_dmpvr2_2rail);
   ("isl69239", raa_dmpvr2_3rail);
   ("isl69242", raa_dmpvr2_2rail);
   ("isl69243", raa_dmpvr2_1rail);
   ("isl69247", raa_dmpvr2_2rail);
   ("isl69248", raa_dmpvr2_2rail);
   ("isl69254", raa_dmpvr2_2rail);
   ("isl69255", raa_dmpvr2_2rail);
   ("isl69256", raa_dmpvr2_2rail);
   ("isl69259", raa_dmpvr2_2rail);
   ("isl69260", raa_dmpvr2_2rail);
   ("isl69268", raa_dmpvr2_2rail);
   ("isl69269", raa_dmpvr2_3rail);
   ("isl69298", raa_dmpvr2_2rail);
   ("raa228000", raa_dmpvr2_hv);
   ("raa228004", raa_dmpvr2_hv);
   ("raa228006", raa_dmpvr2_hv);
   ("raa228228", raa_dmpvr2_2rail);
   ("raa229001", raa_dmpvr2_2rail);
   ("raa229004", raa_dmpvr2_2rail)]%string.

End Hwmon.

(** *** isl692xx.c *)

Module Isl692xx.

Import Pmbus.

Definition ISL692XX_READ_VMON : Z := 0xc8.

(** [enum parts] *)
Inductive parts : Type :=
| isl68220 | isl68221 | isl68222 | isl68223 | isl68224 | isl68225
| isl68226 | isl68227 | isl68229 | isl68233 | isl68239
| isl69222 | isl69223 | isl69224 | isl69225 | isl69227 | isl69228
| isl69234 | isl69236 | isl69239 | isl69242 | isl69243 | isl69247
| isl69248 | isl69254 | isl69255 | isl69256 | isl69259 | isl69260
| isl69268 | isl69269 | isl69298
| raa228000 | raa228004 | raa228006 | raa228228 | raa229001 | raa229004.

(** The enumerators in the order of their values, 0 upwards. *)
Definition all_parts : list parts :=
  [isl68220; isl68221; isl68222; isl68223; isl68224; isl68225;
   isl68226; isl68227; isl68229; isl68233; isl68239;
   isl69222; isl69223; isl69224; isl69225; isl69227; isl69228;
   isl69234; isl69236; isl69239; isl69242; isl69243; isl69247;
   isl69248; isl69254; isl69255; isl69256; isl69259; isl69260;
   isl69268; isl69269; isl69298;
   raa228000; raa228004; raa228006; raa228228; raa229001; raa229004].

Definition part_of_data (driver_data : Z) : option parts :=
  if driver_data <? 0 then None else nth_error all_parts (Z.to_nat driver_data).

(** [enum rail_configs] *)
Inductive rail_configs : Type :=
| high_voltage
| one_rail
| two_rail
| three_rail.

(** [isl692xx_id] *)
Definition isl692xx_id : list (string * parts) :=
  [("isl68220", isl68220); ("isl68221", isl68221); ("isl68222", isl68222);
   ("isl68223", isl68223); ("isl68224", isl68224); ("isl68225", isl68225);
   ("isl68226", isl68226); ("isl68227", isl68227); ("isl68229", isl68229);
   ("isl68233", isl68233); ("isl68239", isl68239); ("isl69222", isl69222);
   ("isl69223", isl69223); ("isl69224", isl69224); ("isl69225", isl69225);
   ("isl69227", isl69227); ("isl69228", isl69228); ("isl69234", isl69234);
   ("isl69236", isl69236); ("isl69239", isl69239); ("isl69242", isl69242);
   ("isl69243", isl69243); ("isl69247", isl69247); ("isl69248", isl69248);
   ("isl69254", isl69254); ("isl69255", isl69255); ("isl69256", isl69256);
   ("isl69259", isl69259); ("isl69260", isl69260); ("isl69268", isl69268);
   ("isl69269", isl69269); ("isl69298", isl69298); ("raa228000", raa228000);
   ("raa228004", raa228004); ("raa228006", raa228006);
   ("raa228228", raa228228); ("raa229001", raa229001);
   ("raa229004", raa229004)]%string.

(** isl692xx_read_word_data.  This file calls pmbus_read_word_data with
    three arguments (client, page, reg); [read3] stands for that call. *)
Definition isl692xx_read_word_data {W : Type} (read3 : W -> Z -> Z -> W * Z)
    (VIRT_READ_VMON : Z) (page reg : Z) (w : W) : W * Z :=
  if reg =? VIRT_READ_VMON then read3 w page ISL692XX_READ_VMON
  else (w, - ENODATA).

(** The capability mask every initialised [func] entry of this file has. *)
Definition full_func : mask :=
  of_flags [PMBUS_HAVE_VIN; PMBUS_HAVE_VOUT; PMBUS_HAVE_IIN; PMBUS_HAVE_IOUT;
            PMBUS_HAVE_PIN; PMBUS_HAVE_POUT; PMBUS_HAVE_TEMP;
            PMBUS_HAVE_TEMP2; PMBUS_HAVE_TEMP3; PMBUS_HAVE_STATUS_VOUT;
            PMBUS_HAVE_STATUS_IOUT; PMBUS_HAVE_STATUS_INPUT;
            PMBUS_HAVE_STATUS_TEMP; PMBUS_HAVE_VMON].

(** The coefficients shared by [one_rail], [two_rail] and [three_rail]. *)
Definition rail_R (c : sensor_class) : Z :=
  match c with
  | PSC_VOLTAGE_IN => 2
  | PSC_VOLTAGE_OUT => 3
  | PSC_CURRENT_IN => 2
  | PSC_CURRENT_OUT => 1
  | PSC_POWER => 0
  | PSC_TEMPERATURE => 0
  end.

(** [isl692xx_info[]] *)
Definition isl692xx_info (r : rail_configs) : pmbus_driver_info :=
  match r with
  | high_voltage =>
      mk_info 1 (fun _ => direct)
        (fun c => match c with
                  | PSC_VOLTAGE_IN => 1
                  | PSC_VOLTAGE_OUT => 2
                  | PSC_CURRENT_IN => 2
                  | PSC_CURRENT_OUT => 1
                  | PSC_POWER => 2
                  | PSC_TEMPERATURE => 1
                  end)
        (fun _ => 0)
        (fun c => match c with
                  | PSC_VOLTAGE_IN => 1
                  | PSC_VOLTAGE_OUT => 2
                  | PSC_CURRENT_IN => 2
                  | PSC_CURRENT_OUT => 1
                  | PSC_POWER => -1
                  | PSC_TEMPERATURE => 0
                  end)
        (fun p => match p with
                  | 0%nat => full_func
                  | _ => of_flags []
                  end)
        (Some hook_isl692xx_read_word_data) false
  | one_rail =>
      mk_info 1 (fun _ => direct) (fun _ => 1) (fun _ => 0) rail_R
        (fun p => match p with
                  | 0%nat => full_func
                  | _ => of_flags []
                  end)
        (Some hook_isl692xx_read_word_data) false
  | two_rail =>
      mk_info 2 (fun _ => direct) (fun _ => 1) (fun _ => 0) rail_R
        (fun p => match p with
                  | 0%nat | 1%nat => full_func
                  | _ => of_flags []
                  end)
        (Some hook_isl692xx_read_word_data) false
  | three_rail =>
      mk_info 3 (fun _ => direct) (fun _ => 1) (fun _ => 0) rail_R
        (fun p => match p with
                  | 0%nat | 1%nat | 2%nat => full_func
                  | _ => of_flags []
                  end)
        (Some hook_isl692xx_read_word_data) false
  end.

(** The [switch (id->driver_data)] of isl692xx_probe. *)
Definition rail_of (p : parts) : rail_configs :=
  match p with
  | raa228000 | raa228004 | raa228006 => high_voltage
  | isl68227 | isl69243 => one_rail
  | isl68220 | isl68222 | isl68223 | isl68225 | isl68233 | isl69222
  | isl69224 | isl69225 | isl69234 | isl69236 | isl69242 | isl69247
  | isl69248 | isl69254 | isl69255 | isl69256 | isl69259 | isl69260
  | isl69268 | isl69298 | raa228228 | raa229001 | raa229004 => two_rail
  | isl68221 | isl68224 | isl68226 | isl68229 | isl68239 | isl69223
  | isl69227 | isl69228 | isl69239 | isl69269 => three_rail
  end.

(** isl692xx_probe: its return value, [do_probe] standing for
    pmbus_do_probe. *)
Definition isl692xx_probe (do_probe : pmbus_driver_info -> Z)
    (driver_data : Z) : Z :=
  match part_of_data driver_data with
  | Some p => do_probe (isl692xx_info (rail_of p))
  | None => - ENODEV
  end.

End Isl692xx.

(** *** A register file behind the PMBus core *)

Module SimPmbus.

Inductive core_event : Type :=
| ReadByte (page reg : Z)
| ReadWord (page phase reg : Z)
| WriteWord (page reg word : Z)
| UpdateByte (page reg mask value : Z).

Record world : Type := mk_world {
  regs : Z -> Z -> Z;        (* register content by page and register *)
  dead : bool;               (* the device does not answer: -EIO *)
  log : list core_event      (* calls so far, oldest first *)
}.

Definition put (w : world) (page reg v : Z) : Z -> Z -> Z :=
  fun p r => if (p =? page) && (r =? reg) then v else regs w p r.

Definition sim_read_byte (w : world) (page reg : Z) : world * Z :=
  (mk_world (regs w) (dead w) (log w ++ [ReadByte page reg]),
   if dead w then - EIO else regs w page reg mod 2 ^ 8).

Definition sim_read_word (w : world) (page phase reg : Z) : world * Z :=
  (mk_world (regs w) (dead w) (log w ++ [ReadWord page phase reg]),
   if dead w then - EIO else regs w page reg mod 2 ^ 16).

Definition sim_write_word (w : world) (page reg word : Z) : world * Z :=
  if dead w
  then (mk_world (regs w) (dead w) (log w ++ [WriteWord page reg word]), - EIO)
  else (mk_world (put w page reg word) (dead w)
                 (log w ++ [WriteWord page reg word]), 0).

(** Modelled from the spec: pmbus_update_byte_data (pmbus_core.c) is not
    among the sources; it reads the register, replaces the bits of [mask]
    by those of [value], writes the byte back when it has changed, and
    returns the status of the write, or the byte read when nothing had to
    be written. *)
Definition sim_update_byte (w : world) (page reg mask value : Z) : world * Z :=
  let log' := log w ++ [UpdateByte page reg mask value] in
  if dead w then (mk_world (regs w) (dead w) log', - EIO)
  else
    let rv := regs w page reg mod 2 ^ 8 in
    let tmp := Z.lor (Z.land rv (Z.lnot mask)) (Z.land value mask) in
    if negb (tmp =? rv) then (mk_world (put w page reg tmp) (dead w) log', 0)
    else (mk_world (regs w) (dead w) log', rv).

(** The register numbers are the PMBus command codes of OPERATION and
    VOUT_COMMAND and a number of the virtual range. *)
#[global] Instance sim_core : Pmbus.Core world := {
  Pmbus.PMBUS_OPERATION := 0x01;
  Pmbus.PMBUS_VOUT_COMMAND := 0x21;
  Pmbus.PMBUS_VIRT_READ_VMON := 0x108;
  Pmbus.pmbus_read_byte_data := sim_read_byte;
  Pmbus.pmbus_read_word_data := sim_read_word;
  Pmbus.pmbus_write_word_data := sim_write_word;
  Pmbus.pmbus_update_byte_data := sim_update_byte
}.

(** A device with every register at [v]. *)
Definition start (v : Z) : world := mk_world (fun _ _ => v) false [].

End SimPmbus.

(** ** Proof helpers *)

Ltac split_all :=
  repeat match goal with
         | |- _ /\ _ => split
         end.

Ltac run := vm_compute; reflexivity.
(** * Properties *)

(** ** Generic facts *)

Lemma load_nth {A : Type} (l : list A) (i : nat) (d : A) :
  (i < length l)%nat -> load l i = Ok (nth i l d).
Proof.
  intros H. unfold load. rewrite (nth_error_nth' l d H). reflexivity.
Qed.

(** * The configuration parser *)

(** ** The sizing pass *)

Module ScanProps.

Import Parser Format.

Lemma text_line_cons (c : Z) (l : list Z) :
  text_line (c :: l) = true -> c <> NUL /\ c <> NL /\ text_line l = true.
Proof.
  unfold text_line. cbn [forallb]. intros H.
  apply andb_true_iff in H. destruct H as [Hc Hl].
  apply andb_true_iff in Hc. destruct Hc as [H0 H1].
  apply negb_true_iff, Z.eqb_neq in H0.
  apply negb_true_iff, Z.eqb_neq in H1. auto.
Qed.

Lemma nonempty_text_spec (l : list Z) :
  nonempty_text l = true -> text_line l = true /\ (1 <= length l)%nat.
Proof.
  unfold nonempty_text. intros H. apply andb_true_iff in H.
  destruct H as [Ht Hn]. split; [exact Ht|].
  destruct l; [discriminate Hn | simpl; lia].
Qed.

Lemma length_unlines_cons (l : list Z) (ls : list (list Z)) :
  length (unlines (l :: ls)) = (length l + 1 + length (unlines ls))%nat.
Proof.
  unfold unlines. cbn [map concat]. rewrite !length_app. simpl. lia.
Qed.

Lemma unlines_cons (l : list Z) (ls : list (list Z)) (tl : list Z) :
  unlines (l :: ls) ++ tl = l ++ NL :: (unlines ls ++ tl).
Proof.
  unfold unlines. cbn [map concat]. rewrite <- !app_assoc. reflexivity.
Qed.

Lemma strlen_text (l : list Z) (z : Z) (rest : list Z) :
  text_line l = true -> z = NUL ->
  Klib.strlen (l ++ z :: rest) = Ok (length l).
Proof.
  intros Hl ->. induction l as [|c l IH].
  - reflexivity.
  - apply text_line_cons in Hl. destruct Hl as (H0 & _ & Hl).
    cbn [app Klib.strlen]. apply Z.eqb_neq in H0. rewrite H0.
    rewrite IH by exact Hl. reflexivity.
Qed.

Lemma strlen_unlines (ls : list (list Z)) (tl : list Z) :
  Forall (fun l => text_line l = true) ls ->
  Klib.strlen (unlines ls ++ NUL :: tl) = Ok (length (unlines ls)).
Proof.
  induction 1 as [|l ls Hl _ IH].
  - reflexivity.
  - rewrite unlines_cons, length_unlines_cons.
    induction l as [|c l IHl].
    + cbn [app Klib.strlen]. change (NL =? NUL) with false. cbv iota.
      rewrite IH. reflexivity.
    + apply text_line_cons in Hl. destruct Hl as (H0 & _ & Hl).
      cbn [app Klib.strlen]. apply Z.eqb_neq in H0. rewrite H0.
      rewrite IHl by exact Hl. reflexivity.
Qed.

(** The sizing loop passes over the characters of a line unchanged. *)
Lemma count_lines_text (l : list Z) : forall rest i n lcnt ccnt,
  text_line l = true ->
  count_lines (l ++ rest) i n lcnt ccnt
  = count_lines rest (i + Z.of_nat (length l)) n lcnt ccnt.
Proof.
  induction l as [|c l IH]; intros rest i n lcnt ccnt Hl.
  - cbn [app length Z.of_nat]. rewrite Z.add_0_r. reflexivity.
  - apply text_line_cons in Hl. destruct Hl as (H0 & H1 & Hl).
    cbn [app count_lines].
    apply Z.eqb_neq in H0. apply Z.eqb_neq in H1. rewrite H0, H1.
    cbn [andb]. rewrite IH by exact Hl. f_equal.
    rewrite length_cons, Nat2Z.inj_succ. lia.
Qed.

(** The test the sizing loop makes on the line after a newline. *)
Lemma not_49_line (l rest : list Z) :
  nonempty_text l = true ->
  not_49 (l ++ NL :: rest) = Ok (negb (starts_49 l)).
Proof.
  intros H. apply nonempty_text_spec in H. destruct H as [_ Hn].
  destruct l as [|c0 [|c1 l]]; [simpl in Hn; lia | |].
  - cbn [app not_49 starts_49].
    destruct (c0 =? CH_4); reflexivity.
  - cbn [app not_49 starts_49].
    destruct (c0 =? CH_4); reflexivity.
Qed.

Lemma count_commands_cons (l : list Z) (ls : list (list Z)) :
  count_commands (l :: ls)
  = (if negb (starts_49 l) then 1 else 0) + count_commands ls.
Proof.
  unfold count_commands. cbn [filter].
  destruct (negb (starts_49 l)); cbn [length]; lia.
Qed.

(** On a text of non-empty lines the sizing loop counts every line, and
    every line after the first that does not begin with "49". *)
Lemma count_lines_unlines (ls : list (list Z)) :
  forall (l : list Z) (tl : list Z) (i n lcnt ccnt : Z),
    Forall (fun l => nonempty_text l = true) (l :: ls) ->
    0 <= i ->
    n = i + Z.of_nat (length (unlines (l :: ls))) ->
    n < 2 ^ Klib.BITS_PER_LONG ->
    count_lines (unlines (l :: ls) ++ NUL :: tl) i n lcnt ccnt
    = Ok (lcnt + Z.of_nat (length ls), ccnt + count_commands ls).
Proof.
  induction ls as [|l' ls IH]; intros l tl i n lcnt ccnt Hall Hi Hn Hbig;
    unfold Klib.BITS_PER_LONG in Hbig.
  - inversion Hall as [|? ? Hl _]; subst.
    apply nonempty_text_spec in Hl. destruct Hl as [Hl Hlen].
    rewrite unlines_cons, count_lines_text by exact Hl.
    rewrite length_unlines_cons in *.
    change (length (unlines [])) with 0%nat in *.
    change (unlines [] ++ NUL :: tl) with (NUL :: tl).
    cbn [count_lines]. change (NL =? NUL) with false. cbv iota.
    change (NL =? NL) with true. cbn [andb].
    unfold size_t_sub, Klib.BITS_PER_LONG. rewrite Z.mod_small by lia.
    replace (i + Z.of_nat (length l)
             <? i + Z.of_nat (length l + 1 + 0) - 2) with false
      by (symmetry; apply Z.ltb_ge; lia).
    change (NUL =? NUL) with true. cbv iota.
    unfold count_commands. cbn [filter length Z.of_nat].
    rewrite !Z.add_0_r. reflexivity.
  - inversion Hall as [|? ? Hl Hrest]; subst.
    pose proof Hrest as Hrest'.
    inversion Hrest' as [|? ? Hl' _]; subst.
    apply nonempty_text_spec in Hl. destruct Hl as [Hl Hlen].
    pose proof (nonempty_text_spec l' Hl') as [_ Hlen'].
    rewrite unlines_cons, count_lines_text by exact Hl.
    cbn [count_lines]. change (NL =? NUL) with false. cbv iota.
    change (NL =? NL) with true. cbn [andb].
    rewrite !length_unlines_cons in *.
    unfold size_t_sub, Klib.BITS_PER_LONG. rewrite Z.mod_small by lia.
    replace (i + Z.of_nat (length l)
             <? i + Z.of_nat (length l + 1
                              + (length l' + 1 + length (unlines ls))) - 2)
      with true by (symmetry; apply Z.ltb_lt; lia).
    rewrite (unlines_cons l' ls), not_49_line by exact Hl'.
    cbn [bind]. rewrite <- (unlines_cons l' ls).
    rewrite (IH l' tl); auto; try lia.
    + rewrite count_commands_cons. f_equal. f_equal.
      * rewrite length_cons, Nat2Z.inj_succ. lia.
      * destruct (negb (starts_49 l')); lia.
    + rewrite length_unlines_cons. lia.
Qed.

(** The line count of raa_dmpvr2_parse_cfg for a text of non-empty lines:
    their number, or 1 for the empty text. *)
Lemma sizing_pass (ls : list (list Z)) (tl : list Z) :
  forallb nonempty_text ls = true ->
  Z.of_nat (length (unlines ls)) < 2 ^ Klib.BITS_PER_LONG ->
  Klib.strlen (unlines ls ++ NUL :: tl) = Ok (length (unlines ls))
  /\ count_lines (unlines ls ++ NUL :: tl) 0
       (Z.of_nat (length (unlines ls))) 1 0
     = Ok (Z.max 1 (Z.of_nat (length ls)), count_commands (List.tl ls)).
Proof.
  intros Hall Hbig.
  assert (Hall' : Forall (fun l => nonempty_text l = true) ls)
    by (apply Forall_forall; apply forallb_forall; exact Hall).
  split.
  - apply strlen_unlines. eapply Forall_impl; [|exact Hall'].
    intros l Hl. apply nonempty_text_spec in Hl. tauto.
  - destruct ls as [|l ls].
    + reflexivity.
    + rewrite (count_lines_unlines ls l tl 0 _ 1 0); auto; try lia.
      cbn [List.tl]. f_equal. f_equal.
      rewrite length_cons, Nat2Z.inj_succ. lia.
Qed.

End ScanProps.

(** ** The sizing pass on any string *)

Module SizingProps.

Import Parser Format.

Lemma c_string_spec (s : list Z) : c_string s = true -> ~ In NUL s.
Proof.
  unfold c_string. intros H Hin.
  rewrite forallb_forall in H. specialize (H NUL Hin). discriminate H.
Qed.

Lemma strlen_terminated (s rest : list Z) :
  ~ In NUL s -> Klib.strlen (s ++ NUL :: rest) = Ok (length s).
Proof.
  induction s as [|c s IH]; intros Hs.
  - reflexivity.
  - cbn [app Klib.strlen].
    assert (Hc : (c =? NUL) = false) by (apply Z.eqb_neq; intros ->; apply Hs; now left).
    rewrite Hc. rewrite IH by (intros Hin; apply Hs; now right). reflexivity.
Qed.

Lemma not_49_terminated (s rest : list Z) :
  exists b, not_49 (s ++ NUL :: rest) = Ok b.
Proof.
  destruct s as [|c1 s]; cbn [app not_49].
  - change (negb (NUL =? CH_4)) with true. cbv iota. eauto.
  - destruct (negb (c1 =? CH_4)); [eauto|].
    destruct s; cbn [app]; eauto.
Qed.

(** The sizing loop counts exactly the newlines below its bound. *)
Lemma count_lines_exact (s rest : list Z) : forall i n lcnt ccnt,
  ~ In NUL s ->
  exists c,
    count_lines (s ++ NUL :: rest) i n lcnt ccnt
    = Ok (lcnt + Z.of_nat (count_occ Z.eq_dec
                             (firstn (Z.to_nat (size_t_sub n 2 - i)) s) NL),
          c).
Proof.
  induction s as [|a s IH]; intros i n lcnt ccnt Hs.
  - exists ccnt. cbn [app count_lines]. rewrite firstn_nil.
    change (NUL =? NUL) with true. cbv iota. cbn [count_occ Z.of_nat].
    rewrite Z.add_0_r. reflexivity.
  - assert (Ha : (a =? NUL) = false)
      by (apply Z.eqb_neq; intros ->; apply Hs; now left).
    assert (Hs' : ~ In NUL s) by (intros Hin; apply Hs; now right).
    cbn [app count_lines]. rewrite Ha.
    destruct (i <? size_t_sub n 2) eqn:Ei.
    + apply Z.ltb_lt in Ei.
      replace (Z.to_nat (size_t_sub n 2 - i))
        with (S (Z.to_nat (size_t_sub n 2 - (i + 1)))) by lia.
      cbn [firstn count_occ].
      destruct (a =? NL) eqn:Ea; cbn [andb].
      * apply Z.eqb_eq in Ea.
        destruct (not_49_terminated s rest) as [b Hb]. rewrite Hb. cbn [bind].
        destruct (IH (i + 1) n (lcnt + 1) (if b then ccnt + 1 else ccnt) Hs')
          as (c & Hc).
        exists c. rewrite Hc. destruct (Z.eq_dec a NL); [|contradiction].
        f_equal. f_equal. lia.
      * apply Z.eqb_neq in Ea.
        destruct (IH (i + 1) n lcnt ccnt Hs') as (c & Hc).
        exists c. rewrite Hc. destruct (Z.eq_dec a NL); [contradiction|].
        reflexivity.
    + apply Z.ltb_ge in Ei. rewrite andb_false_r.
      destruct (IH (i + 1) n lcnt ccnt Hs') as (c & Hc).
      exists c. rewrite Hc.
      replace (Z.to_nat (size_t_sub n 2 - i)) with 0%nat by lia.
      replace (Z.to_nat (size_t_sub n 2 - (i + 1))) with 0%nat by lia.
      reflexivity.
Qed.

(** The bound [strlen(buf) - 2] of the loop, in list terms. *)
Lemma sizing_bound (s : list Z) :
  Z.of_nat (length s) < 2 ^ Klib.BITS_PER_LONG ->
  firstn (Z.to_nat (size_t_sub (Z.of_nat (length s)) 2 - 0)) s
  = firstn (if (length s <? 2)%nat then length s else (length s - 2)%nat) s.
Proof.
  unfold size_t_sub, Klib.BITS_PER_LONG. intros Hbig. rewrite Z.sub_0_r.
  destruct (length s <? 2)%nat eqn:E.
  - apply Nat.ltb_lt in E.
    replace ((Z.of_nat (length s) - 2) mod 2 ^ 64)
      with (Z.of_nat (length s) - 2 + 2 ^ 64).
    + rewrite firstn_all. apply firstn_all2. lia.
    + symmetry. rewrite <- (Z.mod_add _ 1) by lia. apply Z.mod_small. lia.
  - apply Nat.ltb_ge in E. rewrite Z.mod_small by lia. f_equal. lia.
Qed.

(** What the sizing pass of raa_dmpvr2_parse_cfg arrives at on any C
    string. *)
Lemma sizing_exact (s rest : list Z) :
  c_string s = true ->
  Z.of_nat (length s) < 2 ^ Klib.BITS_PER_LONG ->
  Klib.strlen (s ++ NUL :: rest) = Ok (length s)
  /\ exists c,
       count_lines (s ++ NUL :: rest) 0 (Z.of_nat (length s)) 1 0
       = Ok (counted_lines s, c).
Proof.
  intros Hs Hbig. apply c_string_spec in Hs. split.
  - apply strlen_terminated. exact Hs.
  - destruct (count_lines_exact s rest 0 (Z.of_nat (length s)) 1 0 Hs)
      as (c & Hc).
    exists c. rewrite Hc, sizing_bound by exact Hbig. reflexivity.
Qed.

(** The slot check of raa_dmpvr2_parse_cfg decides on that count. *)
Lemma parse_cfg_slots (kmalloc : Z -> option (nat -> Z)) (s rest : list Z) :
  c_string s = true ->
  Z.of_nat (length s) < 2 ^ Klib.BITS_PER_LONG ->
  let q := Z.quot (counted_lines s - RAA_DMPVR2_CFG_HEAD_LEN)
                  RAA_DMPVR2_CFG_SLOT_LEN in
  ((q < 1 \/ RAA_DMPVR2_CFG_MAX_SLOT < q) ->
   raa_dmpvr2_parse_cfg kmalloc (s ++ NUL :: rest) = Err (- EINVAL))
  /\ (forall cfg,
        raa_dmpvr2_parse_cfg kmalloc (s ++ NUL :: rest) = Ok cfg ->
        slot_cnt cfg = q /\ 1 <= q <= RAA_DMPVR2_CFG_MAX_SLOT).
Proof.
  intros Hs Hbig q.
  destruct (sizing_exact s rest Hs Hbig) as (Hlen & c & Hcount).
  unfold raa_dmpvr2_parse_cfg, parse_cfg_filled.
  rewrite Hlen. cbn [bind]. rewrite Hcount. cbn [bind]. fold q.
  destruct ((q <? 1) || (RAA_DMPVR2_CFG_MAX_SLOT <? q)) eqn:E.
  - split; [reflexivity|]. intros cfg H. discriminate H.
  - apply orb_false_iff in E. destruct E as [E1 E2].
    apply Z.ltb_ge in E1. apply Z.ltb_ge in E2.
    split; [intros Hq; lia|].
    intros cfg H.
    destruct (kmalloc (c * sizeof_cfg_cmd)) as [junk|]; [|discriminate H].
    destruct (Klib.strsep (Some (s ++ NUL :: rest))) as [r1| | |];
      cbn [bind] in H; try discriminate H.
    destruct (parse_header_line (Klib.tok r1)) as [id| | |];
      cbn [bind] in H; try discriminate H.
    destruct (Klib.strsep (Klib.cursor r1)) as [r2| | |];
      cbn [bind] in H; try discriminate H.
    destruct (parse_header_line (Klib.tok r2)) as [rev| | |];
      cbn [bind] in H; try discriminate H.
    destruct (parse_cmds _ _ _ _ _) as [[cs filled]| | |];
      cbn [bind] in H; try discriminate H.
    injection H as <-. cbn [slot_cnt]. split; [reflexivity | lia].
Qed.

Lemma count_occ_text (l : list Z) :
  text_line l = true -> count_occ Z.eq_dec l NL = 0%nat.
Proof.
  intros H. apply count_occ_not_In. intros Hin.
  unfold text_line in H. rewrite forallb_forall in H.
  specialize (H NL Hin). rewrite andb_true_iff in H. destruct H as [_ H].
  discriminate H.
Qed.

Lemma count_occ_unlines (ls : list (list Z)) :
  forallb text_line ls = true ->
  count_occ Z.eq_dec (unlines ls) NL = length ls.
Proof.
  induction ls as [|l ls IH]; intros H.
  - reflexivity.
  - cbn [forallb] in H. apply andb_true_iff in H. destruct H as [Hl Hls].
    unfold unlines in *. cbn [map concat]. rewrite !count_occ_app.
    rewrite IH by exact Hls. rewrite count_occ_text by exact Hl.
    cbn [count_occ length]. destruct (Z.eq_dec NL NL); [lia | contradiction].
Qed.

Lemma unlines_app (ls ms : list (list Z)) :
  unlines (ls ++ ms) = unlines ls ++ unlines ms.
Proof. unfold unlines. rewrite map_app, concat_app. reflexivity. Qed.

Lemma unlines_snoc_nil (ls : list (list Z)) (l : list Z) :
  unlines (ls ++ [l]) = unlines ls ++ l ++ [NL].
Proof.
  rewrite unlines_app. unfold unlines at 2. cbn [map concat].
  rewrite app_nil_r. reflexivity.
Qed.

(** The count on a text of newline-terminated lines: every line counts,
    but for an empty last line. *)
Lemma counted_lines_unlines (ls : list (list Z)) (l : list Z) :
  forallb text_line (ls ++ [l]) = true ->
  ls <> [] \/ l <> [] ->
  counted_lines (unlines (ls ++ [l]))
  = Z.of_nat (length ls) + (if (length l =? 0)%nat then 0 else 1).
Proof.
  intros Hall Hne. rewrite forallb_app in Hall.
  apply andb_true_iff in Hall. destruct Hall as [Hls Hl].
  cbn [forallb] in Hl. rewrite andb_true_r in Hl.
  unfold counted_lines. rewrite unlines_snoc_nil.
  rewrite !length_app. cbn [length].
  destruct l as [|a l].
  - destruct Hne as [Hne|Hne]; [|contradiction].
    destruct (exists_last Hne) as (ls' & l' & ->).
    rewrite unlines_snoc_nil in *. rewrite !length_app. cbn [length app].
    replace (length (unlines ls') + (length l' + 1) + (0 + 1) <? 2)%nat
      with false by (symmetry; apply Nat.ltb_ge; lia).
    replace (length (unlines ls') + (length l' + 1) + (0 + 1) - 2)%nat
      with (length (unlines ls' ++ l') + 0)%nat by (rewrite length_app; lia).
    rewrite app_assoc. rewrite <- (app_assoc (unlines ls' ++ l')).
    rewrite firstn_app_2. cbn [firstn]. rewrite app_nil_r.
    rewrite forallb_app in Hls. apply andb_true_iff in Hls.
    destruct Hls as [Hls' Hl']. cbn [forallb] in Hl'.
    rewrite andb_true_r in Hl'.
    rewrite count_occ_app, count_occ_unlines, count_occ_text by assumption.
    cbn [Nat.eqb]. lia.
  - cbn [length Nat.eqb].
    replace (length (unlines ls) + (S (length l) + 1) <? 2)%nat
      with false by (symmetry; apply Nat.ltb_ge; lia).
    replace (length (unlines ls) + (S (length l) + 1) - 2)%nat
      with (length (unlines ls) + length l)%nat by lia.
    rewrite firstn_app_2.
    rewrite count_occ_app, count_occ_unlines by exact Hls.
    assert (Hin : count_occ Z.eq_dec (firstn (length l) ((a :: l) ++ [NL])) NL
                  = 0%nat).
    { apply count_occ_not_In. intros Hin.
      rewrite firstn_app in Hin.
      replace (length l - length (a :: l))%nat with 0%nat in Hin
        by (cbn [length]; lia).
      cbn [firstn] in Hin. rewrite app_nil_r in Hin.
      apply count_occ_text in Hl. apply count_occ_not_In in Hl.
      apply Hl. rewrite <- (firstn_skipn (length l) (a :: l)).
      apply in_or_app. left. exact Hin. }
    rewrite Hin. lia.
Qed.

End SizingProps.

(** C3 as stated does not hold: the slot count is the quotient rounded
    toward zero, and no remainder is checked.  A file of 649 lines, for
    which (649 - 290) / 358 is not an integer, parses as one slot. *)
Lemma remainder_accepted_counterexample :
  length Sim.lines_649 = 649%nat
  /\ (649 - RAA_DMPVR2_CFG_HEAD_LEN) mod RAA_DMPVR2_CFG_SLOT_LEN <> 0
  /\ Parser.raa_dmpvr2_parse_cfg Sim.plain_kmalloc (Sim.blob Sim.lines_649)
     = Ok (mk_cfg [1; 2; 3; 4] [0; 0; 0; 5] 1 2
             [mk_cmd 16 4 [170; 187; 204; 221]; mk_cmd 32 2 [17; 34; 0; 0]]).
Proof.
  split_all; try run.
  vm_compute. discriminate.
Qed.

(** C3, amended.  The line count that decides is the one the sizing loop
    arrives at: 1, and 1 more for every newline of the text other than those
    among its last two characters (the loop counts a newline only at an
    index below strlen - 2; in a text shorter than two characters every
    newline counts).  The slot count is the C quotient, rounded toward
    zero, of that count less 290 by 358.  For every NUL-terminated text for
    which the quotient lies outside [1, 16], parsing fails with -EINVAL and
    yields no configuration; a configuration that is yielded has the
    quotient as its slot count.  On a text of newline-terminated lines,
    empty ones among them or not, the count is the number of lines, less
    one when the last line is empty.  (A line count that leaves a remainder
    is not rejected.) *)
Theorem slot_count_out_of_range_rejected :
  forall (kmalloc : Z -> option (nat -> Z)) (s tl : list Z),
    Format.c_string s = true ->
    Z.of_nat (length s) < 2 ^ Klib.BITS_PER_LONG ->
    let q := Z.quot (Format.counted_lines s - RAA_DMPVR2_CFG_HEAD_LEN)
                    RAA_DMPVR2_CFG_SLOT_LEN in
    ((q < 1 \/ RAA_DMPVR2_CFG_MAX_SLOT < q) ->
     Parser.raa_dmpvr2_parse_cfg kmalloc (s ++ NUL :: tl) = Err (- EINVAL))
    /\ (forall cfg,
          Parser.raa_dmpvr2_parse_cfg kmalloc (s ++ NUL :: tl) = Ok cfg ->
          slot_cnt cfg = q /\ 1 <= q <= RAA_DMPVR2_CFG_MAX_SLOT)
    /\ (forall (ls : list (list Z)) (l : list Z),
          s = Format.unlines (ls ++ [l]) ->
          forallb Format.text_line (ls ++ [l]) = true ->
          ls <> [] \/ l <> [] ->
          Format.counted_lines s
          = Z.of_nat (length ls) + (if (length l =? 0)%nat then 0 else 1)).
Proof.
  intros kmalloc s tl Hs Hbig q.
  destruct (SizingProps.parse_cfg_slots kmalloc s tl Hs Hbig) as [Hrej Hok].
  split; [exact Hrej|]. split; [exact Hok|].
  intros ls l -> Hall Hne. apply SizingProps.counted_lines_unlines; assumption.
Qed.

Lemma slot_count_out_of_range_rejected_witness :
  Z.of_nat (length Sim.lines_6376_gap) = 6376
  /\ Parser.raa_dmpvr2_parse_cfg Sim.plain_kmalloc
       (Format.unlines Sim.lines_6376_gap ++ NUL :: [])
     = Err (- EINVAL).
Proof.
  split; [vm_compute; reflexivity|].
  refine (proj1 (slot_count_out_of_range_rejected Sim.plain_kmalloc
                   (Format.unlines Sim.lines_6376_gap) [] _ _) _).
  - vm_compute. reflexivity.
  - vm_compute. reflexivity.
  - right. vm_compute. reflexivity.
Defined.

(** Newlines among the last two characters do not count.  A text of 6376
    lines whose last line is empty, and a text of 6375 lines followed by
    one character without a newline, both parse as 16 slots. *)
Example last_newlines_not_counted :
  Z.of_nat (length Sim.lines_6376_short) = 6376
  /\ Parser.raa_dmpvr2_parse_cfg Sim.plain_kmalloc
       (Sim.blob Sim.lines_6376_short)
     = Ok (mk_cfg [1; 2; 3; 4] [0; 0; 0; 5] 16 0 [])
  /\ Parser.raa_dmpvr2_parse_cfg Sim.plain_kmalloc
       (Sim.text_6375_and_one ++ [NUL])
     = Ok (mk_cfg [1; 2; 3; 4] [0; 0; 0; 5] 16 0 []).
Proof. split_all; run. Qed.

(** ** Headers and commands *)

Module ParseProps.

Import Parser Format.

Lemma is_hex_small (c : Z) : is_hex c = true -> 0 <= c < 128.
Proof.
  unfold is_hex, Klib.hex_digit. intros H.
  destruct ((48 <=? c) && (c <=? 57)) eqn:E.
  - apply andb_true_iff in E. destruct E as [E1 E2].
    apply Z.leb_le in E1. apply Z.leb_le in E2. lia.
  - destruct ((97 <=? Z.lor c 32) && (Z.lor c 32 <=? 102)) eqn:E';
      [|discriminate H].
    apply andb_true_iff in E'. destruct E' as [E1 E2].
    apply Z.leb_le in E1. apply Z.leb_le in E2.
    assert (Hc : 0 <= c).
    { destruct (Z.lor_nonneg c 32) as [Hn _]. apply Hn. lia. }
    split; [exact Hc|].
    destruct (Z.eq_dec c 0) as [->|Hnz]; [lia|].
    apply (Z.log2_lt_pow2 c 7); [lia|].
    pose proof (Z.log2_lor c 32 Hc ltac:(lia)) as Hl.
    pose proof (Z.log2_le_mono (Z.lor c 32) 102 E2) as Hm.
    change (Z.log2 102) with 6 in Hm. change (Z.log2 32) with 5 in Hl.
    lia.
Qed.

Lemma is_hex_enum (c : Z) : is_hex c = true -> In c hex_chars.
Proof.
  intros H. pose proof (is_hex_small c H) as Hr.
  assert (Hall : forallb (fun k => implb (is_hex (Z.of_nat k))
                                     (existsb (Z.eqb (Z.of_nat k)) hex_chars))
                         (seq 0 128) = true) by (vm_compute; reflexivity).
  rewrite forallb_forall in Hall.
  specialize (Hall (Z.to_nat c)). rewrite Z2Nat.id in Hall by lia.
  rewrite H in Hall. cbn [implb] in Hall.
  assert (Hin : In (Z.to_nat c) (seq 0 128)) by (apply in_seq; lia).
  apply Hall in Hin. apply existsb_exists in Hin.
  destruct Hin as (x & Hx & Hcx). apply Z.eqb_eq in Hcx. now subst.
Qed.

Lemma result_eqb_eq (a b : result Z) : result_eqb a b = true -> a = b.
Proof.
  destruct a, b; simpl; try discriminate.
  intros H. apply Z.eqb_eq in H. now subst.
Qed.

(** Two hexadecimal digits decode to the byte they spell. *)
Lemma hextou8_hex (a b : Z) (t : list Z) :
  is_hex a = true -> is_hex b = true ->
  raa_dmpvr2_hextou8 (a :: b :: t) = Ok (16 * hex_value a + hex_value b).
Proof.
  intros Ha Hb. apply is_hex_enum in Ha. apply is_hex_enum in Hb.
  assert (Hall : forallb (fun x =>
                   forallb (fun y =>
                     result_eqb (raa_dmpvr2_hextou8 [x; y])
                                (Ok (16 * hex_value x + hex_value y)))
                     hex_chars) hex_chars = true)
    by (vm_compute; reflexivity).
  rewrite forallb_forall in Hall. specialize (Hall a Ha).
  rewrite forallb_forall in Hall. specialize (Hall b Hb).
  apply result_eqb_eq in Hall. exact Hall.
Qed.

Lemma hex_value_range (c : Z) : is_hex c = true -> 0 <= hex_value c < 16.
Proof.
  intros H. apply is_hex_enum in H.
  assert (Hall : forallb (fun x => (0 <=? hex_value x) && (hex_value x <? 16))
                         hex_chars = true) by (vm_compute; reflexivity).
  rewrite forallb_forall in Hall. specialize (Hall c H).
  apply andb_true_iff in Hall. destruct Hall as [H1 H2].
  apply Z.leb_le in H1. apply Z.ltb_lt in H2. lia.
Qed.

Lemma skipn_app_le {A : Type} (n : nat) (l rest : list A) :
  (n <= length l)%nat -> skipn n (l ++ rest) = skipn n l ++ rest.
Proof.
  intros H. rewrite skipn_app.
  replace (n - length l)%nat with 0%nat by lia. reflexivity.
Qed.

(** A pair of hexadecimal digits of a line, read through the line pointer. *)
Lemma hextou8_pair (off : nat) (l rest : list Z) :
  hex_pairs_at off 1 l = true ->
  raa_dmpvr2_hextou8 (skipn off (l ++ rest)) = Ok (pair_value off l).
Proof.
  unfold hex_pairs_at. intros H. apply andb_true_iff in H.
  destruct H as [Hlen Hhex]. apply Nat.leb_le in Hlen.
  rewrite skipn_app_le by lia.
  unfold pair_value.
  assert (H2 : (2 <= length (skipn off l))%nat) by (rewrite length_skipn; lia).
  rewrite <- (Nat.add_0_r off) at 2.
  replace (S off) with (off + 1)%nat by lia.
  rewrite <- !nth_skipn.
  destruct (skipn off l) as [|a [|b t]]; [simpl in H2; lia | simpl in H2; lia |].
  cbn [Nat.mul Nat.add firstn forallb] in Hhex.
  apply andb_true_iff in Hhex. destruct Hhex as [Ha Hb].
  apply andb_true_iff in Hb. destruct Hb as [Hb _].
  cbn [app nth]. apply hextou8_hex; assumption.
Qed.

(** Pairs inside a run of pairs. *)
Lemma hex_pairs_sub (off n k : nat) (l : list Z) :
  hex_pairs_at off n l = true -> (k < n)%nat ->
  hex_pairs_at (off + 2 * k) 1 l = true.
Proof.
  unfold hex_pairs_at. intros H Hk. apply andb_true_iff in H.
  destruct H as [Hlen Hhex]. apply Nat.leb_le in Hlen.
  apply andb_true_iff. split; [apply Nat.leb_le; lia|].
  rewrite forallb_forall in *. intros x Hx. apply Hhex.
  rewrite <- (firstn_skipn (2 * k) (firstn (2 * n) (skipn off l))).
  apply in_or_app. right.
  rewrite skipn_firstn_comm, skipn_skipn.
  replace (2 * k + off)%nat with (off + 2 * k)%nat by lia.
  replace (2 * n - 2 * k)%nat with (2 * 1 + (2 * n - 2 * k - 2))%nat by lia.
  rewrite <- (firstn_skipn (2 * 1) (firstn _ _)).
  apply in_or_app. left. rewrite firstn_firstn.
  replace (Init.Nat.min (2 * 1) (2 * 1 + (2 * n - 2 * k - 2))) with (2 * 1)%nat
    by lia.
  exact Hx.
Qed.

Lemma strsep_line (l rest : list Z) :
  text_line l = true ->
  Klib.strsep_from (l ++ NL :: rest)
  = Ok (Klib.mk_strsep (Some (l ++ NUL :: rest)) (Some rest)).
Proof.
  intros Hl. induction l as [|c l IH].
  - reflexivity.
  - apply ScanProps.text_line_cons in Hl. destruct Hl as (H0 & H1 & Hl).
    cbn [app Klib.strsep_from].
    apply Z.eqb_neq in H0. apply Z.eqb_neq in H1. rewrite H0, H1.
    rewrite IH by exact Hl. reflexivity.
Qed.

Lemma strncmp_49_line (l rest : list Z) :
  (2 <= length l)%nat ->
  Klib.strncmp_49_is_zero (l ++ rest) = Ok (starts_49 l).
Proof.
  intros H. destruct l as [|c0 [|c1 l]]; simpl in H; try lia.
  cbn [app Klib.strncmp_49_is_zero starts_49].
  destruct (c0 =? CH_4); reflexivity.
Qed.

Lemma store_ok {A : Type} (l : list A) : forall (i : nat) (x : A),
  (i < length l)%nat ->
  exists l', store l i x = Ok l' /\ length l' = length l.
Proof.
  induction l as [|a l IH]; intros i x Hi; simpl in Hi; [lia|].
  destruct i as [|i].
  - exists (x :: l). split; reflexivity.
  - destruct (IH i x ltac:(lia)) as (l' & Hs & Hl).
    exists (a :: l'). cbn [store]. rewrite Hs. split; [reflexivity|].
    simpl. now rewrite Hl.
Qed.

Lemma store_Forall {A : Type} (Q : A -> Prop) (l : list A) :
  forall (i : nat) (x : A) (l' : list A),
    store l i x = Ok l' -> Forall Q l -> Q x -> Forall Q l'.
Proof.
  induction l as [|a l IH]; intros i x l' Hs Hl Hx.
  - destruct i; discriminate Hs.
  - inversion Hl as [|? ? Ha Hl']; subst. destruct i as [|i].
    + cbn [store] in Hs. inversion Hs. constructor; assumption.
    + cbn [store] in Hs. destruct (store l i x) as [t| | |] eqn:E;
        try discriminate Hs.
      cbn [bind] in Hs. inversion Hs. constructor; [exact Ha|].
      apply (IH i x t E Hl' Hx).
Qed.

(** A header line yields its four bytes, the first pair last. *)
Lemma parse_header_bytes_ok (l rest : list Z) (count : nat) : forall off,
  (forall k, (k < count)%nat -> hex_pairs_at (off + 2 * k) 1 l = true) ->
  parse_header_bytes (skipn off (l ++ rest)) count
  = Ok (rev (map (fun k => pair_value (off + 2 * k) l) (seq 0 count))).
Proof.
  induction count as [|j IH]; intros off Hp.
  - reflexivity.
  - cbn [parse_header_bytes].
    pose proof (Hp O ltac:(lia)) as H0. rewrite Nat.mul_0_r, Nat.add_0_r in H0.
    rewrite hextou8_pair by exact H0. cbn [bind].
    rewrite skipn_skipn.
    rewrite (IH (2 + off)%nat).
    + cbn [bind seq map rev]. rewrite Nat.mul_0_r, Nat.add_0_r.
      rewrite <- seq_shift, map_map. do 3 f_equal.
      apply map_ext. intros k. f_equal. lia.
    + intros k Hk. specialize (Hp (S k) ltac:(lia)).
      replace (2 + off + 2 * k)%nat with (off + 2 * S k)%nat by lia.
      exact Hp.
Qed.

Lemma parse_header_line_ok (l rest : list Z) :
  header_line l = true ->
  parse_header_line (Some (l ++ rest))
  = Ok [pair_value 14 l; pair_value 12 l; pair_value 10 l; pair_value 8 l].
Proof.
  unfold header_line. intros H. apply andb_true_iff in H.
  destruct H as [_ Hp]. unfold parse_header_line, dsta.
  rewrite parse_header_bytes_ok.
  - reflexivity.
  - intros k Hk. apply (hex_pairs_sub 8 4 k l Hp Hk).
Qed.

(** The payload loop over the pairs of a line. *)
Lemma parse_payload_ok (l rest : list Z) (todo : nat) : forall (j : nat) (d : list Z),
  length d = 4%nat ->
  (j + todo <= 4)%nat ->
  (forall k, (j <= k < j + todo)%nat ->
             hex_pairs_at (dsta + 2 * k) 1 l = true) ->
  exists d', parse_payload (l ++ rest) d j todo = Ok d' /\ length d' = 4%nat.
Proof.
  induction todo as [|todo IH]; intros j d Hd Hj Hp.
  - exists d. split; [reflexivity | exact Hd].
  - cbn [parse_payload].
    rewrite hextou8_pair by (apply Hp; lia). cbn [bind].
    destruct (store_ok d j (pair_value (dsta + 2 * j) l) ltac:(lia))
      as (d1 & Hs & Hl1).
    rewrite Hs. cbn [bind].
    apply IH; [lia | lia |]. intros k Hk. apply Hp. lia.
Qed.

(** A command line fills one entry of the array. *)
Lemma parse_cmd_ok (l rest : list Z) (cs : list raa_dmpvr_cfg_cmd) (i : nat) :
  command_line l = true ->
  (i < length cs)%nat ->
  Forall data4 cs ->
  exists cs',
    parse_cmd (l ++ rest) cs i = Ok cs'
    /\ length cs' = length cs /\ Forall data4 cs'.
Proof.
  unfold command_line. intros H Hi Hcs.
  apply andb_true_iff in H. destruct H as [H Hlen].
  apply andb_true_iff in H. destruct H as [H Hc].
  apply andb_true_iff in H. destruct H as [H Hl].
  unfold parse_cmd, lsta, csta.
  rewrite hextou8_pair by exact Hl. cbn [bind].
  destruct (nth_error cs i) as [old|] eqn:Eo;
    [|apply nth_error_None in Eo; lia].
  unfold load. rewrite Eo. cbn [of_option bind].
  rewrite hextou8_pair by exact Hc. cbn [bind].
  assert (Hold : length (data old) = 4%nat).
  { rewrite Forall_forall in Hcs. apply Hcs. eapply nth_error_In, Eo. }
  assert (Hpay : exists d',
             parse_payload (l ++ rest) (data old) 0
               (Z.to_nat ((pair_value 2 l - 3) mod 256)) = Ok d'
             /\ length d' = 4%nat).
  { apply orb_true_iff in Hlen. destruct Hlen as [H2|H4].
    - apply andb_true_iff in H2. destruct H2 as [Hv Hp].
      apply Z.eqb_eq in Hv. rewrite Hv.
      change (Z.to_nat ((5 - 3) mod 256)) with 2%nat.
      apply parse_payload_ok; [exact Hold | lia |].
      intros k Hk. apply (hex_pairs_sub 8 2 k l Hp). lia.
    - apply andb_true_iff in H4. destruct H4 as [Hv Hp].
      apply Z.eqb_eq in Hv. rewrite Hv.
      change (Z.to_nat ((7 - 3) mod 256)) with 4%nat.
      apply parse_payload_ok; [exact Hold | lia |].
      intros k Hk. apply (hex_pairs_sub 8 4 k l Hp). lia. }
  destruct Hpay as (d' & Hd' & Hl4). rewrite Hd'. cbn [bind].
  destruct (store_ok cs i (mk_cmd (pair_value 6 l)
                             ((pair_value 2 l - 3) mod 256) d') Hi)
    as (cs' & Hs & Hlcs).
  exists cs'. split; [exact Hs|]. split; [exact Hlcs|].
  eapply store_Forall; [exact Hs | exact Hcs | exact Hl4].
Qed.

Lemma command_line_long (l : list Z) :
  command_line l = true -> (dsta + 2 < length l)%nat.
Proof.
  unfold command_line, hex_pairs_at, dsta. intros H.
  apply andb_true_iff in H. destruct H as [_ Hlen].
  apply orb_true_iff in Hlen.
  destruct Hlen as [H|H]; apply andb_true_iff in H; destruct H as [_ H];
    apply andb_true_iff in H; destruct H as [H _];
    apply Nat.leb_le in H; lia.
Qed.

Lemma data_line_text (l : list Z) :
  data_line l = true -> nonempty_text l = true.
Proof.
  unfold data_line, sentinel_line, nonempty_text. intros H.
  apply orb_true_iff in H. destruct H as [H|H].
  - apply andb_true_iff in H. destruct H as [Ht H49].
    rewrite Ht. destruct l as [|? [|? ?]]; try discriminate H49. reflexivity.
  - pose proof (command_line_long l H) as Hlen.
    unfold command_line in H. rewrite <- !andb_assoc in H.
    apply andb_true_iff in H. destruct H as [Ht _]. rewrite Ht.
    destruct l; [simpl in Hlen; lia | reflexivity].
Qed.

(** The command loop runs over the lines that are left, filling one entry
    for each line it takes for a command, and ends at the first short line
    or at the end of the text.  When no line is short, it fills an entry
    for every line that does not begin with "49". *)
Lemma parse_cmds_ok (body : list (list Z)) (tl : list Z) :
  forall (l : list Z) (cs : list raa_dmpvr_cfg_cmd) (i fuel : nat),
    data_line l = true ->
    forallb data_line body = true ->
    (length body + 2 <= fuel)%nat ->
    Z.of_nat i + count_commands (l :: body) <= Z.of_nat (length cs) ->
    Forall data4 cs ->
    exists cs' i',
      parse_cmds fuel (Some (l ++ NUL :: unlines body ++ NUL :: tl))
        (Some (unlines body ++ NUL :: tl)) cs i = Ok (cs', i')
      /\ length cs' = length cs
      /\ (forallb long_line (l :: body) = true ->
          Z.of_nat i' = Z.of_nat i + count_commands (l :: body)).
Proof.
  induction body as [|l' body IH]; intros l cs i fuel Hl Hbody Hfuel Hi Hcs.
  - destruct fuel as [|[|fuel]]; [simpl in Hfuel; lia | simpl in Hfuel; lia |].
    pose proof (data_line_text l Hl) as Hnt.
    apply ScanProps.nonempty_text_spec in Hnt. destruct Hnt as [Ht _].
    cbn [parse_cmds]. rewrite ScanProps.strlen_text by auto. cbn [bind].
    destruct (length l <=? dsta + 2)%nat eqn:Eshort.
    + exists cs, i. split; [reflexivity|]. split; [reflexivity|].
      intros Hlong. cbn [forallb] in Hlong. apply andb_true_iff in Hlong.
      destruct Hlong as [Hlong _]. unfold long_line in Hlong.
      apply Nat.ltb_lt in Hlong. apply Nat.leb_le in Eshort.
      unfold dsta in *. lia.
    + apply Nat.leb_gt in Eshort.
      rewrite strncmp_49_line by (unfold dsta in Eshort; lia). cbn [bind].
      rewrite ScanProps.count_commands_cons in *.
      change (count_commands []) with 0 in *.
      destruct (starts_49 l) eqn:E49.
      * cbn [bind]. change (unlines [] ++ NUL :: tl) with (NUL :: tl).
        cbn [Klib.strsep Klib.strsep_from]. change (NUL =? NUL) with true.
        cbv iota. cbn [bind Klib.tok Klib.cursor Klib.strlen].
        change (NUL =? NUL) with true. cbv iota. cbn [bind Nat.leb].
        exists cs, i. split; [reflexivity|]. split; [reflexivity|].
        intros _. cbn [negb]. lia.
      * unfold data_line, sentinel_line in Hl. rewrite E49 in Hl.
        rewrite andb_false_r in Hl. cbn [orb] in Hl. cbn [negb] in Hi.
        destruct (parse_cmd_ok l (NUL :: unlines [] ++ NUL :: tl) cs i Hl
                    ltac:(lia) Hcs) as (cs' & Hp & Hlen & Hcs').
        rewrite Hp. cbn [bind]. change (unlines [] ++ NUL :: tl) with (NUL :: tl).
        cbn [Klib.strsep Klib.strsep_from]. change (NUL =? NUL) with true.
        cbv iota. cbn [bind Klib.tok Klib.cursor Klib.strlen].
        change (NUL =? NUL) with true. cbv iota. cbn [bind Nat.leb].
        exists cs', (S i). split; [reflexivity|]. split; [exact Hlen|].
        intros _. cbn [negb]. rewrite Nat2Z.inj_succ. lia.
  - destruct fuel as [|fuel]; [simpl in Hfuel; lia|].
    cbn [forallb] in Hbody. apply andb_true_iff in Hbody.
    destruct Hbody as [Hl' Hbody].
    pose proof (data_line_text l Hl) as Hnt.
    apply ScanProps.nonempty_text_spec in Hnt. destruct Hnt as [Ht _].
    pose proof (data_line_text l' Hl') as Hnt'.
    apply ScanProps.nonempty_text_spec in Hnt'. destruct Hnt' as [Ht' _].
    cbn [parse_cmds]. rewrite ScanProps.strlen_text by auto. cbn [bind].
    destruct (length l <=? dsta + 2)%nat eqn:Eshort.
    + exists cs, i. split; [reflexivity|]. split; [reflexivity|].
      intros Hlong. cbn [forallb] in Hlong. apply andb_true_iff in Hlong.
      destruct Hlong as [Hlong _]. unfold long_line in Hlong.
      apply Nat.ltb_lt in Hlong. apply Nat.leb_le in Eshort.
      unfold dsta in *. lia.
    + apply Nat.leb_gt in Eshort.
      rewrite strncmp_49_line by (unfold dsta in Eshort; lia). cbn [bind].
      rewrite (ScanProps.count_commands_cons l) in *.
      rewrite (ScanProps.unlines_cons l' body).
      assert (Hpos : 0 <= count_commands (l' :: body))
        by (unfold count_commands; lia).
      destruct (starts_49 l) eqn:E49.
      * cbn [bind Klib.strsep]. rewrite strsep_line by exact Ht'.
        cbn [bind Klib.tok Klib.cursor]. cbn [negb] in *.
        cbn [length] in Hfuel.
        destruct (IH l' cs i fuel Hl' Hbody ltac:(lia) ltac:(lia) Hcs)
          as (cs2 & i2 & Hr & Hlen2 & Hfill).
        exists cs2, i2. split; [exact Hr|]. split; [exact Hlen2|].
        intros Hlong. cbn [forallb] in Hlong. apply andb_true_iff in Hlong.
        destruct Hlong as [_ Hlong]. rewrite (Hfill Hlong). lia.
      * unfold data_line, sentinel_line in Hl. rewrite E49 in Hl.
        rewrite andb_false_r in Hl. cbn [orb] in Hl. cbn [negb] in *.
        destruct (parse_cmd_ok l (NUL :: l' ++ NL :: unlines body ++ NUL :: tl)
                    cs i Hl ltac:(lia) Hcs) as (cs' & Hp & Hlen & Hcs').
        rewrite Hp. cbn [bind Klib.strsep]. rewrite strsep_line by exact Ht'.
        cbn [bind Klib.tok Klib.cursor].
        cbn [length] in Hfuel.
        destruct (IH l' cs' (S i) fuel Hl' Hbody ltac:(lia)
                    ltac:(rewrite Hlen, Nat2Z.inj_succ; lia) Hcs')
          as (cs2 & i2 & Hr & Hlen2 & Hfill).
        exists cs2, i2. split; [exact Hr|]. split; [congruence|].
        intros Hlong. cbn [forallb] in Hlong. apply andb_true_iff in Hlong.
        destruct Hlong as [_ Hlong]. rewrite (Hfill Hlong).
        rewrite Nat2Z.inj_succ. lia.
Qed.

End ParseProps.

Module ParseMain.

Import Parser Format.

Lemma length_unlines_ge (ls : list (list Z)) :
  (length ls <= length (unlines ls))%nat.
Proof.
  induction ls as [|l ls IH]; [simpl; lia|].
  rewrite ScanProps.length_unlines_cons. simpl. lia.
Qed.

Lemma header_line_parts (l : list Z) :
  header_line l = true ->
  text_line l = true /\ starts_49 l = true /\ nonempty_text l = true.
Proof.
  unfold header_line, nonempty_text. intros H.
  apply andb_true_iff in H. destruct H as [H _].
  apply andb_true_iff in H. destruct H as [Ht H49].
  rewrite Ht. repeat split; auto.
  destruct l as [|? [|? ?]]; try discriminate H49. reflexivity.
Qed.

Lemma fresh_cmds_data4 (junk : nat -> Z) (ccnt : Z) :
  Forall data4 (fresh_cmds junk ccnt).
Proof.
  unfold fresh_cmds. apply Forall_forall. intros c Hc.
  apply in_map_iff in Hc. destruct Hc as (k & <- & _). reflexivity.
Qed.

Lemma count_commands_nonneg (ls : list (list Z)) : 0 <= count_commands ls.
Proof. unfold count_commands. lia. Qed.

(** The whole of raa_dmpvr2_parse_cfg on a well-formed file. *)
Lemma parse_cfg_filled_ok (kmalloc : Z -> option (nat -> Z)) (junk : nat -> Z)
    (k : Z) (h1 h2 : list Z) (body : list (list Z)) (tl : list Z) :
  well_formed k (h1 :: h2 :: body) = true ->
  Z.of_nat (length (unlines (h1 :: h2 :: body))) < 2 ^ Klib.BITS_PER_LONG ->
  kmalloc (count_commands body * sizeof_cfg_cmd) = Some junk ->
  exists cs filled,
    parse_cfg_filled kmalloc (unlines (h1 :: h2 :: body) ++ NUL :: tl)
    = Ok (mk_cfg [pair_value 14 h1; pair_value 12 h1;
                  pair_value 10 h1; pair_value 8 h1]
                 [pair_value 14 h2; pair_value 12 h2;
                  pair_value 10 h2; pair_value 8 h2]
                 k (count_commands body) cs, filled)
    /\ Z.of_nat (length cs) = count_commands body
    /\ (forallb long_line body = true ->
        Z.of_nat filled = count_commands body).
Proof.
  intros Hwf Hbig Hk. unfold well_formed in Hwf.
  apply andb_true_iff in Hwf. destruct Hwf as [Hwf Hlines].
  apply andb_true_iff in Hwf. destruct Hwf as [Hk1 Hcount].
  apply andb_true_iff in Hk1. destruct Hk1 as [Hk1 Hk16].
  apply Z.leb_le in Hk1. apply Z.leb_le in Hk16. apply Z.eqb_eq in Hcount.
  apply andb_true_iff in Hlines. destruct Hlines as [Hh Hbody].
  apply andb_true_iff in Hh. destruct Hh as [Hh1 Hh2].
  destruct (header_line_parts h1 Hh1) as (Ht1 & _ & Hn1).
  destruct (header_line_parts h2 Hh2) as (Ht2 & H492 & Hn2).
  assert (Hall : forallb nonempty_text (h1 :: h2 :: body) = true).
  { cbn [forallb]. rewrite Hn1, Hn2. cbn [andb].
    apply forallb_forall. intros l Hl.
    apply ParseProps.data_line_text.
    rewrite forallb_forall in Hbody. apply Hbody, Hl. }
  destruct (ScanProps.sizing_pass (h1 :: h2 :: body) tl Hall Hbig)
    as [Hlen Hscan].
  unfold parse_cfg_filled. rewrite Hlen. cbn [bind]. rewrite Hscan.
  cbn [bind List.tl]. rewrite ScanProps.count_commands_cons, H492.
  cbn [negb]. rewrite Z.add_0_l.
  rewrite Z.max_r
    by (rewrite Hcount;
        unfold RAA_DMPVR2_CFG_HEAD_LEN, RAA_DMPVR2_CFG_SLOT_LEN; lia).
  rewrite Hcount.
  replace (RAA_DMPVR2_CFG_HEAD_LEN + RAA_DMPVR2_CFG_SLOT_LEN * k
           - RAA_DMPVR2_CFG_HEAD_LEN) with (k * RAA_DMPVR2_CFG_SLOT_LEN) by lia.
  rewrite Z.quot_mul by (unfold RAA_DMPVR2_CFG_SLOT_LEN; lia).
  replace ((k <? 1) || (RAA_DMPVR2_CFG_MAX_SLOT <? k)) with false.
  2:{ symmetry. apply orb_false_iff. split; apply Z.ltb_ge; lia. }
  rewrite Hk.
  rewrite (ScanProps.unlines_cons h1), (ScanProps.unlines_cons h2).
  cbn [Klib.strsep]. rewrite ParseProps.strsep_line by exact Ht1.
  cbn [bind Klib.tok Klib.cursor].
  rewrite ParseProps.parse_header_line_ok by exact Hh1. cbn [bind Klib.strsep].
  rewrite ParseProps.strsep_line by exact Ht2.
  cbn [bind Klib.tok Klib.cursor].
  rewrite ParseProps.parse_header_line_ok by exact Hh2. cbn [bind].
  assert (Hd2 : data_line h2 = true).
  { unfold data_line, sentinel_line. rewrite Ht2, H492. reflexivity. }
  pose proof (count_commands_nonneg body) as Hpos.
  assert (Hfresh : Z.of_nat (length (fresh_cmds junk (count_commands body)))
                   = count_commands body).
  { unfold fresh_cmds. rewrite length_map, length_seq. lia. }
  match goal with
  | |- context [parse_cmds ?f _ _ _ _] => set (fuel := f)
  end.
  destruct (ParseProps.parse_cmds_ok body tl h2
              (fresh_cmds junk (count_commands body)) 0 fuel Hd2 Hbody)
    as (cs & filled & Hr & Hlcs & Hfill).
  - subst fuel. repeat (rewrite length_app || rewrite length_cons).
    pose proof (length_unlines_ge body). lia.
  - rewrite ScanProps.count_commands_cons, H492. cbn [negb]. lia.
  - apply fresh_cmds_data4.
  - rewrite Hr. cbn [bind]. exists cs, filled. split; [reflexivity|].
    split; [rewrite Hlcs; exact Hfresh|].
    intros Hlong. rewrite Hfill.
    + rewrite ScanProps.count_commands_cons, H492. cbn [negb]. lia.
    + cbn [forallb]. rewrite Hlong, andb_true_r.
      unfold header_line, hex_pairs_at in Hh2.
      apply andb_true_iff in Hh2. destruct Hh2 as [_ Hh2].
      apply andb_true_iff in Hh2. destruct Hh2 as [Hh2 _].
      apply Nat.leb_le in Hh2. unfold long_line. apply Nat.ltb_lt. lia.
Qed.

End ParseMain.

(** C1.  For every well-formed configuration file of [k] slots (290 + 358 k
    newline-terminated lines: two device-identity lines of type "49", then
    sentinel lines beginning with "49" and command lines), the parser
    succeeds once its allocation does, and yields a configuration whose slot
    count is [k] and whose command list has as many entries as there are
    lines after the two headers that do not begin with "49".  The identity
    bytes are the four hex pairs from column 8 of each header, stored in
    reverse order. *)
Theorem well_formed_config_parses :
  forall (kmalloc : Z -> option (nat -> Z)) (junk : nat -> Z) (k : Z)
         (ls : list (list Z)) (tl : list Z),
    Format.well_formed k ls = true ->
    Z.of_nat (length (Format.unlines ls)) < 2 ^ Klib.BITS_PER_LONG ->
    kmalloc (Format.count_commands (skipn 2 ls) * Parser.sizeof_cfg_cmd)
      = Some junk ->
    exists cfg,
      Parser.raa_dmpvr2_parse_cfg kmalloc (Format.unlines ls ++ NUL :: tl)
        = Ok cfg
      /\ slot_cnt cfg = k
      /\ cmd_cnt cfg = Format.count_commands (skipn 2 ls)
      /\ Z.of_nat (length (cmds cfg)) = Format.count_commands (skipn 2 ls)
      /\ dev_id cfg = map (fun off => Format.pair_value off (nth 0 ls []))
                          [14; 12; 10; 8]%nat
      /\ dev_rev cfg = map (fun off => Format.pair_value off (nth 1 ls []))
                           [14; 12; 10; 8]%nat.
Proof.
  intros kmalloc junk k ls tl Hwf Hbig Hk.
  destruct ls as [|h1 [|h2 body]];
    try (unfold Format.well_formed in Hwf; rewrite andb_false_r in Hwf;
         discriminate Hwf).
  cbn [skipn] in *.
  destruct (ParseMain.parse_cfg_filled_ok kmalloc junk k h1 h2 body tl
              Hwf Hbig Hk) as (cs & filled & Hp & Hlen & _).
  unfold Parser.raa_dmpvr2_parse_cfg. rewrite Hp. cbn [bind].
  eexists. split; [reflexivity|].
  cbn [slot_cnt cmd_cnt cmds dev_id dev_rev nth map].
  repeat (split; [reflexivity || exact Hlen|]). reflexivity.
Qed.

Lemma well_formed_config_parses_witness :
  exists cfg,
    Parser.raa_dmpvr2_parse_cfg Sim.plain_kmalloc
      (Format.unlines Sim.lines_648 ++ NUL :: []) = Ok cfg
    /\ slot_cnt cfg = 1
    /\ cmd_cnt cfg = 2
    /\ Z.of_nat (length (cmds cfg)) = 2.
Proof.
  destruct (well_formed_config_parses Sim.plain_kmalloc (fun _ => 0) 1
              Sim.lines_648 [])
    as (cfg & Hp & Hs & Hc & Hl & _).
  - vm_compute. reflexivity.
  - vm_compute. reflexivity.
  - reflexivity.
  - exists cfg. split; [exact Hp|]. split; [exact Hs|].
    split; [rewrite Hc; vm_compute; reflexivity|].
    rewrite Hl. vm_compute. reflexivity.
Defined.

(** ** The fuel of the command loop is enough

    The loop calls strsep once per round, and every call moves the cursor
    forward, so the bound given by raa_dmpvr2_parse_cfg is never used up. *)

Module FuelProps.

Import Parser.

Lemma bind_fueled {A B : Type} (r : result A) (k : A -> result B) :
  r <> OutOfFuel -> (forall a, k a <> OutOfFuel) -> bind r k <> OutOfFuel.
Proof.
  intros Hr Hk. destruct r; cbn [bind]; try discriminate; auto.
Qed.

Lemma strlen_fueled (p : list Z) : Klib.strlen p <> OutOfFuel.
Proof.
  induction p as [|c p IH]; cbn [Klib.strlen]; [discriminate|].
  destruct (c =? NUL); [discriminate|].
  apply bind_fueled; [exact IH | discriminate].
Qed.

Lemma strsep_from_fueled (p : list Z) : Klib.strsep_from p <> OutOfFuel.
Proof.
  induction p as [|c p IH]; cbn [Klib.strsep_from]; [discriminate|].
  destruct (c =? NUL); [discriminate|].
  destruct (c =? NL); [discriminate|].
  apply bind_fueled; [exact IH|].
  intros r. destruct (Klib.tok r); discriminate.
Qed.

Lemma strsep_from_shrinks (p : list Z) : forall r,
  Klib.strsep_from p = Ok r -> (cursor_size (Klib.cursor r) <= length p)%nat.
Proof.
  induction p as [|c p IH]; intros r H; cbn [Klib.strsep_from] in H;
    [discriminate H|].
  destruct (c =? NUL).
  - inversion H. simpl. lia.
  - destruct (c =? NL).
    + inversion H. simpl. lia.
    + destruct (Klib.strsep_from p) as [r'| | |] eqn:E; try discriminate H.
      cbn [bind] in H. destruct (Klib.tok r'); [|discriminate H].
      inversion H. cbn [Klib.cursor length]. specialize (IH r' eq_refl). lia.
Qed.

Lemma kstrtou8_fueled (s : list Z) : Klib.kstrtou8 s <> OutOfFuel.
Proof.
  unfold Klib.kstrtou8.
  destruct (Klib._parse_integer _ 0 0) as [[res rv] rest].
  destruct (Klib.ULLONG_MAX <? res); [discriminate|].
  destruct (Nat.eqb rv 0); [discriminate|].
  match goal with
  | |- match ?x with _ => _ end <> _ => destruct x as [|c ?]
  end; [discriminate|].
  destruct (negb (c =? NUL)); [discriminate|].
  destruct (255 <? res); discriminate.
Qed.

Lemma hextou8_fueled (p : list Z) : raa_dmpvr2_hextou8 p <> OutOfFuel.
Proof.
  unfold raa_dmpvr2_hextou8. destruct p as [|c0 [|c1 p]]; try discriminate.
  apply kstrtou8_fueled.
Qed.

Lemma store_fueled {A : Type} (l : list A) : forall (i : nat) (x : A),
  store l i x <> OutOfFuel.
Proof.
  induction l as [|a l IH]; intros i x; destruct i; cbn [store];
    try discriminate.
  apply bind_fueled; [apply IH | discriminate].
Qed.

Lemma parse_payload_fueled (line : list Z) (todo : nat) : forall d j,
  parse_payload line d j todo <> OutOfFuel.
Proof.
  induction todo as [|todo IH]; intros d j; cbn [parse_payload];
    [discriminate|].
  apply bind_fueled; [apply hextou8_fueled|]. intros b.
  apply bind_fueled; [apply store_fueled|]. intros d'. apply IH.
Qed.

Lemma parse_cmd_fueled (line : list Z) (cs : list raa_dmpvr_cfg_cmd) (i : nat) :
  parse_cmd line cs i <> OutOfFuel.
Proof.
  unfold parse_cmd.
  apply bind_fueled; [apply hextou8_fueled|]. intros b.
  apply bind_fueled; [unfold load; destruct (nth_error cs i); discriminate|].
  intros old.
  apply bind_fueled; [apply hextou8_fueled|]. intros c.
  apply bind_fueled; [apply parse_payload_fueled|]. intros d.
  apply store_fueled.
Qed.

Lemma parse_cmds_fueled (fuel : nat) : forall line buf cs i,
  (cursor_size buf + 2 <= fuel)%nat ->
  parse_cmds fuel line buf cs i <> OutOfFuel.
Proof.
  induction fuel as [|fuel IH]; intros line buf cs i Hf; [lia|].
  cbn [parse_cmds]. destruct line as [l|]; [|discriminate].
  apply bind_fueled; [apply strlen_fueled|]. intros n.
  destruct (n <=? dsta + 2)%nat; [discriminate|].
  apply bind_fueled.
  { unfold Klib.strncmp_49_is_zero. destruct l as [|c0 [|c1 l]];
      try discriminate; destruct (negb (c0 =? CH_4)); discriminate. }
  intros is49. apply bind_fueled.
  { destruct is49; [discriminate|].
    apply bind_fueled; [apply parse_cmd_fueled | discriminate]. }
  intros [cs' i']. destruct buf as [p|].
  - cbn [Klib.strsep].
    destruct (Klib.strsep_from p) as [r| | |] eqn:E; cbn [bind];
      try discriminate.
    + apply IH. pose proof (strsep_from_shrinks p r E). simpl in Hf. lia.
    + exfalso. apply (strsep_from_fueled p E).
  - cbn [Klib.strsep bind Klib.tok Klib.cursor].
    destruct fuel as [|fuel]; [simpl in Hf; lia|]. discriminate.
Qed.

Lemma count_lines_fueled (p : list Z) : forall i n lcnt ccnt,
  count_lines p i n lcnt ccnt <> OutOfFuel.
Proof.
  induction p as [|c p IH]; intros i n lc cc; cbn [count_lines];
    [discriminate|].
  destruct (c =? NUL); [discriminate|].
  destruct ((c =? NL) && (i <? size_t_sub n 2)); [|apply IH].
  apply bind_fueled; [|intros b; apply IH].
  unfold not_49. destruct p as [|c1 [|c2 p]]; try discriminate;
    destruct (negb (c1 =? CH_4)); discriminate.
Qed.

Lemma parse_header_line_fueled (line : option (list Z)) :
  parse_header_line line <> OutOfFuel.
Proof.
  destruct line as [l|]; [|discriminate]. unfold parse_header_line.
  generalize (skipn dsta l). generalize 4%nat.
  induction n as [|j IHj]; intros p; cbn [parse_header_bytes];
    [discriminate|].
  apply bind_fueled; [apply hextou8_fueled|]. intros b.
  apply bind_fueled; [apply IHj | discriminate].
Qed.

(** raa_dmpvr2_parse_cfg always gives its command loop fuel enough. *)
Lemma parse_cfg_fueled (kmalloc : Z -> option (nat -> Z)) (buf : list Z) :
  raa_dmpvr2_parse_cfg kmalloc buf <> OutOfFuel.
Proof.
  unfold raa_dmpvr2_parse_cfg. apply bind_fueled; [|intros [cfg n]; discriminate].
  unfold parse_cfg_filled.
  apply bind_fueled; [apply strlen_fueled|]. intros n.
  apply bind_fueled; [apply count_lines_fueled|].
  intros [lcnt ccnt].
  destruct ((_ <? 1) || _); [discriminate|].
  destruct (kmalloc _) as [junk|]; [|discriminate].
  cbn [Klib.strsep].
  destruct (Klib.strsep_from buf) as [r1| | |] eqn:E1; cbn [bind];
    try discriminate; [|exfalso; apply (strsep_from_fueled buf E1)].
  apply bind_fueled; [apply parse_header_line_fueled|]. intros id.
  pose proof (strsep_from_shrinks buf r1 E1) as H1.
  destruct (Klib.cursor r1) as [p1|] eqn:Ec1.
  - cbn [Klib.strsep].
    destruct (Klib.strsep_from p1) as [r2| | |] eqn:E2; cbn [bind];
      try discriminate; [|exfalso; apply (strsep_from_fueled p1 E2)].
    apply bind_fueled; [apply parse_header_line_fueled|]. intros rev.
    apply bind_fueled; [|intros [cs filled]; discriminate].
    apply parse_cmds_fueled.
    pose proof (strsep_from_shrinks p1 r2 E2) as H2. simpl in H1. lia.
  - cbn [Klib.strsep bind Klib.tok]. discriminate.
Qed.

End FuelProps.


(** * The programming engine: sending *)

(** ** Sending commands *)

Module SendProps.

Import Driver.

Section WithPlatform.

Context {W : Type} {P : Platform W}.




End WithPlatform.

End SendProps.



(** * The device verifier *)

(** ** Identity check and gating *)

Module VerifyProps.

Import Driver Format.

Lemma map_mod_bytes (d : list Z) :
  Forall byte_range d -> map (fun b => b mod 256) d = d.
Proof.
  induction 1 as [|b l Hb _ IH]; [reflexivity|].
  simpl. rewrite IH. unfold byte_range in Hb.
  rewrite Z.mod_small by lia. reflexivity.
Qed.

Lemma rx_into_exact (old d : list Z) (n : nat) :
  length d = n -> length old = n -> Forall byte_range d ->
  rx_into old n (Some d) = d.
Proof.
  intros Hd Ho Hr. unfold rx_into.
  replace (firstn n d) with d by (rewrite <- Hd, firstn_all; reflexivity).
  rewrite map_mod_bytes by exact Hr.
  rewrite skipn_all2 by lia. apply app_nil_r.
Qed.

(** memcmp returns 0 exactly when the compared bytes agree. *)
Lemma memcmp_zero_iff (n : nat) : forall cs ct,
  (n <= length cs)%nat -> (n <= length ct)%nat ->
  exists r, Klib.memcmp cs ct n = Ok r /\ (r = 0 <-> firstn n cs = firstn n ct).
Proof.
  induction n as [|n IH]; intros cs ct Hs Ht.
  - exists 0. split; [reflexivity|]. simpl. tauto.
  - destruct cs as [|a cs]; [simpl in Hs; lia|].
    destruct ct as [|b ct]; [simpl in Ht; lia|].
    simpl in Hs, Ht. cbn [Klib.memcmp firstn].
    destruct (a - b =? 0) eqn:E; cbn [negb].
    + apply Z.eqb_eq in E. assert (a = b) by lia. subst b.
      destruct (IH cs ct ltac:(lia) ltac:(lia)) as (r & Hr & Hiff).
      exists r. split; [exact Hr|]. rewrite Hiff. split.
      * intros ->. reflexivity.
      * intros H. now inversion H.
    + apply Z.eqb_neq in E. exists (a - b). split; [reflexivity|]. split.
      * intros H. contradiction.
      * intros H. inversion H. lia.
Qed.

Section WithPlatform.

Context {W : Type} {P : Platform W}.

(** The four steps after the parse stop at the first non-zero status. *)
Lemma program_device_stops_at_verify (fuel : nat) (cfg : raa_dmpvr2_cfg)
    (ret status : Z) (w w' : W) :
  raa_dmpvr2_verify_device cfg w = (w', Ok status) ->
  status <> 0 ->
  program_device fuel cfg ret w = (w', Ok status).
Proof.
  intros Hv Hs. unfold program_device, io_bind at 1. rewrite Hv.
  destruct (status =? 0) eqn:E; [apply Z.eqb_eq in E; contradiction|].
  reflexivity.
Qed.

Lemma write_cfg_after_parse (fuel : nat) (ubuf : list Z) (ppos : Z) (w : W)
    (j0 junk : nat -> Z) (cfg : raa_dmpvr2_cfg) :
  let len := Z.of_nat (length ubuf) in
  let r := Klib.simple_write_to_buffer (map junk (seq 0 (length ubuf)))
             len ppos ubuf len in
  kmalloc w sizeof_cfg = Some j0 ->
  kmalloc w len = Some junk ->
  Parser.raa_dmpvr2_parse_cfg (kmalloc w) (snd r) = Ok cfg ->
  raa_dmpvr2_write_cfg fuel ubuf ppos w = program_device fuel cfg (fst r) w.
Proof.
  intros len r H0 H1 Hp. unfold raa_dmpvr2_write_cfg.
  rewrite H0. fold len. rewrite H1. fold r.
  destruct r as [ret cbuf]. cbn [fst snd] in *. rewrite Hp. reflexivity.
Qed.

Lemma verify_device_on_reads (cfg : raa_dmpvr2_cfg) (w w1 w2 : W)
    (idb revb : list Z) :
  i2c_transfer w [I2C_WR [PMBUS_IC_DEVICE_ID]; I2C_RD 5] = (w1, (2, Some idb)) ->
  i2c_transfer w1 [I2C_WR [PMBUS_IC_DEVICE_REV]; I2C_RD 5]
    = (w2, (2, Some revb)) ->
  length idb = 5%nat -> length revb = 5%nat ->
  Forall byte_range idb -> Forall byte_range revb ->
  length (dev_id cfg) = 4%nat -> length (dev_rev cfg) = 4%nat ->
  exists status,
    raa_dmpvr2_verify_device cfg w = (w2, Ok status)
    /\ (status = 0 <->
        dev_id cfg = skipn 1 idb /\ nth 3 (dev_rev cfg) 0 = nth 4 revb 0).
Proof.
  intros Ht1 Ht2 Hli Hlr Hri Hrr Hci Hcr.
  unfold raa_dmpvr2_verify_device, junk_array.
  unfold io_bind at 1. unfold io_bind at 1. unfold io_bind at 1.
  unfold raa_smbus_read40 at 1. rewrite Ht1.
  rewrite rx_into_exact by (auto; rewrite length_map, length_seq; reflexivity).
  change (negb (2 =? 2)) with false. cbv iota. change (negb (0 =? 0)) with false.
  cbv iota. unfold io_bind at 1. unfold raa_smbus_read40 at 1. rewrite Ht2.
  rewrite rx_into_exact by (auto; rewrite length_map, length_seq; reflexivity).
  change (negb (2 =? 2)) with false. cbv iota. change (negb (0 =? 0)) with false.
  cbv iota.
  destruct (memcmp_zero_iff 4 (dev_id cfg) (skipn 1 idb)) as (a & Ha & Hia).
  { lia. } { rewrite length_skipn. lia. }
  destruct (memcmp_zero_iff 1 (skipn 3 (dev_rev cfg)) (skipn 4 revb))
    as (b & Hb & Hib).
  { rewrite length_skipn. lia. } { rewrite length_skipn. lia. }
  unfold io_bind, io_lift. rewrite Ha, Hb. unfold io_ret.
  exists (Z.lor a b). split; [reflexivity|].
  rewrite Z.lor_eq_0_iff, Hia, Hib.
  assert (E1 : firstn 4 (dev_id cfg) = dev_id cfg)
    by (rewrite <- Hci; apply firstn_all).
  assert (E2 : firstn 4 (skipn 1 idb) = skipn 1 idb).
  { apply firstn_all2. rewrite length_skipn. lia. }
  rewrite E1, E2.
  destruct (dev_rev cfg) as [|r0 [|r1 [|r2 [|r3 [|? ?]]]]]; try discriminate Hcr.
  destruct revb as [|v0 [|v1 [|v2 [|v3 [|v4 [|? ?]]]]]]; try discriminate Hlr.
  cbn [skipn firstn nth]. split.
  - intros [H1 H2]. split; [exact H1|]. now inversion H2.
  - intros [H1 H2]. split; [exact H1|]. now rewrite H2.
Qed.

End WithPlatform.

End VerifyProps.

(** C2 as stated does not hold: only the last of the four revision bytes
    is compared.  A configuration with revision bytes 00 00 00 05 passes
    the identity check against a device reporting 09 09 09 05, and its
    commands are then sent. *)
Lemma revision_bytes_ignored_counterexample :
  let w := Sim.start [Sim.reads [4; 1; 2; 3; 4]; Sim.reads [4; 9; 9; 9; 5];
                      Sim.reads [1; 0; 0; 0]; Sim.written;
                      Sim.reads [1; 0; 0; 0]; Sim.reads [1; 0; 0; 0];
                      Sim.reads [0; 0; 0; 0]] Sim.failing in
  let cfg := mk_cfg [1; 2; 3; 4] [0; 0; 0; 5] 1 2
               [mk_cmd 16 4 [170; 187; 204; 221]; mk_cmd 32 2 [17; 34; 0; 0]] in
  Parser.raa_dmpvr2_parse_cfg (kmalloc w) (Sim.blob Sim.lines_648) = Ok cfg
  /\ dev_rev cfg <> [9; 9; 9; 5]
  /\ snd (Driver.raa_dmpvr2_verify_device cfg w) = Ok 0
  /\ snd (Driver.raa_dmpvr2_write_cfg 100 (Sim.blob Sim.lines_648) 0 w)
     = Ok (Z.of_nat (length (Sim.blob Sim.lines_648)))
  /\ In (Sim.Transfer [I2C_WR [16; 170; 187; 204; 221]])
        (Sim.log (fst (Driver.raa_dmpvr2_write_cfg 100
                         (Sim.blob Sim.lines_648) 0 w))).
Proof.
  cbv zeta. split_all; try run.
  - discriminate.
  - vm_compute. tauto.
Qed.

(** C2, amended.  Whenever the identity check returns a non-zero status,
    raa_dmpvr2_write_cfg returns that status and leaves the bus as the
    check left it: nothing is sent.  When both identity reads succeed, the
    check returns non-zero if the four id bytes of the configuration differ
    in at least one byte from those the device reports, or if the last
    revision byte [dev_rev[3]] differs from the last revision byte the
    device reports; the other three revision bytes are not compared. *)
Theorem identity_gating :
  forall (W : Type) (P : Platform W) (fuel : nat) (ubuf : list Z) (ppos : Z)
         (j0 junk : nat -> Z) (cfg : raa_dmpvr2_cfg) (w w1 w2 : W)
         (idb revb : list Z),
    let len := Z.of_nat (length ubuf) in
    let r := Klib.simple_write_to_buffer (map junk (seq 0 (length ubuf)))
               len ppos ubuf len in
    kmalloc w Driver.sizeof_cfg = Some j0 ->
    kmalloc w len = Some junk ->
    Parser.raa_dmpvr2_parse_cfg (kmalloc w) (snd r) = Ok cfg ->
    (forall w' status,
       Driver.raa_dmpvr2_verify_device cfg w = (w', Ok status) ->
       status <> 0 ->
       Driver.raa_dmpvr2_write_cfg fuel ubuf ppos w = (w', Ok status))
    /\ (i2c_transfer w [I2C_WR [PMBUS_IC_DEVICE_ID]; I2C_RD 5]
          = (w1, (2, Some idb)) ->
        i2c_transfer w1 [I2C_WR [PMBUS_IC_DEVICE_REV]; I2C_RD 5]
          = (w2, (2, Some revb)) ->
        length idb = 5%nat -> length revb = 5%nat ->
        Forall Format.byte_range idb -> Forall Format.byte_range revb ->
        length (dev_id cfg) = 4%nat -> length (dev_rev cfg) = 4%nat ->
        dev_id cfg <> skipn 1 idb \/ nth 3 (dev_rev cfg) 0 <> nth 4 revb 0 ->
        exists status,
          status <> 0
          /\ Driver.raa_dmpvr2_verify_device cfg w = (w2, Ok status)
          /\ Driver.raa_dmpvr2_write_cfg fuel ubuf ppos w = (w2, Ok status)).
Proof.
  intros W P fuel ubuf ppos j0 junk cfg w w1 w2 idb revb len r H0 H1 Hp.
  pose proof (VerifyProps.write_cfg_after_parse fuel ubuf ppos w j0 junk cfg
                H0 H1 Hp) as Hw.
  fold len in Hw. fold r in Hw.
  split.
  - intros w' status Hv Hs. rewrite Hw.
    apply VerifyProps.program_device_stops_at_verify; assumption.
  - intros Ht1 Ht2 Hli Hlr Hri Hrr Hci Hcr Hdiff.
    destruct (VerifyProps.verify_device_on_reads cfg w w1 w2 idb revb
                Ht1 Ht2 Hli Hlr Hri Hrr Hci Hcr) as (status & Hv & Hiff).
    exists status.
    assert (Hs : status <> 0) by (intros H; apply Hiff in H; tauto).
    split; [exact Hs|]. split; [exact Hv|].
    rewrite Hw. apply VerifyProps.program_device_stops_at_verify; assumption.
Qed.

Lemma identity_gating_witness :
  let w := Sim.start [Sim.reads [4; 1; 2; 3; 9]; Sim.reads [4; 0; 0; 0; 5]]
             Sim.failing in
  exists status,
    status <> 0
    /\ snd (Driver.raa_dmpvr2_write_cfg 100 (Sim.blob Sim.lines_648) 0 w)
       = Ok status
    /\ Sim.log (fst (Driver.raa_dmpvr2_write_cfg 100 (Sim.blob Sim.lines_648) 0 w))
       = [Sim.Transfer [I2C_WR [PMBUS_IC_DEVICE_ID]; I2C_RD 5];
          Sim.Transfer [I2C_WR [PMBUS_IC_DEVICE_REV]; I2C_RD 5]].
Proof.
  intros w.
  pose (cfg := mk_cfg [1; 2; 3; 4] [0; 0; 0; 5] 1 2
                 [mk_cmd 16 4 [170; 187; 204; 221]; mk_cmd 32 2 [17; 34; 0; 0]]).
  destruct (identity_gating Sim.world Sim.sim_platform 100
              (Sim.blob Sim.lines_648) 0 (fun _ => 0) (fun _ => 0) cfg w
              (fst (i2c_transfer w [I2C_WR [PMBUS_IC_DEVICE_ID]; I2C_RD 5]))
              (fst (Driver.raa_dmpvr2_verify_device cfg w))
              [4; 1; 2; 3; 9] [4; 0; 0; 0; 5]
              eq_refl eq_refl ltac:(vm_compute; reflexivity)) as [_ H].
  destruct H as (status & Hs & _ & Hw).
  - reflexivity.
  - vm_compute. reflexivity.
  - reflexivity.
  - reflexivity.
  - repeat constructor; unfold Format.byte_range; lia.
  - repeat constructor; unfold Format.byte_range; lia.
  - reflexivity.
  - reflexivity.
  - left. discriminate.
  - exists status. split; [exact Hs|]. rewrite Hw. split; reflexivity.
Defined.

(** C7.  There is a configuration and a device whose identities differ for
    which raa_dmpvr2_verify_device returns the OR of its two memcmp results
    as a positive number, and the program endpoint returns that number
    unchanged; the same endpoint reports success with a positive number
    too, the count of bytes consumed. *)
Theorem positive_mismatch_status_returned :
  exists (ubuf : list Z) (w w_ok : Sim.world) (cfg : raa_dmpvr2_cfg)
         (a b r : Z),
    Parser.raa_dmpvr2_parse_cfg (kmalloc w) ubuf = Ok cfg
    /\ Klib.memcmp (dev_id cfg) [0; 2; 3; 4] 4 = Ok a
    /\ Klib.memcmp (skipn 3 (dev_rev cfg)) [5] 1 = Ok b
    /\ r = Z.lor a b
    /\ 0 < r
    /\ snd (Driver.raa_dmpvr2_verify_device cfg w) = Ok r
    /\ snd (Driver.raa_dmpvr2_debugfs_write 100 Driver.RAA_DMPVR2_DEBUGFS_CFG_W
              ubuf 0 w) = Ok r
    /\ snd (Driver.raa_dmpvr2_debugfs_write 100 Driver.RAA_DMPVR2_DEBUGFS_CFG_W
              ubuf 0 w_ok) = Ok (Z.of_nat (length ubuf))
    /\ 0 < Z.of_nat (length ubuf).
Proof.
  exists (Sim.blob Sim.lines_648).
  exists (Sim.start [Sim.reads [4; 0; 2; 3; 4]; Sim.reads [4; 0; 0; 0; 5]]
            Sim.failing).
  exists (Sim.start [Sim.reads [4; 1; 2; 3; 4]; Sim.reads [4; 0; 0; 0; 5];
                     Sim.reads [1; 0; 0; 0]; Sim.written;
                     Sim.reads [1; 0; 0; 0]; Sim.reads [1; 0; 0; 0];
                     Sim.reads [0; 0; 0; 0]] Sim.failing).
  exists (mk_cfg [1; 2; 3; 4] [0; 0; 0; 5] 1 2
            [mk_cmd 16 4 [170; 187; 204; 221]; mk_cmd 32 2 [17; 34; 0; 0]]).
  exists 1, 0, 1.
  split_all; run.
Qed.

(** * The programming engine: polling and slot verification *)

(** ** Status polling *)

Module PollProps.

Import Driver Format Observe.

Section WithPlatform.

Context {W : Type} {P : Platform W}.

Lemma busy_keeps_zero (rest : list Z) (rx : option (list Z)) :
  leaves_zero rx = true ->
  exists rest', rx_into (0 :: rest) 4 rx = 0 :: rest'.
Proof.
  intros H. unfold rx_into. destruct rx as [[|b bs]|].
  - exists rest. reflexivity.
  - cbn [leaves_zero] in H. apply Z.eqb_eq in H.
    cbn [firstn map app]. rewrite H. eexists. reflexivity.
  - exists rest. reflexivity.
Qed.


End WithPlatform.

End PollProps.




(** ** Slot-status decoding (raa_dmpvr2_cfg_write_result, second half) *)

Module SlotProps.

Import Driver Format.

Section Banks.

Variables data data1 : list Z.
Hypothesis Hdata : length data = 4%nat.
Hypothesis Hdata1 : length data1 = 4%nat.

Lemma slot_status_spec (i : Z) :
  0 <= i < 16 -> slot_status data data1 i = Ok (spec_nibble data data1 i).
Proof.
  intros Hi. unfold slot_status, spec_nibble.
  destruct (i <? 8) eqn:E.
  - apply Z.ltb_lt in E.
    rewrite Z.quot_div_nonneg, Z.rem_mod_nonneg by lia.
    rewrite (load_nth data _ 0).
    + reflexivity.
    + rewrite Hdata. assert (i / 2 < 4) by (apply Z.div_lt_upper_bound; lia).
      assert (0 <= i / 2) by (apply Z.div_pos; lia). lia.
  - apply Z.ltb_ge in E.
    rewrite Z.quot_div_nonneg, Z.rem_mod_nonneg by lia.
    rewrite (load_nth data1 _ 0).
    + reflexivity.
    + rewrite Hdata1.
      assert ((i - 8) / 2 < 4) by (apply Z.div_lt_upper_bound; lia).
      assert (0 <= (i - 8) / 2) by (apply Z.div_pos; lia). lia.
Qed.

Lemma check_slots_all_ok (todo : nat) : forall i,
  0 <= i -> i + Z.of_nat todo <= 16 ->
  (forall j, i <= j < i + Z.of_nat todo -> spec_nibble data data1 j = 1) ->
  check_slots data data1 i todo = Ok (0, i + Z.of_nat todo).
Proof.
  induction todo as [|n IH]; intros i Hi Hb Hall.
  - simpl. f_equal. f_equal. lia.
  - cbn [check_slots]. rewrite slot_status_spec by lia. cbn [bind].
    rewrite (Hall i) by lia. cbn [Z.eqb Pos.eqb negb].
    rewrite IH by (try lia; intros; apply Hall; lia).
    f_equal. f_equal. lia.
Qed.

Lemma check_slots_first_bad (todo : nat) : forall i f,
  0 <= i -> i + Z.of_nat todo <= 16 ->
  i <= f < i + Z.of_nat todo ->
  spec_nibble data data1 f <> 1 ->
  (forall j, i <= j < f -> spec_nibble data data1 j = 1) ->
  check_slots data data1 i todo = Ok (- EIO, f).
Proof.
  induction todo as [|n IH]; intros i f Hi Hb Hf Hbad Hpre.
  - lia.
  - cbn [check_slots]. rewrite slot_status_spec by lia. cbn [bind].
    destruct (Z.eq_dec i f) as [->|Hne].
    + destruct (spec_nibble data data1 f =? 1) eqn:E.
      * apply Z.eqb_eq in E. contradiction.
      * reflexivity.
    + rewrite (Hpre i) by lia. cbn [Z.eqb Pos.eqb negb].
      apply IH; try lia. intros; apply Hpre; lia.
Qed.

End Banks.

End SlotProps.

(** A run of the second half of raa_dmpvr2_cfg_write_result: programming
    complete, slot 7 reporting status 2, sixteen slots to check. *)
Example slot_failure_run :
  snd (Driver.raa_dmpvr2_cfg_write_result 10
         (mk_cfg [1; 2; 3; 4] [0; 0; 0; 5] 16 0 [])
         (Sim.start [Sim.reads [1; 0; 0; 0];
                     Sim.reads [0x11; 0x11; 0x11; 0x21];
                     Sim.reads [0x11; 0x11; 0x11; 0x11]] Sim.failing))
  = Ok (- EIO).
Proof. run. Qed.

(** C5 fails on the code: the helper reports a failed transfer, but the
    capacity check, the status poll and the black-box reader drop that
    status.  On a bus where every transaction fails with -EIO the capacity
    check passes on the stale content of its buffer, the poll runs to its
    deadline and reports -ETIME, and the black-box reader returns 288 bytes
    rendered from its zeroed buffer. *)
Theorem transport_errors_are_dropped :
  let cfg := mk_cfg [1; 2; 3; 4] [0; 0; 0; 5] 1 0 [] in
  snd (Driver.raa_dmpvr2_smbus_read32 RAA_DMPVR2_DMA_SEQ [7; 7; 7; 7]
         (Sim.dead_bus 7)) = Ok (- EIO, [7; 7; 7; 7])
  /\ snd (Driver.smbus_write_word RAA_DMPVR2_DMA_ADDR RAA_DMPVR2_NVM_CNT_ADDR
            (Sim.dead_bus 7)) = Ok (- EIO)
  /\ snd (Driver.raa_dmpvr2_check_cfg cfg (Sim.dead_bus 7)) = Ok 0
  /\ snd (Driver.raa_dmpvr2_cfg_write_result 1000 cfg (Sim.dead_bus 7))
     = Ok (- ETIME)
  /\ snd (Driver.raa_dmpvr2_read_black_box 288 0 (Sim.dead_bus 7))
     = Ok (288, Format.render_words (repeat [0; 0; 0; 0] 32), 288).
Proof. cbv zeta. split_all; run. Qed.

(** * The black-box reader *)

(** ** Rendering *)

Module BlackBoxProps.

Import Driver Format Observe.

Lemma store_app {A : Type} (pre : list A) (x y : A) (post : list A) :
  store (pre ++ x :: post) (length pre) y = Ok (pre ++ y :: post).
Proof.
  induction pre as [|a pre IH]; simpl.
  - reflexivity.
  - rewrite IH. reflexivity.
Qed.

Lemma store_at {A : Type} (l pre : list A) (n : nat) (x y : A) (post : list A) :
  l = pre ++ x :: post -> n = length pre -> store l n y = Ok (pre ++ y :: post).
Proof. intros -> ->. apply store_app. Qed.

Lemma put_02X_spec (pre : list Z) (x y z b : Z) (post : list Z) :
  put_02X (pre ++ x :: y :: z :: post) (length pre) b
  = Ok ((pre ++ Klib.fmt_02X b) ++ NUL :: post, (length pre + 2)%nat).
Proof.
  unfold put_02X, Klib.fmt_02X.
  rewrite store_app. cbn [bind].
  rewrite (store_at _ (pre ++ [Klib.hex_upper (b / 16)]) (S (length pre)) y
             (Klib.hex_upper (b mod 16)) (z :: post)).
  - cbn [bind].
    rewrite (store_at _ (pre ++ [Klib.hex_upper (b / 16); Klib.hex_upper (b mod 16)])
               (S (S (length pre))) z NUL post).
    + reflexivity.
    + rewrite <- !app_assoc. reflexivity.
    + rewrite length_app. simpl. lia.
  - rewrite <- app_assoc. reflexivity.
  - rewrite length_app. simpl. lia.
Qed.

Lemma skipn_nth_cons {A : Type} (l : list A) (j : nat) (d : A) :
  (j < length l)%nat -> skipn j l = nth j l d :: skipn (S j) l.
Proof.
  revert j. induction l as [|a l IH]; intros j H; simpl in H.
  - lia.
  - destruct j as [|j]; [reflexivity|].
    simpl. apply IH. lia.
Qed.

Lemma bb_word_spec (data : list Z) (todo : nat) : forall j pre k,
  (j + todo <= length data)%nat ->
  bb_word (pre ++ repeat 0 (2 * todo + 1 + k)) (length pre) data j todo
  = Ok (pre ++ concat (map Klib.fmt_02X (firstn todo (skipn j data)))
            ++ repeat 0 (1 + k),
        (length pre + 2 * todo)%nat).
Proof.
  induction todo as [|t IH]; intros j pre k Hj.
  - simpl. rewrite Nat.add_0_r. reflexivity.
  - cbn [bb_word].
    rewrite (load_nth data j 0) by lia. cbn [bind].
    replace (2 * S t + 1 + k)%nat with (S (S (S (2 * t + k)))) by lia.
    cbn [repeat]. rewrite put_02X_spec. cbn [bind].
    replace (length pre + 2)%nat with (length (pre ++ Klib.fmt_02X (nth j data 0)))
      by (rewrite length_app; reflexivity).
    change (NUL :: repeat 0 (2 * t + k)) with (repeat 0 (S (2 * t + k))).
    replace (S (2 * t + k)) with (2 * t + 1 + k)%nat by lia.
    rewrite IH by lia.
    rewrite (skipn_nth_cons data j 0) by lia.
    cbn [firstn map concat]. rewrite <- !app_assoc.
    do 2 f_equal. rewrite length_app. simpl. lia.
Qed.

Lemma length_rx_into (old : list Z) (rx : option (list Z)) :
  length old = 4%nat -> length (rx_into old 4 rx) = 4%nat.
Proof.
  intros H. unfold rx_into. destruct rx as [bs|]; [|exact H].
  rewrite length_app, length_skipn, length_map, H.
  pose proof (firstn_le_length 4 bs). lia.
Qed.

Lemma length_hex8 (d : list Z) :
  length d = 4%nat -> length (concat (map Klib.fmt_02X d)) = 8%nat.
Proof.
  destruct d as [|a [|b [|c [|e [|? ?]]]]]; simpl; intros H; try discriminate.
  reflexivity.
Qed.

Lemma length_render_word (d : list Z) :
  length d = 4%nat -> length (render_word d) = 9%nat.
Proof.
  intros H. unfold render_word. rewrite length_app, length_hex8 by exact H.
  reflexivity.
Qed.

Lemma length_render_words (ws : list (list Z)) :
  Forall (fun d => length d = 4%nat) ws ->
  length (render_words ws) = (9 * length ws)%nat.
Proof.
  induction 1 as [|d ws Hd _ IH]; [reflexivity|].
  unfold render_words in *. cbn [map concat].
  rewrite length_app, IH, length_render_word by exact Hd. simpl. lia.
Qed.

Section WithPlatform.

Context {W : Type} {P : Platform W}.

Lemma bb_words_lengths (todo : nat) : forall (data : list Z) (w : W),
  length data = 4%nat ->
  length (fst (bb_words todo data w)) = todo
  /\ Forall (fun d => length d = 4%nat) (fst (bb_words todo data w)).
Proof.
  induction todo as [|n IH]; intros data w Hd; simpl.
  - split; [reflexivity | constructor].
  - destruct (i2c_transfer w _) as [w1 [st rx]].
    specialize (IH (rx_into data 4 rx) w1 (length_rx_into data rx Hd)).
    destruct (bb_words n (rx_into data 4 rx) w1) as [ws w'].
    simpl in *. destruct IH as [IH1 IH2]. split.
    + now rewrite IH1.
    + constructor; [apply length_rx_into, Hd | exact IH2].
Qed.

(** The outer loop writes the rendering of the words it reads. *)
Lemma bb_loop_spec (todo : nat) : forall (data pre : list Z) (k : nat) (w : W),
  length data = 4%nat ->
  bb_loop (pre ++ repeat 0 (9 * todo + k)) (length pre) data todo w
  = (snd (bb_words todo data w),
     Ok (pre ++ render_words (fst (bb_words todo data w)) ++ repeat 0 k)).
Proof.
  induction todo as [|n IH]; intros data pre k w Hd.
  - reflexivity.
  - cbn [bb_loop bb_words].
    unfold io_bind at 1. unfold raa_dmpvr2_smbus_read32.
    destruct (i2c_transfer w _) as [w1 [st rx]].
    set (d := rx_into data 4 rx).
    assert (Hd' : length d = 4%nat) by (apply length_rx_into, Hd).
    unfold io_bind at 1, io_lift.
    replace (9 * S n + k)%nat with (2 * 4 + 1 + (9 * n + k))%nat by lia.
    unfold RAA_DMPVR2_BB_WSIZE.
    rewrite bb_word_spec by (rewrite Hd'; lia).
    unfold io_bind at 1.
    replace (firstn 4 (skipn 0 d)) with d
      by (simpl skipn; rewrite <- Hd', firstn_all; reflexivity).
    rewrite (store_at _ (pre ++ concat (map Klib.fmt_02X d))
               (length pre + 2 * 4)%nat 0 NL (repeat 0 (9 * n + k))).
    + replace (S (length pre + 2 * 4)) with (length (pre ++ render_word d))
        by (rewrite length_app, length_render_word by exact Hd'; lia).
      replace ((pre ++ concat (map Klib.fmt_02X d)) ++ NL :: repeat 0 (9 * n + k))
        with ((pre ++ render_word d) ++ repeat 0 (9 * n + k))
        by (unfold render_word; rewrite <- !app_assoc; reflexivity).
      rewrite IH by exact Hd'.
      destruct (bb_words n d w1) as [ws w'].
      cbn [fst snd]. f_equal. f_equal.
      unfold render_words. cbn [map concat].
      rewrite <- !app_assoc. reflexivity.
    + rewrite <- app_assoc. reflexivity.
    + rewrite length_app, length_hex8 by exact Hd'. lia.
Qed.

(** The text raa_dmpvr2_read_black_box builds is the rendering of the 32
    words it reads after selecting the base address, whatever the device
    answers. *)
Lemma black_box_text_spec (w : W) :
  let w1 := fst (i2c_smbus_write_word_data w RAA_DMPVR2_DMA_ADDR
                   RAA_DMPVR2_BB_BASE_ADDR) in
  let r := bb_words 32 (repeat 0 4) w1 in
  black_box_text w = (snd r, Ok (render_words (fst r)))
  /\ length (render_words (fst r)) = 288%nat.
Proof.
  intros w1 r. split.
  - unfold black_box_text, io_bind at 1, smbus_write_word.
    subst r w1.
    destruct (i2c_smbus_write_word_data w _ _) as [w1 st0]. cbn [fst].
    pose proof (bb_loop_spec 32 (repeat 0 4) [] 0 w1 eq_refl) as H.
    cbn [app length] in H.
    unfold RAA_DMPVR2_BB_BUF_SIZE, RAA_DMPVR2_BB_WSIZE, RAA_DMPVR2_BB_WCNT.
    change (9 * 32 + 0)%nat with 288%nat in H.
    rewrite H. rewrite app_nil_r. reflexivity.
  - destruct (bb_words_lengths 32 (repeat 0 4) w1 eq_refl) as [H1 H2].
    fold r in H1, H2.
    rewrite length_render_words by exact H2. rewrite H1. reflexivity.
Qed.

(** When the reads are answered with in-range four-byte words, those words
    are what the loop renders. *)
Lemma bb_words_of_reads (ws : list (list Z)) : forall (data : list Z) (w w' : W),
  length data = 4%nat ->
  reads_yield w ws = Some w' ->
  Forall (fun d => length d = 4%nat /\ Forall byte_range d) ws ->
  bb_words (length ws) data w = (ws, w').
Proof.
  induction ws as [|d ws IH]; intros data w w' Hdata Hy Hok.
  - simpl in *. inversion Hy. reflexivity.
  - cbn [reads_yield] in Hy. cbn [length bb_words].
    destruct (i2c_transfer w _) as [w1 [st rx]].
    destruct rx as [d'|]; [|discriminate Hy].
    destruct (list_eq_dec Z.eq_dec d' d) as [->|]; [|discriminate Hy].
    inversion Hok as [|? ? [Hlen Hrange] Hok']; subst.
    assert (Hd : rx_into data 4 (Some d) = d).
    { unfold rx_into.
      replace (firstn 4 d) with d by (rewrite <- Hlen, firstn_all; reflexivity).
      replace (map (fun b => b mod 256) d) with d.
      - rewrite skipn_all2 by lia. apply app_nil_r.
      - clear - Hrange. induction Hrange as [|b l Hb _ IHl]; [reflexivity|].
        simpl. rewrite <- IHl. unfold byte_range in Hb.
        rewrite Z.mod_small by lia. reflexivity. }
    rewrite Hd. rewrite (IH d w1 w' Hlen Hy Hok'). reflexivity.
Qed.

End WithPlatform.

Lemma hex_upper_is_upper_hex (v : Z) :
  0 <= v < 16 -> is_upper_hex (Klib.hex_upper v) = true.
Proof.
  intros H. unfold is_upper_hex, Klib.hex_upper.
  destruct (v <? 10) eqn:E.
  - apply Z.ltb_lt in E.
    replace ((48 <=? 48 + v) && (48 + v <=? 57)) with true; [reflexivity|].
    symmetry. apply andb_true_iff. split; apply Z.leb_le; lia.
  - apply Z.ltb_ge in E.
    replace ((65 <=? 65 + (v - 10)) && (65 + (v - 10) <=? 70)) with true.
    + apply orb_true_r.
    + symmetry. apply andb_true_iff. split; apply Z.leb_le; lia.
Qed.

Lemma fmt_02X_upper_hex (b : Z) :
  byte_range b -> forallb is_upper_hex (Klib.fmt_02X b) = true.
Proof.
  unfold byte_range. intros H. unfold Klib.fmt_02X. cbn [forallb].
  rewrite !hex_upper_is_upper_hex; [reflexivity | |].
  - apply Z.mod_pos_bound. lia.
  - split; [apply Z.div_pos; lia | apply Z.div_lt_upper_bound; lia].
Qed.

(** The two digits written for a byte read back as that byte. *)
Lemma fmt_02X_value (b : Z) :
  byte_range b ->
  16 * hex_value (nth 0 (Klib.fmt_02X b) 0) + hex_value (nth 1 (Klib.fmt_02X b) 0)
  = b.
Proof.
  unfold byte_range. intros H.
  assert (Hv : forall v, 0 <= v < 16 -> hex_value (Klib.hex_upper v) = v).
  { intros v Hv.
    assert (C : v = 0 \/ v = 1 \/ v = 2 \/ v = 3 \/ v = 4 \/ v = 5 \/ v = 6
                \/ v = 7 \/ v = 8 \/ v = 9 \/ v = 10 \/ v = 11 \/ v = 12
                \/ v = 13 \/ v = 14 \/ v = 15) by lia.
    repeat (destruct C as [->|C]; [reflexivity|]). subst. reflexivity. }
  unfold Klib.fmt_02X. cbn [nth].
  rewrite !Hv.
  - pose proof (Z.div_mod b 16 ltac:(lia)). lia.
  - apply Z.mod_pos_bound. lia.
  - split; [apply Z.div_pos; lia | apply Z.div_lt_upper_bound; lia].
Qed.

Lemma render_word_upper_hex (d : list Z) :
  Forall byte_range d ->
  forallb is_upper_hex (concat (map Klib.fmt_02X d)) = true.
Proof.
  induction 1 as [|b l Hb _ IH]; [reflexivity|].
  cbn [map concat]. rewrite forallb_app, IH, fmt_02X_upper_hex by exact Hb.
  reflexivity.
Qed.

End BlackBoxProps.

(** C10.  When the 32 reads of the sequential window are answered with the
    four-byte words [ws], the buffer the black-box reader builds is exactly
    their rendering in read order: 288 characters, each word as eight
    upper-case hexadecimal digits that spell its four bytes, followed by a
    newline; a read of the whole file returns it. *)
Theorem black_box_rendering :
  forall (W : Type) (P : Platform W) (w w1 w' : W) (st : Z)
         (ws : list (list Z)),
    i2c_smbus_write_word_data w RAA_DMPVR2_DMA_ADDR RAA_DMPVR2_BB_BASE_ADDR
      = (w1, st) ->
    Observe.reads_yield w1 ws = Some w' ->
    length ws = 32%nat ->
    Forall (fun d => length d = 4%nat /\ Forall Format.byte_range d) ws ->
    Driver.black_box_text w = (w', Ok (Format.render_words ws))
    /\ length (Format.render_words ws) = 288%nat
    /\ Forall (fun d =>
         exists hex,
           Format.render_word d = hex ++ [NL]
           /\ length hex = 8%nat
           /\ forallb Format.is_upper_hex hex = true
           /\ forall j, (j < 4)%nat ->
                Format.pair_value (2 * j) hex = nth j d 0) ws
    /\ Driver.raa_dmpvr2_read_black_box 288 0 w
       = (w', Ok (288, Format.render_words ws, 288)).
Proof.
  intros W P w w1 w' st ws Hsel Hy Hlen Hok.
  pose proof (BlackBoxProps.black_box_text_spec w) as [Htext _].
  rewrite Hsel in Htext. cbn [fst] in Htext.
  pose proof (BlackBoxProps.bb_words_of_reads ws (repeat 0 4) w1 w' eq_refl
                Hy Hok) as Hw.
  rewrite Hlen in Hw. rewrite Hw in Htext. cbn [fst snd] in Htext.
  assert (Hsize : length (Format.render_words ws) = 288%nat).
  { rewrite BlackBoxProps.length_render_words.
    - rewrite Hlen. reflexivity.
    - eapply Forall_impl; [|exact Hok]. intros d [Hd _]. exact Hd. }
  split; [exact Htext|]. split; [exact Hsize|]. split.
  - eapply Forall_impl; [|exact Hok].
    intros d [Hd Hr]. exists (concat (map Klib.fmt_02X d)).
    split; [reflexivity|]. split; [apply BlackBoxProps.length_hex8, Hd|].
    split; [apply BlackBoxProps.render_word_upper_hex, Hr|].
    intros j Hj.
    destruct d as [|a [|b [|c [|e [|? ?]]]]]; try discriminate Hd.
    inversion Hr as [|? ? Ha Hr1]; subst.
    inversion Hr1 as [|? ? Hb Hr2]; subst.
    inversion Hr2 as [|? ? Hc Hr3]; subst.
    inversion Hr3 as [|? ? He _]; subst.
    destruct j as [|[|[|[|j]]]]; try lia;
      unfold Format.pair_value; cbn [map concat app nth Nat.mul Nat.add];
      apply BlackBoxProps.fmt_02X_value; assumption.
  - unfold Driver.raa_dmpvr2_read_black_box, io_bind. rewrite Htext.
    unfold io_ret. f_equal. f_equal.
    unfold Klib.simple_read_from_buffer, RAA_DMPVR2_BB_BUF_SIZE.
    change (0 <? 0) with false. change (Z.of_nat 288 <=? 0) with false.
    change (288 =? 0) with false. cbn [orb].
    change (Z.of_nat 288 - 0 <? 288) with false. cbv iota.
    change (Z.to_nat 288) with 288%nat. change (Z.to_nat 0) with 0%nat.
    cbn [skipn]. rewrite firstn_all2 by (rewrite Hsize; apply Nat.le_refl).
    reflexivity.
Qed.

Lemma black_box_rendering_witness :
  let w := Sim.start [] (Sim.reads [0xDE; 0xAD; 0xBE; 0xEF]) in
  Driver.black_box_text w
  = (fst (Driver.black_box_text w),
     Ok (Format.render_words (repeat [0xDE; 0xAD; 0xBE; 0xEF] 32))).
Proof.
  intros w.
  refine (proj1 (black_box_rendering Sim.world Sim.sim_platform w
                   (fst (Sim.sim_write_word w RAA_DMPVR2_DMA_ADDR
                           RAA_DMPVR2_BB_BASE_ADDR))
                   (fst (Driver.black_box_text w)) 0
                   (repeat [0xDE; 0xAD; 0xBE; 0xEF] 32) _ _ _ _)).
  - reflexivity.
  - vm_compute. reflexivity.
  - reflexivity.
  - apply Forall_forall. intros d Hd. apply repeat_spec in Hd. subst d.
    split; [reflexivity|].
    repeat constructor; unfold Format.byte_range; lia.
Defined.

(** C8 as the design document states it does not hold: the dump endpoint
    hands [len] and the file position to simple_read_from_buffer, so a
    request for 10 bytes at offset 0 returns 10 bytes, not 288. *)
Lemma dump_partial_read_counterexample :
  snd (Driver.raa_dmpvr2_debugfs_read Driver.RAA_DMPVR2_DEBUGFS_BB_R 10 0
         (Sim.start [] (Sim.reads [0xDE; 0xAD; 0xBE; 0xEF])))
  = Ok (10, bytes_of_string "DEADBEEF" ++ [NL; 68], 10).
Proof. vm_compute. reflexivity. Qed.

(** C8, amended.  Every invocation of the dump endpoint rebuilds the full
    288-byte snapshot, whatever the device answers, and returns the part of
    it the caller asked for: -EINVAL for a negative position, nothing at or
    past the end or for a zero length, otherwise [min len (288 - pos)]
    bytes from offset [pos], the position advanced by as much.  The whole
    snapshot is returned for a request of at least 288 bytes at offset 0. *)
Theorem dump_honours_length_and_offset :
  forall (W : Type) (P : Platform W) (w : W) (len ppos : Z),
    exists w' out,
      Driver.black_box_text w = (w', Ok out)
      /\ length out = 288%nat
      /\ Driver.raa_dmpvr2_debugfs_read Driver.RAA_DMPVR2_DEBUGFS_BB_R len ppos w
         = (w', Ok (if ppos <? 0 then (- EINVAL, [], ppos)
                    else if (288 <=? ppos) || (len =? 0) then (0, [], ppos)
                    else
                      let n := Z.min len (288 - ppos) in
                      (n, firstn (Z.to_nat n) (skipn (Z.to_nat ppos) out),
                       ppos + n)))
      /\ (ppos = 0 -> 288 <= len ->
          Driver.raa_dmpvr2_debugfs_read Driver.RAA_DMPVR2_DEBUGFS_BB_R len ppos w
          = (w', Ok (288, out, 288))).
Proof.
  intros W P w len ppos.
  pose proof (BlackBoxProps.black_box_text_spec w) as [Htext Hsize].
  cbv zeta in Htext, Hsize.
  set (r := Observe.bb_words 32 (repeat 0 4)
              (fst (i2c_smbus_write_word_data w RAA_DMPVR2_DMA_ADDR
                      RAA_DMPVR2_BB_BASE_ADDR))) in *.
  exists (snd r), (Format.render_words (fst r)).
  set (out := Format.render_words (fst r)) in *.
  assert (Hread :
    Driver.raa_dmpvr2_debugfs_read Driver.RAA_DMPVR2_DEBUGFS_BB_R len ppos w
    = (snd r, Ok (Klib.simple_read_from_buffer len ppos out 288))).
  { unfold Driver.raa_dmpvr2_debugfs_read, Driver.raa_dmpvr2_read_black_box,
      io_bind. rewrite Htext. reflexivity. }
  split; [exact Htext|]. split; [exact Hsize|]. split.
  - rewrite Hread. f_equal. f_equal. unfold Klib.simple_read_from_buffer.
    destruct (ppos <? 0); [reflexivity|].
    destruct ((288 <=? ppos) || (len =? 0)); [reflexivity|].
    cbv zeta.
    replace (if 288 - ppos <? len then 288 - ppos else len)
      with (Z.min len (288 - ppos)); [reflexivity|].
    destruct (288 - ppos <? len) eqn:E.
    + apply Z.ltb_lt in E. lia.
    + apply Z.ltb_ge in E. lia.
  - intros -> Hlen. rewrite Hread. f_equal. f_equal.
    unfold Klib.simple_read_from_buffer.
    change (0 <? 0) with false. change (288 <=? 0) with false.
    cbn [orb].
    destruct (len =? 0) eqn:E0; [apply Z.eqb_eq in E0; lia|].
    change (288 - 0) with 288.
    destruct (288 <? len) eqn:E.
    + change (Z.to_nat 288) with 288%nat. change (Z.to_nat 0) with 0%nat.
      cbn [skipn]. rewrite <- Hsize, firstn_all. reflexivity.
    + apply Z.ltb_ge in E. assert (len = 288) by lia. subst len.
      change (Z.to_nat 288) with 288%nat. change (Z.to_nat 0) with 0%nat.
      cbn [skipn]. rewrite <- Hsize, firstn_all. reflexivity.
Qed.

Lemma dump_honours_length_and_offset_witness :
  exists w' out,
    Driver.black_box_text (Sim.dead_bus 0) = (w', Ok out)
    /\ Driver.raa_dmpvr2_debugfs_read Driver.RAA_DMPVR2_DEBUGFS_BB_R 4096 0
         (Sim.dead_bus 0)
       = (w', Ok (288, out, 288)).
Proof.
  destruct (dump_honours_length_and_offset Sim.world Sim.sim_platform
              (Sim.dead_bus 0) 4096 0) as (w' & out & Ht & _ & _ & Hfull).
  exists w', out. split; [exact Ht|]. apply Hfull; [reflexivity | lia].
Defined.

(** * The programming engine: the result of a run *)

Module EngineProps.

Import Driver Format Observe.

Lemma check_slots_result (data data1 : list Z) (todo : nat) :
  length data = 4%nat -> length data1 = 4%nat ->
  forall s : nat,
    (s + todo <= 16)%nat ->
    exists i,
      check_slots data data1 (Z.of_nat s) todo
      = Ok (if forallb (fun k => spec_nibble data data1 (Z.of_nat k) =? 1)
                       (seq s todo)
            then 0 else - EIO, i).
Proof.
  intros Hd Hd1. induction todo as [|todo IH]; intros s Hs.
  - eexists. reflexivity.
  - cbn [check_slots seq forallb].
    rewrite (SlotProps.slot_status_spec data data1 Hd Hd1) by lia.
    cbn [bind].
    destruct (spec_nibble data data1 (Z.of_nat s) =? 1); cbn [negb andb].
    + replace (Z.of_nat s + 1) with (Z.of_nat (S s)) by lia.
      apply IH. lia.
    + eexists. reflexivity.
Qed.

Section WithPlatform.

Context {W : Type} {P : Platform W}.

Lemma check_cfg_on_read (cfg : raa_dmpvr2_cfg) (w w2 : W) (st b : Z)
    (rest : list Z) :
  i2c_transfer (fst (i2c_smbus_write_word_data w RAA_DMPVR2_DMA_ADDR
                       RAA_DMPVR2_NVM_CNT_ADDR))
    [I2C_WR [RAA_DMPVR2_DMA_SEQ]; I2C_RD 4] = (w2, (st, Some (b :: rest))) ->
  byte_range b ->
  raa_dmpvr2_check_cfg cfg w
  = (w2, Ok (if b <? slot_cnt cfg then - EINVAL else 0)).
Proof.
  intros Ht Hb. unfold raa_dmpvr2_check_cfg, junk_array.
  unfold io_bind at 1. unfold io_bind at 1. unfold smbus_write_word.
  destruct (i2c_smbus_write_word_data w RAA_DMPVR2_DMA_ADDR
              RAA_DMPVR2_NVM_CNT_ADDR) as [w1 s1].
  cbn [fst] in Ht. unfold io_bind at 1. unfold raa_dmpvr2_smbus_read32.
  rewrite Ht. unfold rx_into. cbn [firstn map app].
  unfold io_bind, io_lift. cbn [load nth_error of_option].
  unfold byte_range in Hb. rewrite Z.mod_small by lia.
  destruct (b <? slot_cnt cfg); reflexivity.
Qed.

(** The device turns ready at poll [n]: the loop leaves after [n + 1]
    reads with the status byte it got. *)
Lemma poll_status_ready (start : Z) (n : nat) :
  forall (fuel reads : nat) (rest : list Z) (w : W) (b : Z) (st : list Z),
    (forall m, (m < n)%nat -> busy_at (after_polls m w) = true) ->
    (forall m, (m <= n)%nat -> expired start (after_polls m w) = false) ->
    snd (snd (poll_read (after_polls n w))) = Some (b :: st) ->
    b mod 256 <> 0 ->
    (S n < fuel)%nat ->
    length rest = 3%nat ->
    exists rest',
      poll_status fuel start (0 :: rest) reads w
      = (after_polls (S n) w, Ok (b mod 256 :: rest', (reads + S n)%nat))
      /\ length rest' = 3%nat.
Proof.
  induction n as [|n IH];
    intros fuel reads rest w b st Hbusy Hpre Hans Hb Hfuel Hrest.
  - destruct fuel as [|[|fuel]]; try lia.
    cbn [after_polls] in *. cbn [poll_status].
    unfold io_bind at 1, io_lift. cbn [load nth_error of_option].
    pose proof (Hpre O ltac:(lia)) as H0. cbn [after_polls] in H0.
    unfold expired in H0. rewrite H0. cbn [Z.eqb negb andb].
    unfold io_bind at 1, raa_dmpvr2_smbus_read32. unfold poll_read in *.
    destruct (i2c_transfer w [I2C_WR [RAA_DMPVR2_DMA_FIX]; I2C_RD 4])
      as [w2 [s rx]] eqn:Et.
    cbn [fst snd] in *. subst rx.
    pose proof (BlackBoxProps.length_rx_into (0 :: rest) (Some (b :: st))
                  ltac:(cbn [length]; lia)) as Hlen.
    assert (Hhead : exists rest',
               rx_into (0 :: rest) 4 (Some (b :: st)) = b mod 256 :: rest')
      by (unfold rx_into; cbn [firstn map app]; eexists; reflexivity).
    destruct Hhead as (rest' & Hr). rewrite Hr in *.
    unfold io_bind at 1. cbn [load nth_error of_option].
    apply Z.eqb_neq in Hb. rewrite Hb. cbn [andb].
    exists rest'. rewrite Nat.add_1_r. split; [reflexivity|].
    cbn [length] in Hlen. lia.
  - destruct fuel as [|fuel]; [lia|].
    cbn [poll_status after_polls].
    unfold io_bind at 1, io_lift. cbn [load nth_error of_option].
    pose proof (Hpre O ltac:(lia)) as H0. cbn [after_polls] in H0.
    unfold expired in H0. rewrite H0. cbn [Z.eqb negb andb].
    unfold io_bind at 1, raa_dmpvr2_smbus_read32.
    pose proof (Hbusy O ltac:(lia)) as Hz. cbn [after_polls] in Hz.
    unfold busy_at in Hz. unfold poll_read in *.
    destruct (i2c_transfer w [I2C_WR [RAA_DMPVR2_DMA_FIX]; I2C_RD 4])
      as [w2 [s rx]] eqn:Et.
    cbn [fst snd] in *.
    destruct (PollProps.busy_keeps_zero rest rx Hz) as (rest1 & Hr).
    pose proof (BlackBoxProps.length_rx_into (0 :: rest) rx) as Hlen.
    rewrite Hr in *. cbn [length] in Hlen. specialize (Hlen ltac:(lia)).
    destruct (IH fuel (S reads) rest1 w2 b st) as (rest' & Hp & Hl').
    + intros m Hm. specialize (Hbusy (S m) ltac:(lia)).
      cbn [after_polls] in Hbusy. unfold poll_read in Hbusy.
      rewrite Et in Hbusy. exact Hbusy.
    + intros m Hm. specialize (Hpre (S m) ltac:(lia)).
      cbn [after_polls] in Hpre. unfold poll_read in Hpre.
      rewrite Et in Hpre. exact Hpre.
    + cbn [after_polls] in Hans. unfold poll_read in Hans.
      rewrite Et in Hans. exact Hans.
    + exact Hb.
    + lia.
    + lia.
    + exists rest'. rewrite Hp. split; [|exact Hl']. do 3 f_equal. lia.
Qed.

End WithPlatform.

End EngineProps.

Module ResultProps.

(** The outcome of raa_dmpvr2_cfg_write_result once the device reports
    the programming as done. *)
Lemma write_result_ready :
  forall (W : Type) (P : Platform W) (cfg : raa_dmpvr2_cfg) (w w4 w6 : W)
         (n fuel : nat) (st b0 b1 : list Z) (s0 s1 : Z),
    let start := jiffies w in
    let w1 := fst (i2c_smbus_write_word_data w RAA_DMPVR2_DMA_ADDR
                     RAA_DMPVR2_PRGM_STATUS_ADDR) in
    let w2 := Observe.after_polls (S n) w1 in
    let w3 := fst (i2c_smbus_write_word_data w2 RAA_DMPVR2_DMA_ADDR
                     RAA_DMPVR2_BANK0_STATUS_ADDR) in
    let w5 := fst (i2c_smbus_write_word_data w4 RAA_DMPVR2_DMA_ADDR
                     RAA_DMPVR2_BANK1_STATUS_ADDR) in
    (forall m, (m < n)%nat ->
       Observe.busy_at (Observe.after_polls m w1) = true) ->
    (forall m, (m <= n)%nat ->
       Observe.expired start (Observe.after_polls m w1) = false) ->
    snd (snd (Observe.poll_read (Observe.after_polls n w1))) = Some (1 :: st) ->
    i2c_transfer w3 [I2C_WR [RAA_DMPVR2_DMA_FIX]; I2C_RD 4]
      = (w4, (s0, Some b0)) ->
    i2c_transfer w5 [I2C_WR [RAA_DMPVR2_DMA_FIX]; I2C_RD 4]
      = (w6, (s1, Some b1)) ->
    length b0 = 4%nat -> length b1 = 4%nat ->
    Forall Format.byte_range b0 -> Forall Format.byte_range b1 ->
    0 <= slot_cnt cfg <= 16 ->
    (S n < fuel)%nat ->
    Driver.raa_dmpvr2_cfg_write_result fuel cfg w
    = (w6, Ok (if forallb (fun k => Format.spec_nibble b0 b1 (Z.of_nat k) =? 1)
                          (seq 0 (Z.to_nat (slot_cnt cfg)))
               then 0 else - EIO)).
Proof.
  intros W P cfg w w4 w6 n fuel st b0 b1 s0 s1 start w1 w2 w3 w5
         Hbusy Hpre Hans Ht0 Ht1 Hl0 Hl1 Hr0 Hr1 Hslots Hfuel.
  destruct (EngineProps.poll_status_ready start n fuel 0 (repeat 0 3) w1 1 st
              Hbusy Hpre Hans ltac:(discriminate) Hfuel eq_refl)
    as (rest' & Hp & Hlen).
  change (0 :: repeat 0 3) with (repeat 0 4) in Hp.
  change (1 mod 256) with 1 in Hp.
  unfold Driver.raa_dmpvr2_cfg_write_result, Driver.junk_array.
  unfold io_bind at 1. fold start.
  unfold io_bind at 1. unfold Driver.smbus_write_word at 1.
  destruct (i2c_smbus_write_word_data w RAA_DMPVR2_DMA_ADDR
              RAA_DMPVR2_PRGM_STATUS_ADDR) as [w1' x1] eqn:E1.
  cbn [fst] in w1. subst w1. unfold io_bind at 1. rewrite Hp.
  unfold io_bind at 1, io_lift at 1. cbn [load nth_error of_option].
  change (negb (1 =? 1)) with false. cbv iota.
  unfold io_bind at 1. unfold Driver.smbus_write_word at 1.
  fold w2.
  destruct (i2c_smbus_write_word_data w2 RAA_DMPVR2_DMA_ADDR
              RAA_DMPVR2_BANK0_STATUS_ADDR) as [w3' x3] eqn:E3.
  cbn [fst] in w3. subst w3. unfold io_bind at 1.
  unfold Driver.raa_dmpvr2_smbus_read32 at 1. rewrite Ht0.
  unfold io_bind at 1. unfold Driver.smbus_write_word at 1.
  destruct (i2c_smbus_write_word_data w4 RAA_DMPVR2_DMA_ADDR
              RAA_DMPVR2_BANK1_STATUS_ADDR) as [w5' x5] eqn:E5.
  cbn [fst] in w5. subst w5. unfold io_bind at 1.
  unfold Driver.raa_dmpvr2_smbus_read32 at 1. rewrite Ht1.
  rewrite !VerifyProps.rx_into_exact
    by (auto; cbn [length]; rewrite ?length_map, ?length_seq; auto).
  unfold io_bind, io_lift.
  destruct (EngineProps.check_slots_result b0 b1 (Z.to_nat (slot_cnt cfg))
              Hl0 Hl1 0 ltac:(lia)) as (i & Hc).
  change (Z.of_nat 0) with 0 in Hc. rewrite Hc. reflexivity.
Qed.

End ResultProps.

(** C9.  Slot verification in raa_dmpvr2_cfg_write_result.  Once the device
    has reported the programming as done ([n] busy polls, then the status
    byte 1, all before the deadline), the function selects the bank-0
    status register and reads the word [b0], then selects the bank-1
    register and reads [b1].  For every slot index [i] below the slot count
    the nibble its loop extracts is the one the design document names: bits
    [4*(i%2)..] of byte [i/2] of the bank-0 word for [i < 8], the like
    nibble of the bank-1 word at [i - 8] otherwise.  At the first slot [f]
    whose nibble is not 1 the loop is left with [i = f], so no later slot
    is looked at, and the function returns -EIO; when every nibble is 1
    the loop runs to the slot count and the function returns 0. *)
Theorem slot_verification_decoding :
  forall (W : Type) (P : Platform W) (cfg : raa_dmpvr2_cfg) (w w4 w6 : W)
         (n fuel : nat) (st b0 b1 : list Z) (s0 s1 : Z),
    let start := jiffies w in
    let w1 := fst (i2c_smbus_write_word_data w RAA_DMPVR2_DMA_ADDR
                     RAA_DMPVR2_PRGM_STATUS_ADDR) in
    let w2 := Observe.after_polls (S n) w1 in
    let w3 := fst (i2c_smbus_write_word_data w2 RAA_DMPVR2_DMA_ADDR
                     RAA_DMPVR2_BANK0_STATUS_ADDR) in
    let w5 := fst (i2c_smbus_write_word_data w4 RAA_DMPVR2_DMA_ADDR
                     RAA_DMPVR2_BANK1_STATUS_ADDR) in
    (forall m, (m < n)%nat ->
       Observe.busy_at (Observe.after_polls m w1) = true) ->
    (forall m, (m <= n)%nat ->
       Observe.expired start (Observe.after_polls m w1) = false) ->
    snd (snd (Observe.poll_read (Observe.after_polls n w1))) = Some (1 :: st) ->
    i2c_transfer w3 [I2C_WR [RAA_DMPVR2_DMA_FIX]; I2C_RD 4]
      = (w4, (s0, Some b0)) ->
    i2c_transfer w5 [I2C_WR [RAA_DMPVR2_DMA_FIX]; I2C_RD 4]
      = (w6, (s1, Some b1)) ->
    length b0 = 4%nat -> length b1 = 4%nat ->
    Forall Format.byte_range b0 -> Forall Format.byte_range b1 ->
    0 <= slot_cnt cfg <= 16 ->
    (S n < fuel)%nat ->
    (forall i, 0 <= i < slot_cnt cfg ->
       Driver.slot_status b0 b1 i = Ok (Format.spec_nibble b0 b1 i))
    /\ (forall f, 0 <= f < slot_cnt cfg ->
          Format.spec_nibble b0 b1 f <> 1 ->
          (forall j, 0 <= j < f -> Format.spec_nibble b0 b1 j = 1) ->
          Driver.check_slots b0 b1 0 (Z.to_nat (slot_cnt cfg)) = Ok (- EIO, f)
          /\ Driver.raa_dmpvr2_cfg_write_result fuel cfg w = (w6, Ok (- EIO)))
    /\ ((forall j, 0 <= j < slot_cnt cfg -> Format.spec_nibble b0 b1 j = 1) ->
        Driver.check_slots b0 b1 0 (Z.to_nat (slot_cnt cfg))
        = Ok (0, slot_cnt cfg)
        /\ Driver.raa_dmpvr2_cfg_write_result fuel cfg w = (w6, Ok 0)).
Proof.
  intros W P cfg w w4 w6 n fuel st b0 b1 s0 s1 start w1 w2 w3 w5
         Hbusy Hpre Hans Ht0 Ht1 Hl0 Hl1 Hr0 Hr1 Hslots Hfuel.
  pose proof (ResultProps.write_result_ready W P cfg w w4 w6 n fuel st b0 b1
                s0 s1 Hbusy Hpre Hans Ht0 Ht1 Hl0 Hl1 Hr0 Hr1 Hslots Hfuel)
    as Hres.
  split; [|split].
  - intros i Hi. apply SlotProps.slot_status_spec; auto; lia.
  - intros f Hf Hbad Hpref. split.
    + apply SlotProps.check_slots_first_bad; auto; lia.
    + rewrite Hres.
      destruct (forallb _ _) eqn:E; [|reflexivity].
      rewrite forallb_forall in E.
      specialize (E (Z.to_nat f)). rewrite Z2Nat.id in E by lia.
      assert (Hin : In (Z.to_nat f) (seq 0 (Z.to_nat (slot_cnt cfg))))
        by (apply in_seq; lia).
      apply E, Z.eqb_eq in Hin. contradiction.
  - intros Hall. split.
    + rewrite (SlotProps.check_slots_all_ok b0 b1 Hl0 Hl1
                 (Z.to_nat (slot_cnt cfg)) 0); try lia.
      * f_equal. f_equal. lia.
      * intros j Hj. apply Hall. lia.
    + rewrite Hres.
      destruct (forallb _ _) eqn:E; [reflexivity|].
      assert (Ht : forallb (fun k => Format.spec_nibble b0 b1 (Z.of_nat k) =? 1)
                     (seq 0 (Z.to_nat (slot_cnt cfg))) = true).
      { apply forallb_forall. intros k Hk. apply in_seq in Hk.
        apply Z.eqb_eq, Hall. lia. }
      rewrite Ht in E. discriminate E.
Qed.

Lemma slot_verification_decoding_witness :
  let cfg := mk_cfg [1; 2; 3; 4] [0; 0; 0; 5] 16 0 [] in
  let w := Sim.start [Sim.reads [0; 0; 0; 0]; Sim.reads [1; 0; 0; 0];
                      Sim.reads [0x11; 0x11; 0x11; 0x21];
                      Sim.reads [0x11; 0x11; 0x11; 0x11]]
             Sim.failing in
  Driver.slot_status [0x11; 0x11; 0x11; 0x21] [0x11; 0x11; 0x11; 0x11] 7
  = Ok 2
  /\ Driver.check_slots [0x11; 0x11; 0x11; 0x21] [0x11; 0x11; 0x11; 0x11] 0
       (Z.to_nat 16) = Ok (- EIO, 7)
  /\ snd (Driver.raa_dmpvr2_cfg_write_result 10 cfg w) = Ok (- EIO).
Proof.
  intros cfg w.
  pose (w1 := fst (i2c_smbus_write_word_data w RAA_DMPVR2_DMA_ADDR
                     RAA_DMPVR2_PRGM_STATUS_ADDR)).
  pose (w3 := fst (i2c_smbus_write_word_data (Observe.after_polls 2 w1)
                     RAA_DMPVR2_DMA_ADDR RAA_DMPVR2_BANK0_STATUS_ADDR)).
  pose (w4 := fst (i2c_transfer w3 [I2C_WR [RAA_DMPVR2_DMA_FIX]; I2C_RD 4])).
  pose (w5 := fst (i2c_smbus_write_word_data w4 RAA_DMPVR2_DMA_ADDR
                     RAA_DMPVR2_BANK1_STATUS_ADDR)).
  pose (w6 := fst (i2c_transfer w5 [I2C_WR [RAA_DMPVR2_DMA_FIX]; I2C_RD 4])).
  destruct (slot_verification_decoding Sim.world Sim.sim_platform cfg w w4 w6
              1 10 [0; 0; 0] [0x11; 0x11; 0x11; 0x21]
              [0x11; 0x11; 0x11; 0x11] 2 2) as (Hn & Hbad & _).
  - intros m Hm. assert (m = 0%nat) as -> by lia. vm_compute. reflexivity.
  - intros m Hm. assert (m = 0%nat \/ m = 1%nat) as [-> | ->] by lia;
      vm_compute; reflexivity.
  - vm_compute. reflexivity.
  - vm_compute. reflexivity.
  - vm_compute. reflexivity.
  - reflexivity.
  - reflexivity.
  - repeat constructor; unfold Format.byte_range; lia.
  - repeat constructor; unfold Format.byte_range; lia.
  - cbn. lia.
  - lia.
  - destruct (Hbad 7) as [Hc Hr].
    + cbn. lia.
    + vm_compute. discriminate.
    + intros j Hj.
      assert (j = 0 \/ j = 1 \/ j = 2 \/ j = 3 \/ j = 4 \/ j = 5 \/ j = 6) as C
        by lia.
      destruct C as [->|[->|[->|[->|[->|[->| ->]]]]]]; reflexivity.
    + split; [|split].
      * rewrite (Hn 7) by (cbn; lia). reflexivity.
      * exact Hc.
      * rewrite Hr. reflexivity.
Defined.

(** * Further properties of the driver *)

(** ** What every successful parse guarantees *)

Module ParseInv.

Import Parser.

Lemma store_spec {A : Type} (l : list A) : forall (i : nat) (x : A) (l' : list A),
  store l i x = Ok l' ->
  (i < length l)%nat /\ l' = firstn i l ++ x :: skipn (S i) l.
Proof.
  induction l as [|a l IH]; intros i x l' H.
  - destruct i; discriminate H.
  - destruct i as [|i]; cbn [store] in H.
    + inversion H. split; [simpl; lia | reflexivity].
    + destruct (store l i x) as [t| | |] eqn:E; try discriminate H.
      cbn [bind] in H. inversion H. destruct (IH i x t E) as [Hi Ht].
      split; [simpl; lia|]. rewrite Ht. reflexivity.
Qed.

Lemma store_length {A : Type} (l l' : list A) (i : nat) (x : A) :
  store l i x = Ok l' -> length l' = length l.
Proof.
  intros H. apply store_spec in H. destruct H as [Hi ->].
  rewrite length_app, length_firstn. cbn [length]. rewrite length_skipn. lia.
Qed.

Lemma bind_ok {A B : Type} (r : result A) (k : A -> result B) (b : B) :
  bind r k = Ok b -> exists a, r = Ok a /\ k a = Ok b.
Proof.
  destruct r; cbn [bind]; intros H; try discriminate H. eauto.
Qed.

Lemma hex_digit_range (c v : Z) : Klib.hex_digit c = Some v -> 0 <= v < 16.
Proof.
  unfold Klib.hex_digit.
  destruct ((48 <=? c) && (c <=? 57)) eqn:E.
  - intros H. inversion H. apply andb_true_iff in E. destruct E as [E1 E2].
    apply Z.leb_le in E1. apply Z.leb_le in E2. lia.
  - destruct ((97 <=? Z.lor c 32) && (Z.lor c 32 <=? 102)) eqn:E';
      [|discriminate].
    intros H. inversion H. apply andb_true_iff in E'. destruct E' as [E1 E2].
    apply Z.leb_le in E1. apply Z.leb_le in E2. lia.
Qed.

Lemma parse_integer_nonneg (s : list Z) : forall res rv res' rv' rest,
  Klib._parse_integer s res rv = (res', rv', rest) -> 0 <= res -> 0 <= res'.
Proof.
  induction s as [|c s IH]; intros res rv res' rv' rest H Hres;
    cbn [Klib._parse_integer] in H.
  - inversion H. lia.
  - destruct (Klib.hex_digit c) as [v|] eqn:E.
    + apply hex_digit_range in E. eapply IH; [exact H | lia].
    + inversion H. lia.
Qed.

(** A decoded hex pair is a byte. *)
Lemma hextou8_byte (p : list Z) (v : Z) :
  raa_dmpvr2_hextou8 p = Ok v -> 0 <= v <= 255.
Proof.
  unfold raa_dmpvr2_hextou8. destruct p as [|c0 [|c1 p]]; try discriminate.
  unfold Klib.kstrtou8.
  destruct (Klib._parse_integer _ 0 0) as [[res rv] rest] eqn:E.
  apply parse_integer_nonneg in E; [|lia].
  destruct (Klib.ULLONG_MAX <? res); [discriminate|].
  destruct (Nat.eqb rv 0); [discriminate|].
  match goal with
  | |- match ?x with _ => _ end = _ -> _ => destruct x as [|c ?]
  end; [discriminate|].
  destruct (negb (c =? NUL)); [discriminate|].
  destruct (255 <? res) eqn:E255; [discriminate|].
  intros H. inversion H. subst. apply Z.ltb_ge in E255. lia.
Qed.

Lemma parse_header_bytes_bytes (count : nat) : forall cptr v,
  parse_header_bytes cptr count = Ok v ->
  length v = count /\ Forall Format.byte_range v.
Proof.
  induction count as [|j IH]; intros cptr v H; cbn [parse_header_bytes] in H.
  - inversion H. split; [reflexivity | constructor].
  - apply bind_ok in H. destruct H as (b & Hb & H).
    apply bind_ok in H. destruct H as (lower & Hl & H).
    inversion H. destruct (IH _ _ Hl) as [Hlen Hrange].
    apply hextou8_byte in Hb. split.
    + rewrite length_app, Hlen. simpl. lia.
    + apply Forall_app. split; [exact Hrange|].
      constructor; [unfold Format.byte_range; lia | constructor].
Qed.

Lemma parse_payload_length (line : list Z) (todo : nat) : forall d j d',
  parse_payload line d j todo = Ok d' -> length d' = length d.
Proof.
  induction todo as [|todo IH]; intros d j d' H; cbn [parse_payload] in H.
  - now inversion H.
  - apply bind_ok in H. destruct H as (b & _ & H).
    apply bind_ok in H. destruct H as (d1 & Hs & H).
    apply store_length in Hs. rewrite (IH _ _ _ H). exact Hs.
Qed.

Lemma parse_cmd_inv (line : list Z) (cs cs' : list raa_dmpvr_cfg_cmd) (i : nat) :
  parse_cmd line cs i = Ok cs' ->
  Forall data4 cs ->
  length cs' = length cs /\ Forall data4 cs' /\ (i < length cs)%nat.
Proof.
  unfold parse_cmd. intros H Hcs.
  apply bind_ok in H. destruct H as (b & _ & H).
  apply bind_ok in H. destruct H as (old & Ho & H).
  apply bind_ok in H. destruct H as (c & _ & H).
  apply bind_ok in H. destruct H as (d & Hd & H).
  unfold load in Ho. destruct (nth_error cs i) as [o|] eqn:Eo;
    [|discriminate Ho].
  inversion Ho; subst o.
  assert (Hold : data4 old).
  { rewrite Forall_forall in Hcs. apply Hcs. eapply nth_error_In, Eo. }
  apply parse_payload_length in Hd.
  split; [eapply store_length, H|]. split.
  - eapply ParseProps.store_Forall; [exact H | exact Hcs|].
    unfold data4 in *. cbn [data]. congruence.
  - apply nth_error_Some. congruence.
Qed.

Lemma parse_cmds_inv (fuel : nat) : forall line buf cs i cs' i',
  parse_cmds fuel line buf cs i = Ok (cs', i') ->
  Forall data4 cs -> (i <= length cs)%nat ->
  length cs' = length cs /\ Forall data4 cs' /\ (i' <= length cs)%nat.
Proof.
  induction fuel as [|fuel IH]; intros line buf cs i cs' i' H Hcs Hi;
    cbn [parse_cmds] in H; [discriminate H|].
  destruct line as [l|]; [|inversion H; subst; auto].
  apply bind_ok in H. destruct H as (n & _ & H).
  destruct (n <=? dsta + 2)%nat; [inversion H; subst; auto|].
  apply bind_ok in H. destruct H as (is49 & _ & H).
  apply bind_ok in H. destruct H as ([cs1 i1] & H1 & H).
  apply bind_ok in H. destruct H as (r & _ & H).
  destruct is49.
  - inversion H1; subst. eapply IH; eauto.
  - apply bind_ok in H1. destruct H1 as (cs2 & Hp & H1). inversion H1; subst.
    destruct (parse_cmd_inv _ _ _ _ Hp Hcs) as (Hl & Hd & Hlt).
    destruct (IH _ _ _ _ _ _ H Hd ltac:(lia)) as (Hl' & Hd' & Hi').
    split; [congruence|]. split; [exact Hd'|]. lia.
Qed.

Lemma count_lines_bounds (p : list Z) : forall i n lcnt ccnt l c,
  count_lines p i n lcnt ccnt = Ok (l, c) ->
  lcnt <= l /\ ccnt <= c.
Proof.
  induction p as [|ch p IH]; intros i n lcnt ccnt l c H; cbn [count_lines] in H;
    [discriminate H|].
  destruct (ch =? NUL); [inversion H; lia|].
  destruct ((ch =? NL) && (i <? size_t_sub n 2)).
  - apply bind_ok in H. destruct H as (b & _ & H).
    apply IH in H. destruct b; lia.
  - apply IH in H. lia.
Qed.

Lemma length_fresh_cmds (junk : nat -> Z) (ccnt : Z) :
  length (fresh_cmds junk ccnt) = Z.to_nat ccnt.
Proof. unfold fresh_cmds. now rewrite length_map, length_seq. Qed.

(** What raa_dmpvr2_parse_cfg guarantees of every configuration it returns. *)
Lemma parse_cfg_filled_inv :
  forall (kmalloc : Z -> option (nat -> Z)) (buf : list Z)
         (cfg : raa_dmpvr2_cfg) (filled : nat),
    Parser.parse_cfg_filled kmalloc buf = Ok (cfg, filled) ->
    1 <= slot_cnt cfg <= RAA_DMPVR2_CFG_MAX_SLOT
    /\ 0 <= cmd_cnt cfg
    /\ Z.of_nat (length (cmds cfg)) = cmd_cnt cfg
    /\ Z.of_nat filled <= cmd_cnt cfg
    /\ Forall Parser.data4 (cmds cfg)
    /\ length (dev_id cfg) = 4%nat /\ Forall Format.byte_range (dev_id cfg)
    /\ length (dev_rev cfg) = 4%nat /\ Forall Format.byte_range (dev_rev cfg).
Proof.
  intros kmalloc buf cfg filled H. unfold Parser.parse_cfg_filled in H.
  apply bind_ok in H. destruct H as (n & _ & H).
  apply bind_ok in H. destruct H as ([lcnt ccnt] & Hc & H).
  apply count_lines_bounds in Hc. destruct Hc as [_ Hcc].
  destruct ((_ <? 1) || _) eqn:Eslot; [discriminate H|].
  apply orb_false_iff in Eslot. destruct Eslot as [E1 E2].
  apply Z.ltb_ge in E1. apply Z.ltb_ge in E2.
  destruct (kmalloc _) as [junk|]; [|discriminate H].
  apply bind_ok in H. destruct H as (r1 & _ & H).
  apply bind_ok in H. destruct H as (id & Hid & H).
  apply bind_ok in H. destruct H as (r2 & _ & H).
  apply bind_ok in H. destruct H as (rev & Hrev & H).
  apply bind_ok in H. destruct H as ([cs fl] & Hloop & H).
  inversion H; subst. cbn [slot_cnt cmd_cnt cmds dev_id dev_rev].
  assert (Hh : forall line v, Parser.parse_header_line line = Ok v ->
                 length v = 4%nat /\ Forall Format.byte_range v).
  { intros [l|] v Hv; [|discriminate Hv].
    eapply parse_header_bytes_bytes, Hv. }
  destruct (Hh _ _ Hid) as [Hi1 Hi2]. destruct (Hh _ _ Hrev) as [Hr1 Hr2].
  destruct (parse_cmds_inv _ _ _ _ _ _ _ Hloop
              (ParseMain.fresh_cmds_data4 junk ccnt) ltac:(lia))
    as (Hl & Hd & Hf).
  rewrite length_fresh_cmds in Hl, Hf.
  repeat split; try assumption; try lia.
Qed.

End ParseInv.

(** X1.  Whatever the input, a configuration that raa_dmpvr2_parse_cfg
    returns has a slot count between 1 and 16, a command array of exactly
    [cmd_cnt] entries with four data bytes each, of which the loop filled
    at most [cmd_cnt], and identity and revision fields of four bytes in
    [0, 255]. *)
Theorem parsed_config_invariants :
  forall (kmalloc : Z -> option (nat -> Z)) (buf : list Z)
         (cfg : raa_dmpvr2_cfg) (filled : nat),
    Parser.parse_cfg_filled kmalloc buf = Ok (cfg, filled) ->
    1 <= slot_cnt cfg <= RAA_DMPVR2_CFG_MAX_SLOT
    /\ 0 <= cmd_cnt cfg
    /\ Z.of_nat (length (cmds cfg)) = cmd_cnt cfg
    /\ Z.of_nat filled <= cmd_cnt cfg
    /\ Forall Parser.data4 (cmds cfg)
    /\ length (dev_id cfg) = 4%nat /\ Forall Format.byte_range (dev_id cfg)
    /\ length (dev_rev cfg) = 4%nat /\ Forall Format.byte_range (dev_rev cfg).
Proof.
  intros kmalloc buf cfg filled H.
  apply (ParseInv.parse_cfg_filled_inv kmalloc buf cfg filled H).
Qed.

Lemma parsed_config_invariants_witness :
  exists cfg filled,
    Parser.parse_cfg_filled Sim.plain_kmalloc (Sim.blob Sim.lines_len3)
      = Ok (cfg, filled)
    /\ 1 <= slot_cnt cfg <= 16
    /\ Z.of_nat (length (cmds cfg)) = cmd_cnt cfg.
Proof.
  destruct (Parser.parse_cfg_filled Sim.plain_kmalloc (Sim.blob Sim.lines_len3))
    as [[cfg filled]| | |] eqn:E;
    [|vm_compute in E; discriminate E ..].
  exists cfg, filled. split; [reflexivity|].
  destruct (parsed_config_invariants _ _ _ _ E) as (H1 & _ & H3 & _).
  split; [exact H1 | exact H3].
Defined.

(** ** Input that is too short, or not terminated *)

Module ShortInput.

Import Parser.

Lemma strlen_unterminated (s : list Z) :
  ~ In NUL s -> Klib.strlen s = Undefined.
Proof.
  induction s as [|c s IH]; intros Hs.
  - reflexivity.
  - cbn [Klib.strlen].
    assert (Hc : (c =? NUL) = false) by (apply Z.eqb_neq; intros ->; apply Hs; now left).
    rewrite Hc. rewrite IH by (intros Hin; apply Hs; now right). reflexivity.
Qed.

(** The sizing loop counts at most one line per newline of the string. *)
Lemma count_lines_upper (s rest : list Z) : forall i n lcnt ccnt,
  ~ In NUL s ->
  exists l c,
    count_lines (s ++ NUL :: rest) i n lcnt ccnt = Ok (l, c)
    /\ lcnt <= l <= lcnt + Z.of_nat (count_occ Z.eq_dec s NL).
Proof.
  induction s as [|a s IH]; intros i n lcnt ccnt Hs.
  - exists lcnt, ccnt. cbn [app count_lines count_occ].
    change (NUL =? NUL) with true. cbv iota. split; [reflexivity | lia].
  - assert (Ha : (a =? NUL) = false)
      by (apply Z.eqb_neq; intros ->; apply Hs; now left).
    assert (Hs' : ~ In NUL s) by (intros Hin; apply Hs; now right).
    cbn [app count_lines]. rewrite Ha.
    assert (Hocc : Z.of_nat (count_occ Z.eq_dec s NL)
                   <= Z.of_nat (count_occ Z.eq_dec (a :: s) NL)).
    { cbn [count_occ]. destruct (Z.eq_dec a NL); lia. }
    destruct ((a =? NL) && (i <? size_t_sub n 2)) eqn:E.
    + apply andb_true_iff in E. destruct E as [E _]. apply Z.eqb_eq in E.
      destruct (SizingProps.not_49_terminated s rest) as [b Hb].
      rewrite Hb. cbn [bind].
      destruct (IH (i + 1) n (lcnt + 1) (if b then ccnt + 1 else ccnt) Hs')
        as (l & c & Hc & Hl).
      exists l, c. split; [exact Hc|].
      cbn [count_occ]. destruct (Z.eq_dec a NL); [|contradiction]. lia.
    + destruct (IH (i + 1) n lcnt ccnt Hs') as (l & c & Hc & Hl).
      exists l, c. split; [exact Hc | lia].
Qed.

Lemma few_lines_no_slot (l : Z) :
  1 <= l <= 647 ->
  Z.quot (l - RAA_DMPVR2_CFG_HEAD_LEN) RAA_DMPVR2_CFG_SLOT_LEN = 0.
Proof.
  unfold RAA_DMPVR2_CFG_HEAD_LEN, RAA_DMPVR2_CFG_SLOT_LEN. intros Hl.
  destruct (Z_lt_le_dec (l - 290) 0) as [Hneg|Hpos].
  - replace (l - 290) with (- (290 - l)) by lia.
    rewrite Z.quot_opp_l by lia. rewrite Z.quot_small by lia. reflexivity.
  - apply Z.quot_small. lia.
Qed.

Lemma parse_short (kmalloc : Z -> option (nat -> Z)) (s rest : list Z) :
  ~ In NUL s -> (count_occ Z.eq_dec s NL < 647)%nat ->
  raa_dmpvr2_parse_cfg kmalloc (s ++ NUL :: rest) = Err (- EINVAL).
Proof.
  intros Hs Hfew. unfold raa_dmpvr2_parse_cfg, parse_cfg_filled.
  rewrite SizingProps.strlen_terminated by exact Hs. cbn [bind].
  destruct (count_lines_upper s rest 0 (Z.of_nat (length s)) 1 0 Hs)
    as (l & c & Hc & Hl).
  rewrite Hc. cbn [bind]. rewrite few_lines_no_slot by lia.
  reflexivity.
Qed.

(** A write at offset 0 of bytes in [0, 255] fills the kernel buffer with
    exactly those bytes. *)
Lemma write_buffer_whole (ubuf junk : list Z) :
  Forall Format.byte_range ubuf -> length junk = length ubuf ->
  Klib.simple_write_to_buffer junk (Z.of_nat (length ubuf)) 0 ubuf
    (Z.of_nat (length ubuf))
  = (Z.of_nat (length ubuf), ubuf).
Proof.
  intros Hb Hj. unfold Klib.simple_write_to_buffer.
  change (0 <? 0) with false. cbv iota.
  destruct ubuf as [|u ubuf].
  - destruct junk; [reflexivity | discriminate Hj].
  - set (n := length (u :: ubuf)) in *.
    assert (Hn : (0 < n)%nat) by (subst n; simpl; lia).
    replace (Z.of_nat n <=? 0) with false by (symmetry; apply Z.leb_gt; lia).
    replace (Z.of_nat n =? 0) with false by (symmetry; apply Z.eqb_neq; lia).
    cbn [orb]. cbv zeta.
    replace (Z.of_nat n - 0 <? Z.of_nat n) with false
      by (symmetry; apply Z.ltb_ge; lia).
    rewrite Nat2Z.id. subst n. rewrite firstn_all.
    rewrite VerifyProps.map_mod_bytes by exact Hb.
    change (Z.to_nat 0) with 0%nat. cbn [firstn Nat.add].
    rewrite skipn_all2 by lia. rewrite app_nil_r. reflexivity.
Qed.

End ShortInput.

(** X2.  A NUL-terminated buffer whose string holds fewer than 647 newline
    characters (the empty string included) is refused by
    raa_dmpvr2_parse_cfg with -EINVAL, whatever the lines contain and
    whatever the allocator does. *)
Theorem too_few_lines_rejected :
  forall (kmalloc : Z -> option (nat -> Z)) (s rest : list Z),
    ~ In NUL s ->
    (count_occ Z.eq_dec s NL < 647)%nat ->
    Parser.raa_dmpvr2_parse_cfg kmalloc (s ++ NUL :: rest) = Err (- EINVAL).
Proof.
  intros kmalloc s rest Hs Hfew. apply ShortInput.parse_short; assumption.
Qed.

Lemma too_few_lines_rejected_witness :
  Parser.raa_dmpvr2_parse_cfg Sim.plain_kmalloc
    (bytes_of_string "49070000040302010000" ++ NUL :: []) = Err (- EINVAL).
Proof.
  apply (too_few_lines_rejected Sim.plain_kmalloc
           (bytes_of_string "49070000040302010000") []).
  - vm_compute. intuition discriminate.
  - vm_compute. lia.
Defined.

(** X3.  Writing such a short file to the configuration endpoint at
    offset 0 returns -EINVAL and leaves the world as it was: no bus
    transfer is made. *)
Theorem short_write_leaves_bus_alone :
  forall (W : Type) (P : Platform W) (fuel : nat) (w : W)
         (j0 junk : nat -> Z) (s rest : list Z),
    let ubuf := s ++ NUL :: rest in
    kmalloc w Driver.sizeof_cfg = Some j0 ->
    kmalloc w (Z.of_nat (length ubuf)) = Some junk ->
    Forall Format.byte_range ubuf ->
    ~ In NUL s ->
    (count_occ Z.eq_dec s NL < 647)%nat ->
    Driver.raa_dmpvr2_write_cfg fuel ubuf 0 w = (w, Ok (- EINVAL)).
Proof.
  intros W P fuel w j0 junk s rest ubuf H0 H1 Hb Hs Hfew.
  unfold Driver.raa_dmpvr2_write_cfg. rewrite H0, H1.
  rewrite ShortInput.write_buffer_whole
    by (try exact Hb; rewrite length_map, length_seq; reflexivity).
  subst ubuf. rewrite ShortInput.parse_short by assumption. reflexivity.
Qed.

Lemma short_write_leaves_bus_alone_witness :
  let w := Sim.start [] Sim.failing in
  Driver.raa_dmpvr2_write_cfg 10 (Sim.blob [Sim.hdr_id; Sim.hdr_rev]) 0 w
  = (w, Ok (- EINVAL))
  /\ Sim.log w = [].
Proof.
  intros w. split; [|reflexivity].
  apply (short_write_leaves_bus_alone Sim.world Sim.sim_platform 10 w
           (fun _ => 0) (fun _ => 0)
           (Format.unlines [Sim.hdr_id; Sim.hdr_rev]) []).
  - reflexivity.
  - reflexivity.
  - vm_compute. repeat constructor; discriminate.
  - vm_compute. intuition discriminate.
  - vm_compute. lia.
Defined.

(** X4.  raa_dmpvr2_write_cfg copies the written bytes into a buffer of
    exactly their length and hands it to strlen without adding a
    terminator: when the written bytes hold no NUL, the scan runs past the
    end of the allocation, and nothing is sent to the device. *)
Theorem unterminated_write_overruns :
  forall (W : Type) (P : Platform W) (fuel : nat) (w : W)
         (j0 junk : nat -> Z) (ubuf : list Z),
    kmalloc w Driver.sizeof_cfg = Some j0 ->
    kmalloc w (Z.of_nat (length ubuf)) = Some junk ->
    Forall Format.byte_range ubuf ->
    ~ In NUL ubuf ->
    Driver.raa_dmpvr2_write_cfg fuel ubuf 0 w = (w, Undefined).
Proof.
  intros W P fuel w j0 junk ubuf H0 H1 Hb Hs.
  unfold Driver.raa_dmpvr2_write_cfg. rewrite H0, H1.
  rewrite ShortInput.write_buffer_whole
    by (try exact Hb; rewrite length_map, length_seq; reflexivity).
  unfold Parser.raa_dmpvr2_parse_cfg, Parser.parse_cfg_filled.
  rewrite ShortInput.strlen_unterminated by exact Hs. reflexivity.
Qed.

Lemma unterminated_write_overruns_witness :
  let w := Sim.start [] Sim.failing in
  Driver.raa_dmpvr2_write_cfg 10 (bytes_of_string "4907") 0 w = (w, Undefined).
Proof.
  intros w.
  apply (unterminated_write_overruns Sim.world Sim.sim_platform 10 w
           (fun _ => 0) (fun _ => 0) (bytes_of_string "4907")).
  - reflexivity.
  - reflexivity.
  - vm_compute. repeat constructor; discriminate.
  - vm_compute. intuition discriminate.
Defined.

(** ** The hex-pair decoder on every pair of bytes *)

Module HexProps.

Import Parser Format Decode.

Lemma same_result_eq (r1 r2 : result Z) : same_result r1 r2 = true -> r1 = r2.
Proof.
  destruct r1, r2; cbn [same_result]; intros H; try discriminate H;
    apply Z.eqb_eq in H; now subst.
Qed.

Lemma byte_enum (P : Z -> bool) :
  forallb (fun n => P (Z.of_nat n)) (seq 0 256) = true ->
  forall b, byte_range b -> P b = true.
Proof.
  intros H b Hb. unfold byte_range in Hb. rewrite forallb_forall in H.
  specialize (H (Z.to_nat b)). rewrite Z2Nat.id in H by lia.
  apply H. apply in_seq. lia.
Qed.

Lemma hextou8_decoded (a b : Z) (t : list Z) :
  byte_range a -> byte_range b ->
  raa_dmpvr2_hextou8 (a :: b :: t)
  = if is_hex a && is_hex b then Ok (16 * hex_value a + hex_value b)
    else if is_hex a && ((b =? NL) || (b =? NUL)) then Ok (hex_value a)
    else if (a =? 43) && is_hex b then Ok (hex_value b)
    else Err (- EINVAL).
Proof.
  intros Ha Hb. change (raa_dmpvr2_hextou8 (a :: b :: t))
    with (raa_dmpvr2_hextou8 [a; b]).
  apply same_result_eq.
  revert b Hb. apply byte_enum. revert a Ha.
  apply (byte_enum (fun a => forallb (fun n =>
           let b := Z.of_nat n in
           same_result (raa_dmpvr2_hextou8 [a; b])
             (if is_hex a && is_hex b then Ok (16 * hex_value a + hex_value b)
              else if is_hex a && ((b =? NL) || (b =? NUL)) then Ok (hex_value a)
              else if (a =? 43) && is_hex b then Ok (hex_value b)
              else Err (- EINVAL))) (seq 0 256))).
  vm_compute. reflexivity.
Qed.

Lemma hextou8_fmt (b : Z) (t : list Z) :
  byte_range b -> raa_dmpvr2_hextou8 (Klib.fmt_02X b ++ t) = Ok b.
Proof.
  intros Hb. change (raa_dmpvr2_hextou8 (Klib.fmt_02X b ++ t))
    with (raa_dmpvr2_hextou8 (Klib.fmt_02X b)).
  apply same_result_eq. revert b Hb. apply byte_enum.
  vm_compute. reflexivity.
Qed.

End HexProps.

(** X5.  raa_dmpvr2_hextou8 on any two bytes [a], [b]: two hexadecimal
    digits of either case give the byte [16 * a + b]; one digit followed by
    a newline or by the terminator gives that digit's value; a plus sign
    (character 43) followed by one digit gives that digit's value; every
    other pair is refused with -EINVAL.  What follows the two bytes in the
    buffer has no influence. *)
Theorem hextou8_on_every_pair :
  forall (a b : Z) (t : list Z),
    Format.byte_range a -> Format.byte_range b ->
    Parser.raa_dmpvr2_hextou8 (a :: b :: t)
    = if Format.is_hex a && Format.is_hex b
      then Ok (16 * Format.hex_value a + Format.hex_value b)
      else if Format.is_hex a && ((b =? NL) || (b =? NUL))
      then Ok (Format.hex_value a)
      else if (a =? 43) && Format.is_hex b then Ok (Format.hex_value b)
      else Err (- EINVAL).
Proof.
  intros a b t Ha Hb. apply HexProps.hextou8_decoded; assumption.
Qed.

Lemma hextou8_on_every_pair_witness :
  Parser.raa_dmpvr2_hextou8 (bytes_of_string "+7rest") = Ok 7.
Proof.
  apply (hextou8_on_every_pair 43 55 (bytes_of_string "rest"));
    unfold Format.byte_range; lia.
Defined.

(** X6.  Round trip between the two halves of the driver: the two digits
    that the black-box reader prints for a byte ("%02X") are decoded by
    raa_dmpvr2_hextou8 to that same byte. *)
Theorem printed_byte_decodes_back :
  forall (b : Z) (t : list Z),
    Format.byte_range b ->
    Parser.raa_dmpvr2_hextou8 (Klib.fmt_02X b ++ t) = Ok b.
Proof.
  intros b t Hb. apply HexProps.hextou8_fmt. exact Hb.
Qed.

Lemma printed_byte_decodes_back_witness :
  Parser.raa_dmpvr2_hextou8 (Klib.fmt_02X 171 ++ [NL]) = Ok 171.
Proof.
  apply (printed_byte_decodes_back 171 [NL]). unfold Format.byte_range. lia.
Defined.

(** ** What the engine puts on the bus *)

Module WireProps.

Import Driver.

Lemma lor_shiftl_add (a b n : Z) :
  0 <= n -> 0 <= a < 2 ^ n -> 0 <= b ->
  Z.lor a (Z.shiftl b n) = a + b * 2 ^ n.
Proof.
  intros Hn Ha Hb.
  assert (Hl : Z.land a (Z.shiftl b n) = 0).
  { apply Z.bits_inj'. intros k Hk.
    rewrite Z.land_spec, Z.shiftl_spec, Z.bits_0 by lia.
    destruct (Z.lt_ge_cases k n) as [Hlt|Hge].
    - rewrite (Z.testbit_neg_r b) by lia. apply andb_false_r.
    - rewrite <- (Z.mod_small a (2 ^ n)) by lia.
      rewrite Z.mod_pow2_bits_high by lia. reflexivity. }
  rewrite <- Z.lxor_lor by exact Hl.
  rewrite <- Z.add_nocarry_lxor by exact Hl.
  rewrite Z.shiftl_mul_pow2 by lia. reflexivity.
Qed.

Lemma byte_of_word (v k : Z) :
  0 <= k -> Z.land (Z.shiftr v k) 0xFF = (v / 2 ^ k) mod 256.
Proof.
  intros Hk. rewrite Z.shiftr_div_pow2 by lia.
  change 0xFF with (Z.ones 8). rewrite Z.land_ones by lia. reflexivity.
Qed.

Lemma pack16 (d0 d1 : Z) :
  0 <= d0 < 256 -> 0 <= d1 < 256 ->
  (Z.lor d0 (Z.shiftl d1 8)) mod 2 ^ 16 = d0 + 256 * d1.
Proof.
  intros H0 H1. rewrite lor_shiftl_add by (try lia; change (2 ^ 8) with 256; lia).
  change (2 ^ 8) with 256. change (2 ^ 16) with 65536.
  rewrite Z.mod_small by lia. lia.
Qed.

Lemma pack32 (d0 d1 d2 d3 : Z) :
  0 <= d0 < 256 -> 0 <= d1 < 256 -> 0 <= d2 < 256 -> 0 <= d3 < 256 ->
  (Z.lor (Z.lor (Z.lor d0 (Z.shiftl d1 8)) (Z.shiftl d2 16)) (Z.shiftl d3 24))
    mod 2 ^ 32
  = d0 + 256 * d1 + 65536 * d2 + 16777216 * d3.
Proof.
  intros H0 H1 H2 H3.
  rewrite (lor_shiftl_add d0 d1 8) by (try lia; change (2 ^ 8) with 256; lia).
  change (2 ^ 8) with 256.
  rewrite (lor_shiftl_add _ d2 16) by (try lia; change (2 ^ 16) with 65536; lia).
  change (2 ^ 16) with 65536.
  rewrite (lor_shiftl_add _ d3 24)
    by (try lia; change (2 ^ 24) with 16777216; lia).
  change (2 ^ 24) with 16777216. change (2 ^ 32) with 4294967296.
  rewrite Z.mod_small by lia. lia.
Qed.

Lemma unpack32 (d0 d1 d2 d3 : Z) :
  0 <= d0 < 256 -> 0 <= d1 < 256 -> 0 <= d2 < 256 -> 0 <= d3 < 256 ->
  let v := d0 + 256 * d1 + 65536 * d2 + 16777216 * d3 in
  Z.land v 0xFF = d0 /\ Z.land (Z.shiftr v 8) 0xFF = d1
  /\ Z.land (Z.shiftr v 16) 0xFF = d2 /\ Z.land (Z.shiftr v 24) 0xFF = d3.
Proof.
  intros H0 H1 H2 H3 v.
  rewrite <- (Z.shiftr_0_r v) at 1.
  rewrite !byte_of_word by lia.
  change (2 ^ 0) with 1. change (2 ^ 8) with 256. change (2 ^ 16) with 65536.
  change (2 ^ 24) with 16777216. subst v.
  split; [|split; [|split]].
  - rewrite Z.div_1_r.
    replace (d0 + 256 * d1 + 65536 * d2 + 16777216 * d3)
      with (d0 + (d1 + 256 * d2 + 65536 * d3) * 256) by lia.
    rewrite Z.mod_add by lia. apply Z.mod_small. lia.
  - replace (d0 + 256 * d1 + 65536 * d2 + 16777216 * d3)
      with (d0 + (d1 + 256 * d2 + 65536 * d3) * 256) by lia.
    rewrite Z.div_add by lia. rewrite (Z.div_small d0) by lia.
    replace (0 + (d1 + 256 * d2 + 65536 * d3))
      with (d1 + (d2 + 256 * d3) * 256) by lia.
    rewrite Z.mod_add by lia. apply Z.mod_small. lia.
  - replace (d0 + 256 * d1 + 65536 * d2 + 16777216 * d3)
      with (d0 + 256 * d1 + (d2 + 256 * d3) * 65536) by lia.
    rewrite Z.div_add by lia. rewrite (Z.div_small (d0 + 256 * d1)) by lia.
    replace (0 + (d2 + 256 * d3)) with (d2 + d3 * 256) by lia.
    rewrite Z.mod_add by lia. apply Z.mod_small. lia.
  - replace (d0 + 256 * d1 + 65536 * d2 + 16777216 * d3)
      with (d0 + 256 * d1 + 65536 * d2 + d3 * 16777216) by lia.
    rewrite Z.div_add by lia.
    rewrite (Z.div_small (d0 + 256 * d1 + 65536 * d2)) by lia.
    apply Z.mod_small. lia.
Qed.

Section WithPlatform.

Context {W : Type} {P : Platform W}.

Lemma send_one_word (c : raa_dmpvr_cfg_cmd) (w : W) (d0 d1 d2 d3 : Z) :
  data c = [d0; d1; d2; d3] ->
  0 <= d0 < 256 -> 0 <= d1 < 256 ->
  len c = 2 ->
  send_one c w
  = (fst (i2c_smbus_write_word_data w (cmd c) (d0 + 256 * d1)),
     Ok (let status := snd (i2c_smbus_write_word_data w (cmd c) (d0 + 256 * d1))
         in if status <? 0 then Some status else None)).
Proof.
  intros Hd H0 H1 Hl. unfold send_one. rewrite Hl, Hd.
  change (2 =? 2) with true. cbv iota.
  unfold io_bind, io_lift, smbus_write_word. cbn [load nth_error of_option].
  rewrite pack16 by assumption.
  destruct (i2c_smbus_write_word_data w (cmd c) (d0 + 256 * d1)) as [w' st].
  reflexivity.
Qed.

Lemma send_one_block (c : raa_dmpvr_cfg_cmd) (w : W) (d0 d1 d2 d3 : Z) :
  data c = [d0; d1; d2; d3] ->
  0 <= d0 < 256 -> 0 <= d1 < 256 -> 0 <= d2 < 256 -> 0 <= d3 < 256 ->
  len c = 4 ->
  send_one c w
  = (fst (i2c_transfer w [I2C_WR [cmd c; d0; d1; d2; d3]]),
     Ok (let status := fst (snd (i2c_transfer w [I2C_WR [cmd c; d0; d1; d2; d3]]))
         in if status <? 0 then Some status else None)).
Proof.
  intros Hd H0 H1 H2 H3 Hl. unfold send_one. rewrite Hl, Hd.
  change (4 =? 2) with false. change (4 =? 4) with true. cbv iota.
  unfold io_bind, io_lift, raa_dmpvr2_smbus_write32.
  cbn [load nth_error of_option].
  rewrite pack32 by assumption.
  pose proof (unpack32 d0 d1 d2 d3 H0 H1 H2 H3) as Hu. cbv zeta in Hu.
  destruct Hu as (E0 & E1 & E2 & E3). rewrite E0, E1, E2, E3.
  destruct (i2c_transfer w [I2C_WR [cmd c; d0; d1; d2; d3]]) as [w' [st rx]].
  cbn [fst snd]. unfold io_ret.
  destruct (st =? 1) eqn:Est; cbn [negb].
  - apply Z.eqb_eq in Est. subst st. reflexivity.
  - reflexivity.
Qed.

End WithPlatform.

Import Traffic.

Lemma sendable_spec (c : raa_dmpvr_cfg_cmd) :
  sendable c = true ->
  exists d0 d1 d2 d3,
    data c = [d0; d1; d2; d3]
    /\ 0 <= d0 < 256 /\ 0 <= d1 < 256 /\ 0 <= d2 < 256 /\ 0 <= d3 < 256
    /\ (len c = 2 \/ len c = 4).
Proof.
  unfold sendable. intros H.
  apply andb_true_iff in H. destruct H as [H Hb].
  apply andb_true_iff in H. destruct H as [Hl Hn].
  apply Nat.eqb_eq in Hn.
  destruct (data c) as [|d0 [|d1 [|d2 [|d3 [|? ?]]]]]; try discriminate Hn.
  cbn [forallb] in Hb.
  repeat match goal with
         | H : _ && _ = true |- _ => apply andb_true_iff in H; destruct H
         | H : (_ <=? _) = true |- _ => apply Z.leb_le in H
         | H : (_ <? _) = true |- _ => apply Z.ltb_lt in H
         end.
  exists d0, d1, d2, d3. split; [reflexivity|].
  apply orb_true_iff in Hl.
  repeat split; lia.
Qed.

(** One command on a healthy simulated bus: it is logged and the loop goes
    on. *)
Lemma send_one_sim (c : raa_dmpvr_cfg_cmd) (w : Sim.world) :
  sendable c = true -> healthy w = true ->
  exists w',
    send_one c w = (w', Ok None)
    /\ healthy w' = true
    /\ Sim.log w' = Sim.log w ++ [wire_event c].
Proof.
  intros Hc Hw. destruct (sendable_spec c Hc)
    as (d0 & d1 & d2 & d3 & Hd & H0 & H1 & H2 & H3 & Hl).
  unfold healthy in Hw.
  apply andb_true_iff in Hw. destruct Hw as [Hw Hf].
  apply andb_true_iff in Hw. destruct Hw as [Hws Hsc].
  destruct Hl as [Hl|Hl].
  - rewrite (send_one_word c w d0 d1 d2 d3) by assumption.
    cbn [i2c_smbus_write_word_data Sim.sim_platform Sim.sim_write_word fst snd].
    replace (Sim.word_status w <? 0) with false
      by (symmetry; apply Z.ltb_ge; apply Z.leb_le in Hws; exact Hws).
    eexists. split; [reflexivity|]. split.
    + unfold healthy. cbn [Sim.word_status Sim.script Sim.fallback].
      rewrite Hws, Hsc, Hf. reflexivity.
    + cbn [Sim.log]. unfold wire_event. rewrite Hl, Hd.
      change (2 =? 2) with true. reflexivity.
  - rewrite (send_one_block c w d0 d1 d2 d3) by assumption.
    cbn [i2c_transfer Sim.sim_platform Sim.sim_transfer fst snd].
    assert (Hans : (fst match Sim.script w with
                        | [] => Sim.fallback w
                        | a :: _ => a
                        end <? 0) = false).
    { apply Z.ltb_ge. destruct (Sim.script w) as [|a sc].
      - apply Z.leb_le in Hf. exact Hf.
      - cbn [forallb] in Hsc. apply andb_true_iff in Hsc.
        destruct Hsc as [Ha _]. apply Z.leb_le in Ha. exact Ha. }
    rewrite Hans.
    eexists. split; [reflexivity|]. split.
    + unfold healthy. cbn [Sim.word_status Sim.script Sim.fallback].
      rewrite Hws, Hf. destruct (Sim.script w) as [|a sc]; [reflexivity|].
      cbn [forallb tl] in *. apply andb_true_iff in Hsc.
      destruct Hsc as [_ ->]. reflexivity.
    + cbn [Sim.log]. unfold wire_event. rewrite Hl, Hd.
      change (4 =? 2) with false. reflexivity.
Qed.

Lemma send_loop_sim (cs : list raa_dmpvr_cfg_cmd) (todo : nat) :
  forall (i : nat) (w : Sim.world),
    (i + todo <= length cs)%nat ->
    forallb sendable cs = true -> healthy w = true ->
    exists w',
      send_loop cs i todo w = (w', Ok 0)
      /\ healthy w' = true
      /\ Sim.log w' = Sim.log w ++ map wire_event (firstn todo (skipn i cs)).
Proof.
  induction todo as [|todo IH]; intros i w Hi Hcs Hw.
  - exists w. cbn [send_loop firstn map]. rewrite app_nil_r. auto.
  - cbn [send_loop]. unfold io_bind at 1, io_lift, load.
    destruct (nth_error cs i) as [c|] eqn:Ec;
      [|apply nth_error_None in Ec; lia].
    cbn [of_option]. unfold io_bind at 1.
    assert (Hc : sendable c = true).
    { rewrite forallb_forall in Hcs. apply Hcs. eapply nth_error_In, Ec. }
    destruct (send_one_sim c w Hc Hw) as (w1 & Hs & Hw1 & Hlog1).
    rewrite Hs.
    destruct (IH (S i) w1 ltac:(lia) Hcs Hw1) as (w' & Hl & Hw' & Hlog).
    exists w'. split; [exact Hl|]. split; [exact Hw'|].
    rewrite Hlog, Hlog1, <- app_assoc. f_equal.
    assert (Hsk : skipn i cs = c :: skipn (S i) cs).
    { clear - Ec. revert i Ec. induction cs as [|a cs IHc]; intros i Ec.
      - destruct i; discriminate Ec.
      - destruct i as [|i]; cbn in Ec |- *.
        + now inversion Ec.
        + apply IHc. exact Ec. }
    rewrite Hsk. reflexivity.
Qed.

End WireProps.

(** X7.  How one command goes on the wire.  A command of length 2 is sent
    as an SMBus write-word to its command code with the value
    [d0 + 256 * d1]; a command of length 4 is sent as one I2C write of the
    five bytes command code, d0, d1, d2, d3: packing the data into a word
    and unpacking it again leaves the bytes in file order.  The loop goes on
    unless the bus reports a negative status, which it then returns. *)
Theorem command_wire_format :
  forall (W : Type) (P : Platform W) (c : raa_dmpvr_cfg_cmd) (w : W)
         (d0 d1 d2 d3 : Z),
    data c = [d0; d1; d2; d3] ->
    0 <= d0 < 256 -> 0 <= d1 < 256 -> 0 <= d2 < 256 -> 0 <= d3 < 256 ->
    (len c = 2 ->
     Driver.send_one c w
     = (fst (i2c_smbus_write_word_data w (cmd c) (d0 + 256 * d1)),
        Ok (let status :=
              snd (i2c_smbus_write_word_data w (cmd c) (d0 + 256 * d1)) in
            if status <? 0 then Some status else None)))
    /\ (len c = 4 ->
        Driver.send_one c w
        = (fst (i2c_transfer w [I2C_WR [cmd c; d0; d1; d2; d3]]),
           Ok (let status :=
                 fst (snd (i2c_transfer w [I2C_WR [cmd c; d0; d1; d2; d3]])) in
               if status <? 0 then Some status else None))).
Proof.
  intros W P c w d0 d1 d2 d3 Hd H0 H1 H2 H3. split; intros Hl.
  - apply (WireProps.send_one_word c w d0 d1 d2 d3); assumption.
  - apply (WireProps.send_one_block c w d0 d1 d2 d3); assumption.
Qed.

Lemma command_wire_format_witness :
  let w := Sim.start [Sim.written] Sim.failing in
  Sim.log (fst (Driver.send_one (mk_cmd 16 4 [170; 187; 204; 221]) w))
  = [Sim.Transfer [I2C_WR [16; 170; 187; 204; 221]]]
  /\ snd (Driver.send_one (mk_cmd 16 4 [170; 187; 204; 221]) w) = Ok None.
Proof.
  intros w.
  destruct (command_wire_format Sim.world Sim.sim_platform
              (mk_cmd 16 4 [170; 187; 204; 221]) w 170 187 204 221
              eq_refl ltac:(lia) ltac:(lia) ltac:(lia) ltac:(lia)) as [_ H].
  rewrite (H eq_refl). split; reflexivity.
Defined.

(** X8.  On a simulated bus whose transactions all succeed,
    raa_dmpvr2_send_cfg returns 0 and has put exactly one transaction per
    command on the bus, in the order of the command array: the traffic log
    grows by the wire form of [cmds[0]], [cmds[1]], ... and nothing else. *)
Theorem commands_sent_in_order :
  forall (cfg : raa_dmpvr2_cfg) (w : Sim.world),
    forallb Traffic.sendable (cmds cfg) = true ->
    cmd_cnt cfg = Z.of_nat (length (cmds cfg)) ->
    Traffic.healthy w = true ->
    exists w',
      Driver.raa_dmpvr2_send_cfg cfg w = (w', Ok 0)
      /\ Sim.log w' = Sim.log w ++ map Traffic.wire_event (cmds cfg).
Proof.
  intros cfg w Hcs Hcnt Hw. unfold Driver.raa_dmpvr2_send_cfg.
  rewrite Hcnt, Nat2Z.id.
  destruct (WireProps.send_loop_sim (cmds cfg) (length (cmds cfg)) 0 w
              ltac:(lia) Hcs Hw) as (w' & Hl & _ & Hlog).
  exists w'. split; [exact Hl|].
  rewrite Hlog. cbn [skipn]. rewrite firstn_all. reflexivity.
Qed.

Lemma commands_sent_in_order_witness :
  let cfg := mk_cfg [1; 2; 3; 4] [0; 0; 0; 5] 1 2
               [mk_cmd 16 4 [170; 187; 204; 221]; mk_cmd 32 2 [17; 34; 0; 0]] in
  let w := Sim.start [] Sim.written in
  exists w',
    Driver.raa_dmpvr2_send_cfg cfg w = (w', Ok 0)
    /\ Sim.log w' = [Sim.Transfer [I2C_WR [16; 170; 187; 204; 221]];
                     Sim.WriteWord 32 8721].
Proof.
  intros cfg w.
  destruct (commands_sent_in_order cfg w) as (w' & Hs & Hlog).
  - vm_compute. reflexivity.
  - reflexivity.
  - vm_compute. reflexivity.
  - exists w'. split; [exact Hs|]. rewrite Hlog. reflexivity.
Defined.

(** ** Capacity check and programming result *)

(** X9.  Capacity gating.  raa_dmpvr2_check_cfg selects the NVM counter
    and reads one word; when the device answers with the first byte [b],
    the check returns -EINVAL exactly when [b] is below the slot count of
    the configuration, and 0 otherwise.  In a programming run whose
    identity check passed, a device with too few slots left ends the run
    with -EINVAL right after that read: no command is sent. *)
Theorem capacity_gating :
  forall (W : Type) (P : Platform W) (fuel : nat) (cfg : raa_dmpvr2_cfg)
         (ret : Z) (w0 w w2 : W) (st b : Z) (rest : list Z),
    i2c_transfer (fst (i2c_smbus_write_word_data w RAA_DMPVR2_DMA_ADDR
                         RAA_DMPVR2_NVM_CNT_ADDR))
      [I2C_WR [RAA_DMPVR2_DMA_SEQ]; I2C_RD 4] = (w2, (st, Some (b :: rest))) ->
    Format.byte_range b ->
    Driver.raa_dmpvr2_check_cfg cfg w
    = (w2, Ok (if b <? slot_cnt cfg then - EINVAL else 0))
    /\ (Driver.raa_dmpvr2_verify_device cfg w0 = (w, Ok 0) ->
        b < slot_cnt cfg ->
        Driver.program_device fuel cfg ret w0 = (w2, Ok (- EINVAL))).
Proof.
  intros W P fuel cfg ret w0 w w2 st b rest Ht Hb.
  pose proof (EngineProps.check_cfg_on_read cfg w w2 st b rest Ht Hb) as Hc.
  split; [exact Hc|].
  intros Hv Hlt. unfold Driver.program_device.
  unfold io_bind at 1. rewrite Hv. change (negb (0 =? 0)) with false. cbv iota.
  unfold io_bind at 1. rewrite Hc.
  apply Z.ltb_lt in Hlt. rewrite Hlt. reflexivity.
Qed.

Lemma capacity_gating_witness :
  let cfg := mk_cfg [1; 2; 3; 4] [0; 0; 0; 5] 3 0 [] in
  let w0 := Sim.start [Sim.reads [4; 1; 2; 3; 4]; Sim.reads [4; 0; 0; 0; 5];
                       Sim.reads [2; 0; 0; 0]] Sim.failing in
  exists w2,
    Driver.program_device 10 cfg 0 w0 = (w2, Ok (- EINVAL))
    /\ Sim.log w2
       = [Sim.Transfer [I2C_WR [PMBUS_IC_DEVICE_ID]; I2C_RD 5];
          Sim.Transfer [I2C_WR [PMBUS_IC_DEVICE_REV]; I2C_RD 5];
          Sim.WriteWord RAA_DMPVR2_DMA_ADDR RAA_DMPVR2_NVM_CNT_ADDR;
          Sim.Transfer [I2C_WR [RAA_DMPVR2_DMA_SEQ]; I2C_RD 4]].
Proof.
  intros cfg w0.
  pose (w := fst (Driver.raa_dmpvr2_verify_device cfg w0)).
  pose (w2 := fst (Driver.raa_dmpvr2_check_cfg cfg w)).
  exists w2.
  destruct (capacity_gating Sim.world Sim.sim_platform 10 cfg 0 w0 w w2 2 2
              [0; 0; 0]) as [_ H].
  - vm_compute. reflexivity.
  - unfold Format.byte_range. lia.
  - split; [|vm_compute; reflexivity].
    apply H; [vm_compute; reflexivity | vm_compute; reflexivity].
Defined.

(** X10.  The result of a programming run.  After the device has answered
    [n] status polls with "busy" and the next one with the status byte 1,
    all before the deadline, raa_dmpvr2_cfg_write_result reads the two bank
    words and returns 0 when the status nibble of every slot below the slot
    count is 1, and -EIO otherwise. *)
Theorem write_result_after_ready :
  forall (W : Type) (P : Platform W) (cfg : raa_dmpvr2_cfg) (w w4 w6 : W)
         (n fuel : nat) (st b0 b1 : list Z) (s0 s1 : Z),
    let start := jiffies w in
    let w1 := fst (i2c_smbus_write_word_data w RAA_DMPVR2_DMA_ADDR
                     RAA_DMPVR2_PRGM_STATUS_ADDR) in
    let w2 := Observe.after_polls (S n) w1 in
    let w3 := fst (i2c_smbus_write_word_data w2 RAA_DMPVR2_DMA_ADDR
                     RAA_DMPVR2_BANK0_STATUS_ADDR) in
    let w5 := fst (i2c_smbus_write_word_data w4 RAA_DMPVR2_DMA_ADDR
                     RAA_DMPVR2_BANK1_STATUS_ADDR) in
    (forall m, (m < n)%nat ->
       Observe.busy_at (Observe.after_polls m w1) = true) ->
    (forall m, (m <= n)%nat ->
       Observe.expired start (Observe.after_polls m w1) = false) ->
    snd (snd (Observe.poll_read (Observe.after_polls n w1))) = Some (1 :: st) ->
    i2c_transfer w3 [I2C_WR [RAA_DMPVR2_DMA_FIX]; I2C_RD 4]
      = (w4, (s0, Some b0)) ->
    i2c_transfer w5 [I2C_WR [RAA_DMPVR2_DMA_FIX]; I2C_RD 4]
      = (w6, (s1, Some b1)) ->
    length b0 = 4%nat -> length b1 = 4%nat ->
    Forall Format.byte_range b0 -> Forall Format.byte_range b1 ->
    0 <= slot_cnt cfg <= 16 ->
    (S n < fuel)%nat ->
    Driver.raa_dmpvr2_cfg_write_result fuel cfg w
    = (w6, Ok (if forallb (fun k => Format.spec_nibble b0 b1 (Z.of_nat k) =? 1)
                          (seq 0 (Z.to_nat (slot_cnt cfg)))
               then 0 else - EIO)).
Proof.
  intros W P cfg w w4 w6 n fuel st b0 b1 s0 s1 start w1 w2 w3 w5.
  apply ResultProps.write_result_ready.
Qed.

Lemma write_result_after_ready_witness :
  let cfg := mk_cfg [1; 2; 3; 4] [0; 0; 0; 5] 3 0 [] in
  let w := Sim.start [Sim.reads [0; 0; 0; 0]; Sim.reads [1; 0; 0; 0];
                      Sim.reads [17; 2; 0; 0]; Sim.reads [0; 0; 0; 0]]
             Sim.failing in
  snd (Driver.raa_dmpvr2_cfg_write_result 10 cfg w) = Ok (- EIO).
Proof.
  intros cfg w.
  pose (w1 := fst (i2c_smbus_write_word_data w RAA_DMPVR2_DMA_ADDR
                     RAA_DMPVR2_PRGM_STATUS_ADDR)).
  pose (w3 := fst (i2c_smbus_write_word_data (Observe.after_polls 2 w1)
                     RAA_DMPVR2_DMA_ADDR RAA_DMPVR2_BANK0_STATUS_ADDR)).
  pose (w4 := fst (i2c_transfer w3 [I2C_WR [RAA_DMPVR2_DMA_FIX]; I2C_RD 4])).
  pose (w5 := fst (i2c_smbus_write_word_data w4 RAA_DMPVR2_DMA_ADDR
                     RAA_DMPVR2_BANK1_STATUS_ADDR)).
  pose (w6 := fst (i2c_transfer w5 [I2C_WR [RAA_DMPVR2_DMA_FIX]; I2C_RD 4])).
  rewrite (write_result_after_ready Sim.world Sim.sim_platform cfg w w4 w6
             1 10 [0; 0; 0] [17; 2; 0; 0] [0; 0; 0; 0] 2 2).
  - vm_compute. reflexivity.
  - intros m Hm. assert (m = 0%nat) as -> by lia. vm_compute. reflexivity.
  - intros m Hm. assert (m = 0%nat \/ m = 1%nat) as [-> | ->] by lia;
      vm_compute; reflexivity.
  - vm_compute. reflexivity.
  - vm_compute. reflexivity.
  - vm_compute. reflexivity.
  - reflexivity.
  - reflexivity.
  - repeat constructor; unfold Format.byte_range; lia.
  - repeat constructor; unfold Format.byte_range; lia.
  - cbn. lia.
  - lia.
Defined.

(** ** Bus traffic of the black-box reader *)

Module DumpTraffic.

Import Driver Observe.

Lemma bb_words_log (todo : nat) : forall (data : list Z) (w : Sim.world),
  Sim.log (snd (bb_words todo data w))
  = Sim.log w
    ++ repeat (Sim.Transfer [I2C_WR [RAA_DMPVR2_DMA_SEQ]; I2C_RD 4]) todo.
Proof.
  induction todo as [|n IH]; intros data w.
  - cbn [bb_words snd repeat]. now rewrite app_nil_r.
  - cbn [bb_words].
    destruct (i2c_transfer w [I2C_WR [RAA_DMPVR2_DMA_SEQ]; I2C_RD 4])
      as [w1 [st rx]] eqn:Et.
    assert (Hlog : Sim.log w1
                   = Sim.log w
                     ++ [Sim.Transfer [I2C_WR [RAA_DMPVR2_DMA_SEQ]; I2C_RD 4]]).
    { cbn [i2c_transfer Sim.sim_platform] in Et. unfold Sim.sim_transfer in Et.
      inversion Et. reflexivity. }
    specialize (IH (rx_into data 4 rx) w1).
    destruct (bb_words n (rx_into data 4 rx) w1) as [ws w'].
    cbn [snd] in *. rewrite IH, Hlog, <- app_assoc. reflexivity.
Qed.

End DumpTraffic.

(** X11.  Every call of raa_dmpvr2_read_black_box, whatever length and
    file position it is given and whatever the device answers, completes
    without leaving its 288-byte buffer and puts the same 33 transactions
    on the bus: the selection of the black-box base address, then 32 reads
    of the sequential window.  A read at or past the end of the dump
    returns no byte and still re-reads the whole black box. *)
Theorem black_box_bus_traffic :
  forall (w : Sim.world) (len ppos : Z),
    let r := Driver.raa_dmpvr2_read_black_box len ppos w in
    (exists out, snd r = Ok out)
    /\ Sim.log (fst r)
       = Sim.log w
         ++ Sim.WriteWord RAA_DMPVR2_DMA_ADDR RAA_DMPVR2_BB_BASE_ADDR
            :: repeat (Sim.Transfer [I2C_WR [RAA_DMPVR2_DMA_SEQ]; I2C_RD 4]) 32.
Proof.
  intros w len ppos r. subst r. unfold Driver.raa_dmpvr2_read_black_box.
  destruct (BlackBoxProps.black_box_text_spec w) as [Ht _].
  unfold io_bind. rewrite Ht. unfold io_ret. cbn [fst snd]. split; [eauto|].
  rewrite DumpTraffic.bb_words_log.
  cbn [i2c_smbus_write_word_data Sim.sim_platform Sim.sim_write_word fst
       Sim.log].
  rewrite <- app_assoc. reflexivity.
Qed.

(** ** The commands a well-formed file yields *)

Module ContentProps.

Import Parser Format Decode.

Lemma store_nth {A : Type} (l : list A) : forall (i : nat) (x : A) (l' : list A),
  store l i x = Ok l' ->
  forall (k : nat) (d : A), nth k l' d = if Nat.eqb k i then x else nth k l d.
Proof.
  induction l as [|a l IH]; intros i x l' H k d.
  - destruct i; discriminate H.
  - destruct i as [|i]; cbn [store] in H.
    + inversion H. destruct k; reflexivity.
    + destruct (store l i x) as [t| | |] eqn:E; try discriminate H.
      cbn [bind] in H. inversion H. destruct k as [|k]; [reflexivity|].
      cbn [nth Nat.eqb]. apply (IH i x t E).
Qed.

Lemma parse_payload_nth (l rest : list Z) (todo : nat) :
  forall (j : nat) (d : list Z),
    length d = 4%nat ->
    (j + todo <= 4)%nat ->
    (forall k, (j <= k < j + todo)%nat ->
               hex_pairs_at (dsta + 2 * k) 1 l = true) ->
    exists d',
      parse_payload (l ++ rest) d j todo = Ok d'
      /\ length d' = 4%nat
      /\ forall k, nth k d' 0
                   = if ((j <=? k) && (k <? j + todo))%nat
                     then pair_value (dsta + 2 * k) l else nth k d 0.
Proof.
  induction todo as [|todo IH]; intros j d Hd Hj Hp.
  - exists d. split; [reflexivity|]. split; [exact Hd|].
    intros k. rewrite Nat.add_0_r.
    destruct (Nat.leb_spec j k), (Nat.ltb_spec k j); cbn [andb];
      try reflexivity; lia.
  - cbn [parse_payload].
    rewrite ParseProps.hextou8_pair by (apply Hp; lia). cbn [bind].
    destruct (ParseProps.store_ok d j (pair_value (dsta + 2 * j) l) ltac:(lia))
      as (d1 & Hs & Hl1).
    rewrite Hs. cbn [bind].
    destruct (IH (S j) d1 ltac:(lia) ltac:(lia)) as (d' & Hr & Hl' & Hn).
    { intros k Hk. apply Hp. lia. }
    exists d'. split; [exact Hr|]. split; [exact Hl'|].
    intros k. rewrite Hn. rewrite (store_nth d j _ d1 Hs).
    destruct (Nat.eqb_spec k j) as [Heq|Hne];
      destruct (Nat.leb_spec (S j) k), (Nat.ltb_spec k (S j + todo)),
               (Nat.leb_spec j k), (Nat.ltb_spec k (j + S todo));
      cbn [andb]; try reflexivity; try lia; subst k; reflexivity.
Qed.

Lemma firstn_nth_map (d : list Z) (n : nat) :
  length d = 4%nat -> (n <= 4)%nat ->
  firstn n d = map (fun k => nth k d 0) (seq 0 n).
Proof.
  intros Hd Hn. destruct d as [|a [|b [|c [|e [|? ?]]]]]; try discriminate Hd.
  destruct n as [|[|[|[|[|n]]]]]; try reflexivity. lia.
Qed.

(** A command line fills entry [i] with what the line says. *)
Lemma parse_cmd_content (l rest : list Z) (cs : list raa_dmpvr_cfg_cmd)
    (i : nat) :
  command_line l = true ->
  (i < length cs)%nat ->
  Forall data4 cs ->
  exists c,
    parse_cmd (l ++ rest) cs i = Ok (firstn i cs ++ c :: skipn (S i) cs)
    /\ command_view c = decode_command l.
Proof.
  unfold command_line. intros H Hi Hcs.
  apply andb_true_iff in H. destruct H as [H Hlen].
  apply andb_true_iff in H. destruct H as [H Hc].
  apply andb_true_iff in H. destruct H as [H Hl].
  unfold parse_cmd, lsta, csta.
  rewrite ParseProps.hextou8_pair by exact Hl. cbn [bind].
  destruct (nth_error cs i) as [old|] eqn:Eo;
    [|apply nth_error_None in Eo; lia].
  unfold load. rewrite Eo. cbn [of_option bind].
  rewrite ParseProps.hextou8_pair by exact Hc. cbn [bind].
  assert (Hold : length (data old) = 4%nat).
  { rewrite Forall_forall in Hcs. apply Hcs. eapply nth_error_In, Eo. }
  assert (Hpay : exists n,
             (pair_value 2 l - 3) mod 256 = Z.of_nat n
             /\ pair_value 2 l - 3 = Z.of_nat n
             /\ (n <= 4)%nat
             /\ forall k, (k < n)%nat -> hex_pairs_at (dsta + 2 * k) 1 l = true).
  { apply orb_true_iff in Hlen. destruct Hlen as [H2|H4].
    - apply andb_true_iff in H2. destruct H2 as [Hv Hp].
      apply Z.eqb_eq in Hv. rewrite Hv. exists 2%nat.
      split; [reflexivity|]. split; [reflexivity|]. split; [lia|].
      intros k Hk. apply (ParseProps.hex_pairs_sub 8 2 k l Hp). lia.
    - apply andb_true_iff in H4. destruct H4 as [Hv Hp].
      apply Z.eqb_eq in Hv. rewrite Hv. exists 4%nat.
      split; [reflexivity|]. split; [reflexivity|]. split; [lia|].
      intros k Hk. apply (ParseProps.hex_pairs_sub 8 4 k l Hp). lia. }
  destruct Hpay as (n & Hmod & Hn & Hn4 & Hhex). rewrite Hmod, Nat2Z.id.
  destruct (parse_payload_nth l rest n 0 (data old) Hold ltac:(lia))
    as (d' & Hd' & Hl4 & Hnth).
  { intros k Hk. apply Hhex. lia. }
  rewrite Hd'. cbn [bind].
  destruct (store (A := raa_dmpvr_cfg_cmd) cs i
              (mk_cmd (pair_value 6 l) (Z.of_nat n) d')) as [cs'| | |] eqn:Es.
  2-4: destruct (ParseProps.store_ok cs i
                   (mk_cmd (pair_value 6 l) (Z.of_nat n) d') Hi)
         as (x & Hx & _); rewrite Hx in Es; discriminate Es.
  apply ParseInv.store_spec in Es. destruct Es as [_ ->].
  eexists. split; [reflexivity|].
  unfold command_view, decode_command. cbn [cmd len data].
  rewrite Hn, Nat2Z.id. do 2 f_equal.
  rewrite (firstn_nth_map d' n Hl4 Hn4).
  apply map_ext_in. intros k Hk. apply in_seq in Hk.
  rewrite Hnth. unfold dsta.
  destruct (Nat.leb_spec 0 k), (Nat.ltb_spec k (0 + n)); cbn [andb];
    try reflexivity; lia.
Qed.

Lemma firstn_succ_mid {A : Type} (cs t : list A) (i : nat) (c : A) :
  (i < length cs)%nat ->
  firstn (S i) (firstn i cs ++ c :: t) = firstn i cs ++ [c].
Proof.
  intros Hi. rewrite firstn_app, length_firstn, Nat.min_l by lia.
  rewrite firstn_firstn, Nat.min_r by lia.
  replace (S i - i)%nat with 1%nat by lia. reflexivity.
Qed.

Lemma length_mid {A : Type} (cs : list A) (i : nat) (c : A) :
  (i < length cs)%nat ->
  length (firstn i cs ++ c :: skipn (S i) cs) = length cs.
Proof.
  intros Hi. rewrite length_app, length_firstn. cbn [length].
  rewrite length_skipn. lia.
Qed.

(** The command loop over lines none of which is short: the entries it has
    filled are, in order, what the command lines say. *)
Lemma parse_cmds_content (body : list (list Z)) (tl : list Z) :
  forall (l : list Z) (cs : list raa_dmpvr_cfg_cmd) (i fuel : nat),
    data_line l = true ->
    forallb data_line body = true ->
    forallb long_line (l :: body) = true ->
    (length body + 2 <= fuel)%nat ->
    (i + length (command_lines (l :: body)) <= length cs)%nat ->
    Forall data4 cs ->
    exists cs' i',
      parse_cmds fuel (Some (l ++ NUL :: unlines body ++ NUL :: tl))
        (Some (unlines body ++ NUL :: tl)) cs i = Ok (cs', i')
      /\ length cs' = length cs
      /\ i' = (i + length (command_lines (l :: body)))%nat
      /\ map command_view (firstn i' cs')
         = map command_view (firstn i cs)
           ++ map decode_command (command_lines (l :: body)).
Proof.
  induction body as [|l' body IH];
    intros l cs i fuel Hl Hbody Hlong Hfuel Hi Hcs;
    cbn [forallb] in Hlong; apply andb_true_iff in Hlong;
    destruct Hlong as [Hlong Hlongs]; unfold long_line in Hlong;
    apply Nat.ltb_lt in Hlong;
    pose proof (ParseProps.data_line_text l Hl) as Hnt;
    apply ScanProps.nonempty_text_spec in Hnt; destruct Hnt as [Ht _];
    unfold command_lines in *; cbn [filter] in *.
  - destruct fuel as [|[|fuel]]; [simpl in Hfuel; lia | simpl in Hfuel; lia |].
    cbn [parse_cmds]. rewrite ScanProps.strlen_text by auto. cbn [bind].
    replace (length l <=? dsta + 2)%nat with false
      by (symmetry; apply Nat.leb_gt; unfold dsta; lia).
    rewrite ParseProps.strncmp_49_line by lia. cbn [bind].
    destruct (starts_49 l) eqn:E49; cbn [negb] in *.
    + cbn [bind]. change (unlines [] ++ NUL :: tl) with (NUL :: tl).
      cbn [Klib.strsep Klib.strsep_from]. change (NUL =? NUL) with true.
      cbv iota. cbn [bind Klib.tok Klib.cursor Klib.strlen].
      change (NUL =? NUL) with true. cbv iota. cbn [bind Nat.leb].
      exists cs, i. split; [reflexivity|]. split; [reflexivity|].
      cbn [length map]. rewrite Nat.add_0_r, app_nil_r. auto.
    + unfold data_line, sentinel_line in Hl. rewrite E49 in Hl.
      rewrite andb_false_r in Hl. cbn [orb] in Hl. cbn [length] in Hi.
      destruct (parse_cmd_content l (NUL :: unlines [] ++ NUL :: tl) cs i Hl
                  ltac:(lia) Hcs) as (c & Hp & Hview).
      rewrite Hp. cbn [bind]. change (unlines [] ++ NUL :: tl) with (NUL :: tl).
      cbn [Klib.strsep Klib.strsep_from]. change (NUL =? NUL) with true.
      cbv iota. cbn [bind Klib.tok Klib.cursor Klib.strlen].
      change (NUL =? NUL) with true. cbv iota. cbn [bind Nat.leb].
      eexists _, (S i). split; [reflexivity|].
      split; [apply length_mid; lia|]. split; [cbn [length]; lia|].
      rewrite firstn_succ_mid by lia. rewrite map_app. cbn [map].
      rewrite Hview. reflexivity.
  - destruct fuel as [|fuel]; [simpl in Hfuel; lia|].
    cbn [forallb] in Hbody. apply andb_true_iff in Hbody.
    destruct Hbody as [Hl' Hbody].
    pose proof (ParseProps.data_line_text l' Hl') as Hnt'.
    apply ScanProps.nonempty_text_spec in Hnt'. destruct Hnt' as [Ht' _].
    cbn [parse_cmds]. rewrite ScanProps.strlen_text by auto. cbn [bind].
    replace (length l <=? dsta + 2)%nat with false
      by (symmetry; apply Nat.leb_gt; unfold dsta; lia).
    rewrite ParseProps.strncmp_49_line by lia. cbn [bind].
    rewrite (ScanProps.unlines_cons l' body).
    cbn [length] in Hfuel.
    destruct (starts_49 l) eqn:E49; cbn [negb] in *.
    + cbn [bind Klib.strsep]. rewrite ParseProps.strsep_line by exact Ht'.
      cbn [bind Klib.tok Klib.cursor].
      apply (IH l' cs i fuel Hl' Hbody Hlongs ltac:(lia) Hi Hcs).
    + unfold data_line, sentinel_line in Hl. rewrite E49 in Hl.
      rewrite andb_false_r in Hl. cbn [orb] in Hl. cbn [length] in Hi.
      destruct (parse_cmd_content l
                  (NUL :: l' ++ NL :: unlines body ++ NUL :: tl)
                  cs i Hl ltac:(lia) Hcs) as (c & Hp & Hview).
      destruct (ParseProps.parse_cmd_ok l
                  (NUL :: l' ++ NL :: unlines body ++ NUL :: tl)
                  cs i Hl ltac:(lia) Hcs) as (cs1 & Hp1 & Hlen1 & Hcs1).
      rewrite Hp in Hp1. injection Hp1 as Hcs1eq. rewrite <- Hcs1eq in *.
      rewrite Hp. cbn [bind Klib.strsep].
      rewrite ParseProps.strsep_line by exact Ht'.
      cbn [bind Klib.tok Klib.cursor].
      destruct (IH l' _ (S i) fuel Hl' Hbody Hlongs ltac:(lia)
                  ltac:(rewrite Hlen1; lia) Hcs1)
        as (cs2 & i2 & Hr & Hlen2 & Hi2 & Hv2).
      exists cs2, i2. split; [exact Hr|]. split; [congruence|].
      split; [cbn [length]; lia|].
      rewrite Hv2. rewrite firstn_succ_mid by lia.
      rewrite map_app, <- app_assoc. cbn [map app]. rewrite Hview.
      reflexivity.
Qed.

Lemma count_commands_length (ls : list (list Z)) :
  count_commands ls = Z.of_nat (length (command_lines ls)).
Proof. reflexivity. Qed.

(** raa_dmpvr2_parse_cfg on a well-formed file with no short line. *)
Lemma parse_cfg_content (kmalloc : Z -> option (nat -> Z)) (junk : nat -> Z)
    (k : Z) (h1 h2 : list Z) (body : list (list Z)) (tl : list Z) :
  well_formed k (h1 :: h2 :: body) = true ->
  forallb long_line body = true ->
  Z.of_nat (length (unlines (h1 :: h2 :: body))) < 2 ^ Klib.BITS_PER_LONG ->
  kmalloc (count_commands body * sizeof_cfg_cmd) = Some junk ->
  exists cfg,
    raa_dmpvr2_parse_cfg kmalloc (unlines (h1 :: h2 :: body) ++ NUL :: tl)
    = Ok cfg
    /\ map command_view (cmds cfg) = map decode_command (command_lines body).
Proof.
  intros Hwf Hlong Hbig Hk. unfold well_formed in Hwf.
  apply andb_true_iff in Hwf. destruct Hwf as [Hwf Hlines].
  apply andb_true_iff in Hwf. destruct Hwf as [Hk1 Hcount].
  apply andb_true_iff in Hk1. destruct Hk1 as [Hk1 Hk16].
  apply Z.leb_le in Hk1. apply Z.leb_le in Hk16. apply Z.eqb_eq in Hcount.
  apply andb_true_iff in Hlines. destruct Hlines as [Hh Hbody].
  apply andb_true_iff in Hh. destruct Hh as [Hh1 Hh2].
  destruct (ParseMain.header_line_parts h1 Hh1) as (Ht1 & _ & Hn1).
  destruct (ParseMain.header_line_parts h2 Hh2) as (Ht2 & H492 & Hn2).
  assert (Hall : forallb nonempty_text (h1 :: h2 :: body) = true).
  { cbn [forallb]. rewrite Hn1, Hn2. cbn [andb].
    apply forallb_forall. intros l Hl.
    apply ParseProps.data_line_text.
    rewrite forallb_forall in Hbody. apply Hbody, Hl. }
  destruct (ScanProps.sizing_pass (h1 :: h2 :: body) tl Hall Hbig)
    as [Hlen Hscan].
  unfold raa_dmpvr2_parse_cfg, parse_cfg_filled.
  rewrite Hlen. cbn [bind]. rewrite Hscan.
  cbn [bind List.tl]. rewrite ScanProps.count_commands_cons, H492.
  cbn [negb]. rewrite Z.add_0_l.
  rewrite Z.max_r
    by (rewrite Hcount;
        unfold RAA_DMPVR2_CFG_HEAD_LEN, RAA_DMPVR2_CFG_SLOT_LEN; lia).
  rewrite Hcount.
  replace (RAA_DMPVR2_CFG_HEAD_LEN + RAA_DMPVR2_CFG_SLOT_LEN * k
           - RAA_DMPVR2_CFG_HEAD_LEN) with (k * RAA_DMPVR2_CFG_SLOT_LEN) by lia.
  rewrite Z.quot_mul by (unfold RAA_DMPVR2_CFG_SLOT_LEN; lia).
  replace ((k <? 1) || (RAA_DMPVR2_CFG_MAX_SLOT <? k)) with false.
  2:{ symmetry. apply orb_false_iff. split; apply Z.ltb_ge; lia. }
  rewrite Hk.
  rewrite (ScanProps.unlines_cons h1), (ScanProps.unlines_cons h2).
  cbn [Klib.strsep]. rewrite ParseProps.strsep_line by exact Ht1.
  cbn [bind Klib.tok Klib.cursor].
  rewrite ParseProps.parse_header_line_ok by exact Hh1. cbn [bind Klib.strsep].
  rewrite ParseProps.strsep_line by exact Ht2.
  cbn [bind Klib.tok Klib.cursor].
  rewrite ParseProps.parse_header_line_ok by exact Hh2. cbn [bind].
  assert (Hd2 : data_line h2 = true).
  { unfold data_line, sentinel_line. rewrite Ht2, H492. reflexivity. }
  assert (Hfresh : length (fresh_cmds junk (count_commands body))
                   = length (command_lines body)).
  { rewrite ParseInv.length_fresh_cmds, count_commands_length. lia. }
  assert (Hcl : command_lines (h2 :: body) = command_lines body).
  { unfold command_lines. cbn [filter]. rewrite H492. reflexivity. }
  match goal with
  | |- context [parse_cmds ?f _ _ _ _] => set (fuel := f)
  end.
  destruct (parse_cmds_content body tl h2
              (fresh_cmds junk (count_commands body)) 0 fuel Hd2 Hbody)
    as (cs & filled & Hr & Hlcs & Hfill & Hview).
  - cbn [forallb]. rewrite Hlong, andb_true_r.
    unfold header_line, hex_pairs_at in Hh2.
    apply andb_true_iff in Hh2. destruct Hh2 as [_ Hh2].
    apply andb_true_iff in Hh2. destruct Hh2 as [Hh2 _].
    apply Nat.leb_le in Hh2. unfold long_line. apply Nat.ltb_lt. lia.
  - subst fuel. repeat (rewrite length_app || rewrite length_cons).
    pose proof (ParseMain.length_unlines_ge body). lia.
  - rewrite Hcl, Hfresh. lia.
  - apply ParseMain.fresh_cmds_data4.
  - rewrite Hr. cbn [bind]. eexists. split; [reflexivity|].
    cbn [cmds]. rewrite Hcl in *. cbn [firstn map app] in Hview.
    rewrite <- Hview. f_equal. symmetry. apply firstn_all2. lia.
Qed.

End ContentProps.

(** X12.  What the parser stores for the commands.  For a well-formed file
    in which no line after the headers has 10 characters or fewer, the
    command array holds one entry per line that does not begin with "49",
    in file order, each with the command code from column 6, the length
    from column 2 less 3, and as its first [len] data bytes the hex pairs
    from column 8 on, in the order of the line. *)
Theorem parsed_commands_follow_the_file :
  forall (kmalloc : Z -> option (nat -> Z)) (junk : nat -> Z) (k : Z)
         (ls : list (list Z)) (tl : list Z),
    Format.well_formed k ls = true ->
    forallb Format.long_line (skipn 2 ls) = true ->
    Z.of_nat (length (Format.unlines ls)) < 2 ^ Klib.BITS_PER_LONG ->
    kmalloc (Format.count_commands (skipn 2 ls) * Parser.sizeof_cfg_cmd)
      = Some junk ->
    exists cfg,
      Parser.raa_dmpvr2_parse_cfg kmalloc (Format.unlines ls ++ NUL :: tl)
        = Ok cfg
      /\ map Decode.command_view (cmds cfg)
         = map Decode.decode_command (Decode.command_lines (skipn 2 ls)).
Proof.
  intros kmalloc junk k ls tl Hwf Hlong Hbig Hk.
  destruct ls as [|h1 [|h2 body]];
    try (unfold Format.well_formed in Hwf; rewrite andb_false_r in Hwf;
         discriminate Hwf).
  cbn [skipn] in *.
  apply (ContentProps.parse_cfg_content kmalloc junk k h1 h2 body tl);
    assumption.
Qed.

Lemma parsed_commands_follow_the_file_witness :
  exists cfg,
    Parser.raa_dmpvr2_parse_cfg Sim.plain_kmalloc (Sim.blob Sim.lines_648)
      = Ok cfg
    /\ map Decode.command_view (cmds cfg)
       = [(16, 4, [170; 187; 204; 221]); (32, 2, [17; 34])].
Proof.
  destruct (parsed_commands_follow_the_file Sim.plain_kmalloc (fun _ => 0) 1
              Sim.lines_648 []) as (cfg & Hp & Hv).
  - vm_compute. reflexivity.
  - vm_compute. reflexivity.
  - vm_compute. reflexivity.
  - reflexivity.
  - exists cfg. split; [exact Hp|]. rewrite Hv. vm_compute. reflexivity.
Defined.

(** ** Probing and the sensor descriptions of the two drivers *)

Module ProbeProps.

Import Pmbus.

Ltac in_table := repeat first [left; reflexivity | right].

End ProbeProps.

(** X13.  The two drivers describe every part they share in the same way.
    Each name of the isl692xx table is also in the isl68137 table, and the
    description isl68137_probe builds for it has the same page count, the
    same data format and the same coefficients m, b and R for every sensor
    class, and the same capabilities on page 0, as the one isl692xx_probe
    selects.  On the further pages of a part the isl692xx description has
    exactly three capabilities more: VIN, TEMP2 and VMON.  Conversely every
    Gen 2 name of the isl68137 table is in the isl692xx table. *)
Theorem drivers_agree_on_shared_parts :
  (forall (name : string) (part : Isl692xx.parts),
     In (name, part) Isl692xx.isl692xx_id ->
     exists v,
       In (name, v) Hwmon.raa_dmpvr_id
       /\ let a := Hwmon.adjust_info v Hwmon.raa_dmpvr_info in
          let b := Isl692xx.isl692xx_info (Isl692xx.rail_of part) in
          Pmbus.pages a = Pmbus.pages b
          /\ (forall c, Pmbus.format a c = Pmbus.format b c
                        /\ Pmbus.m a c = Pmbus.m b c
                        /\ Pmbus.b a c = Pmbus.b b c
                        /\ Pmbus.R a c = Pmbus.R b c)
          /\ (forall f, Pmbus.func a 0 f = Pmbus.func b 0 f)
          /\ (forall p f,
                (0 < p)%nat -> Z.of_nat p < Pmbus.pages a ->
                Pmbus.func b p f
                = Pmbus.func a p f
                  || Pmbus.of_flags [Pmbus.PMBUS_HAVE_VIN;
                                     Pmbus.PMBUS_HAVE_TEMP2;
                                     Pmbus.PMBUS_HAVE_VMON] f))
  /\ (forall (name : string) (v : Hwmon.variants),
        In (name, v) Hwmon.raa_dmpvr_id ->
        v <> Hwmon.raa_dmpvr1_2rail ->
        exists part, In (name, part) Isl692xx.isl692xx_id).
Proof.
  split.
  - intros name part Hin. unfold Isl692xx.isl692xx_id in Hin.
    cbn [In] in Hin.
    repeat (destruct Hin as [Heq|Hin];
            [injection Heq as <- <-; eexists; split;
             [unfold Hwmon.raa_dmpvr_id; cbn [In]; ProbeProps.in_table
             |cbv zeta; split; [reflexivity|]; split;
              [intros c; destruct c; repeat split; reflexivity|]; split;
              [intros f; destruct f; reflexivity|];
              intros p f Hp Hlt; destruct p as [|[|[|p]]];
              try lia; try (cbn in Hlt; lia); destruct f; reflexivity]
            |]).
    contradiction.
  - intros name v Hin Hv. unfold Hwmon.raa_dmpvr_id in Hin. cbn [In] in Hin.
    repeat (destruct Hin as [Heq|Hin];
            [injection Heq as <- <-;
             first [exfalso; apply Hv; reflexivity
                   |eexists; unfold Isl692xx.isl692xx_id; cbn [In];
                    ProbeProps.in_table]
            |]).
    contradiction.
Qed.

Lemma drivers_agree_on_shared_parts_witness :
  exists v,
    In ("raa228004"%string, v) Hwmon.raa_dmpvr_id
    /\ Pmbus.R (Hwmon.adjust_info v Hwmon.raa_dmpvr_info) Pmbus.PSC_POWER = -1
    /\ Pmbus.R (Isl692xx.isl692xx_info (Isl692xx.rail_of Isl692xx.raa228004))
               Pmbus.PSC_POWER = -1.
Proof.
  destruct drivers_agree_on_shared_parts as [H _].
  destruct (H "raa228004"%string Isl692xx.raa228004) as (v & Hin & _ & Hc & _).
  - unfold Isl692xx.isl692xx_id. cbn [In]. ProbeProps.in_table.
  - exists v. split; [exact Hin|].
    destruct (Hc Pmbus.PSC_POWER) as (_ & _ & _ & HR).
    split; [rewrite HR|]; reflexivity.
Defined.

(** X14.  The debugfs files of isl68137_probe.  Files are created only
    for a Gen 2 part, only after pmbus_do_probe has returned 0, and the
    probe then returns 0; they are write_config (mode 0222) and
    read_black_box (mode 0444).  For each file the direction its mode
    leaves out is refused by the handler as well: reading the entry behind
    write_config, and writing the one behind read_black_box, returns
    -EINVAL without a bus transfer. *)
Theorem debugfs_files_match_their_handlers :
  forall (env : Hwmon.probe_env) (driver_data : Z) (f : Hwmon.debugfs_file),
    In f (Hwmon.debugfs_files (Hwmon.isl68137_probe env driver_data)) ->
    Hwmon.probe_ret (Hwmon.isl68137_probe env driver_data) = 0
    /\ Hwmon.variant_of_data driver_data <> Some Hwmon.raa_dmpvr1_2rail
    /\ (exists info,
          Hwmon.probed_with (Hwmon.isl68137_probe env driver_data) = Some info
          /\ Hwmon.pmbus_do_probe env info = 0)
    /\ ((Hwmon.file_name f = "write_config"%string
         /\ Hwmon.file_mode f = 146
         /\ forall (W : Type) (P : Platform W) (len ppos : Z) (w : W),
              Driver.raa_dmpvr2_debugfs_read (Hwmon.file_entry f) len ppos w
              = (w, Ok (- EINVAL, [], ppos)))
        \/ (Hwmon.file_name f = "read_black_box"%string
            /\ Hwmon.file_mode f = 292
            /\ forall (W : Type) (P : Platform W) (fuel : nat)
                      (ubuf : list Z) (ppos : Z) (w : W),
                 Driver.raa_dmpvr2_debugfs_write fuel (Hwmon.file_entry f)
                   ubuf ppos w
                 = (w, Ok (- EINVAL)))).
Proof.
  intros env driver_data f Hin. unfold Hwmon.isl68137_probe in *.
  destruct (Hwmon.info_alloc env); cbn [negb] in *; [|contradiction].
  destruct (Hwmon.variant_of_data driver_data) as [v|]; [|contradiction].
  destruct v; cbn [Hwmon.debugfs_files] in Hin; try contradiction;
    (destruct (Hwmon.pmbus_do_probe env _ =? 0) eqn:Eret; cbn [negb] in *;
     [|contradiction];
     destruct (Hwmon.ctrl_alloc env); cbn [negb] in *; [|contradiction];
     destruct (Hwmon.pmbus_get_debugfs_dir env); cbn [negb] in *;
     [|contradiction];
     destruct (Hwmon.debugfs_create_dir env); cbn [negb] in *;
     [|contradiction];
     cbn [Hwmon.debugfs_files Hwmon.probe_ret Hwmon.probed_with In] in *;
     apply Z.eqb_eq in Eret;
     split; [reflexivity|]; split; [discriminate|];
     split; [eexists; split; [reflexivity | exact Eret]|];
     destruct Hin as [<-|[<-|[]]];
     [left | right]; repeat split; reflexivity).
Qed.

Lemma debugfs_files_match_their_handlers_witness :
  let env := Hwmon.mk_env true (fun _ => 0) true true true in
  Hwmon.probe_ret (Hwmon.isl68137_probe env 2) = 0
  /\ map Hwmon.file_name (Hwmon.debugfs_files (Hwmon.isl68137_probe env 2))
     = ["write_config"; "read_black_box"]%string.
Proof.
  intros env. split; [|reflexivity].
  apply (debugfs_files_match_their_handlers env 2
           (Hwmon.mk_file "write_config" 146 Driver.RAA_DMPVR2_DEBUGFS_CFG_W)).
  left. reflexivity.
Defined.

(** ** The AVS attribute *)

Module AvsProps.

Import Pmbus Hwmon.

Lemma land48_mod (y : Z) : Z.land y 48 = Z.land (y mod 64) 48.
Proof.
  change 48 with (Z.land 63 48) at 1. rewrite Z.land_assoc.
  change 63 with (Z.ones 6). rewrite Z.land_ones by lia. reflexivity.
Qed.

Lemma neg_mod64 (e : Z) : (- e) mod 64 = 63 - (e - 1) mod 64.
Proof.
  pose proof (Z.mod_pos_bound (e - 1) 64 ltac:(lia)) as Hr.
  symmetry. apply Z.mod_unique with (q := - ((e - 1) / 64) - 1); [lia|].
  pose proof (Z.div_mod (e - 1) 64 ltac:(lia)). lia.
Qed.

Lemma range_enum (n : nat) (P : Z -> bool) :
  forallb (fun k => P (Z.of_nat k)) (seq 0 n) = true ->
  forall r, 0 <= r < Z.of_nat n -> P r = true.
Proof.
  intros H r Hr. rewrite forallb_forall in H.
  specialize (H (Z.to_nat r)). rewrite Z2Nat.id in H by lia.
  apply H. apply in_seq. lia.
Qed.

(** Bits 4 and 5 of [-e] are both set exactly when both are clear in
    [e - 1]. *)
Lemma avs_bits_of_error (e : Z) :
  (Z.land (- e) ISL68137_VOUT_AVS =? ISL68137_VOUT_AVS)
  = (Z.land (e - 1) ISL68137_VOUT_AVS =? 0).
Proof.
  unfold ISL68137_VOUT_AVS. change 0x30 with 48.
  rewrite (land48_mod (- e)), (land48_mod (e - 1)), neg_mod64.
  pose proof (Z.mod_pos_bound (e - 1) 64 ltac:(lia)) as Hr.
  generalize dependent ((e - 1) mod 64). intros r Hr.
  apply Bool.eqb_prop.
  apply (range_enum 64 (fun r => Bool.eqb (Z.land (63 - r) 48 =? 48)
                                          (Z.land r 48 =? 0)));
    [vm_compute; reflexivity | exact Hr].
Qed.

(** The OPERATION byte after the update, read back by the attribute. *)
Lemma avs_bits_after_update (old : Z) (on : bool) :
  0 <= old < 256 ->
  let tmp := Z.lor (Z.land old (Z.lnot ISL68137_VOUT_AVS))
                   (Z.land (if on then ISL68137_VOUT_AVS else 0)
                           ISL68137_VOUT_AVS) in
  0 <= tmp < 256
  /\ (Z.land tmp ISL68137_VOUT_AVS =? ISL68137_VOUT_AVS) = on
  /\ Z.land tmp (Z.lnot ISL68137_VOUT_AVS)
     = Z.land old (Z.lnot ISL68137_VOUT_AVS).
Proof.
  intros Hold. cbv zeta.
  assert (H : (let tmp := Z.lor (Z.land old (Z.lnot ISL68137_VOUT_AVS))
                            (Z.land (if on then ISL68137_VOUT_AVS else 0)
                                    ISL68137_VOUT_AVS) in
               (0 <=? tmp) && (tmp <? 256)
               && Bool.eqb (Z.land tmp ISL68137_VOUT_AVS
                            =? ISL68137_VOUT_AVS) on
               && (Z.land tmp (Z.lnot ISL68137_VOUT_AVS)
                   =? Z.land old (Z.lnot ISL68137_VOUT_AVS))) = true).
  { revert old Hold.
    apply (range_enum 256 (fun old =>
             let tmp := Z.lor (Z.land old (Z.lnot ISL68137_VOUT_AVS))
                          (Z.land (if on then ISL68137_VOUT_AVS else 0)
                                  ISL68137_VOUT_AVS) in
             (0 <=? tmp) && (tmp <? 256)
             && Bool.eqb (Z.land tmp ISL68137_VOUT_AVS =? ISL68137_VOUT_AVS) on
             && (Z.land tmp (Z.lnot ISL68137_VOUT_AVS)
                 =? Z.land old (Z.lnot ISL68137_VOUT_AVS)))).
    destruct on; vm_compute; reflexivity. }
  cbv zeta in H.
  apply andb_true_iff in H. destruct H as [H H3].
  apply andb_true_iff in H. destruct H as [H H2].
  apply andb_true_iff in H. destruct H as [H0 H1].
  apply Z.leb_le in H0. apply Z.ltb_lt in H1. apply Bool.eqb_prop in H2.
  apply Z.eqb_eq in H3. auto.
Qed.

End AvsProps.

(** X15.  isl68137_avs_enable_show_page never reports a failed read.  When
    pmbus_read_byte_data returns the error [-e], the attribute still
    returns 2, the length of its text, and prints 1 exactly when bits 4 and
    5 of [e - 1] are clear, which is the case for -EIO, and 0 otherwise. *)
Theorem avs_show_hides_read_errors :
  forall (W : Type) (C : Pmbus.Core W) (page e : Z) (w w' : W),
    Pmbus.pmbus_read_byte_data w page Pmbus.PMBUS_OPERATION = (w', - e) ->
    Hwmon.isl68137_avs_enable_show_page page w
    = (w', (2, [if Z.land (e - 1) ISL68137_VOUT_AVS =? 0 then 49 else 48; NL])).
Proof.
  intros W C page e w w' Hr. unfold Hwmon.isl68137_avs_enable_show_page.
  rewrite Hr, AvsProps.avs_bits_of_error.
  destruct (Z.land (e - 1) ISL68137_VOUT_AVS =? 0); reflexivity.
Qed.

Lemma avs_show_hides_read_errors_witness :
  let w := SimPmbus.mk_world (fun _ _ => 0) true [] in
  snd (Hwmon.isl68137_avs_enable_show_page 0 w) = (2, bytes_of_string "1" ++ [NL]).
Proof.
  intros w.
  rewrite (avs_show_hides_read_errors SimPmbus.world SimPmbus.sim_core 0 EIO w
             (fst (SimPmbus.sim_read_byte w 0 1)) eq_refl).
  reflexivity.
Defined.

(** X16.  Round trip of the AVS attribute on a device that answers.  After
    isl68137_avs_enable_store_page has taken a string that kstrtobool reads
    as [on], it returns [count], and isl68137_avs_enable_show_page prints 1
    if [on] and 0 if not.  The other bits of OPERATION keep their value,
    VOUT_COMMAND reads as before, and no other register changes.  Enabling
    reads VOUT_COMMAND and writes the value back before it touches
    OPERATION; disabling touches OPERATION only. *)
Theorem avs_store_then_show :
  forall (w : SimPmbus.world) (page count : Z) (buf : list Z) (on : bool),
    SimPmbus.dead w = false ->
    Hwmon.kstrtobool buf = Ok on ->
    0 <= count ->
    let r := Hwmon.isl68137_avs_enable_store_page page buf count w in
    let w' := fst r in
    let op := Pmbus.PMBUS_OPERATION in
    let vout := Pmbus.PMBUS_VOUT_COMMAND in
    snd r = Ok count
    /\ snd (Hwmon.isl68137_avs_enable_show_page page w')
       = (2, [if on then 49 else 48; NL])
    /\ Z.land (SimPmbus.regs w' page op mod 2 ^ 8) (Z.lnot ISL68137_VOUT_AVS)
       = Z.land (SimPmbus.regs w page op mod 2 ^ 8) (Z.lnot ISL68137_VOUT_AVS)
    /\ SimPmbus.regs w' page vout mod 2 ^ 16
       = SimPmbus.regs w page vout mod 2 ^ 16
    /\ (forall p r0, (p, r0) <> (page, op) -> (p, r0) <> (page, vout) ->
                     SimPmbus.regs w' p r0 = SimPmbus.regs w p r0)
    /\ SimPmbus.log w'
       = SimPmbus.log w
         ++ (if on
             then [SimPmbus.ReadWord page 0xff vout;
                   SimPmbus.WriteWord page vout
                     (SimPmbus.regs w page vout mod 2 ^ 16)]
             else [])
         ++ [SimPmbus.UpdateByte page op ISL68137_VOUT_AVS
               (if on then ISL68137_VOUT_AVS else 0)].
Proof.
  intros w page count buf on Halive Hb Hcount r w' op vout.
  subst r w' op vout.
  destruct w as [rg dd lg]. cbn [SimPmbus.dead] in Halive. subst dd.
  unfold Hwmon.isl68137_avs_enable_store_page. rewrite Hb.
  pose proof (Z.mod_pos_bound (rg page 1) (2 ^ 8) ltac:(lia)) as Hold.
  pose proof (Z.mod_pos_bound (rg page 33) (2 ^ 16) ltac:(lia)) as Hv.
  assert (Hne : forall p r0 v, (p, r0) <> (page, v) ->
                               (p =? page) && (r0 =? v) = false).
  { intros p r0 v Hd. apply andb_false_iff.
    destruct (Z.eqb_spec p page) as [->|]; [|now left].
    destruct (Z.eqb_spec r0 v) as [->|]; [|now right].
    exfalso. apply Hd. reflexivity. }
  unfold Hwmon.isl68137_avs_enable_show_page.
  cbv [Pmbus.pmbus_read_word_data Pmbus.pmbus_write_word_data
       Pmbus.pmbus_update_byte_data Pmbus.pmbus_read_byte_data
       Pmbus.PMBUS_OPERATION Pmbus.PMBUS_VOUT_COMMAND SimPmbus.sim_core
       SimPmbus.sim_read_word SimPmbus.sim_write_word SimPmbus.sim_update_byte
       SimPmbus.sim_read_byte SimPmbus.dead SimPmbus.regs SimPmbus.log].
  destruct (AvsProps.avs_bits_after_update (rg page 1 mod 2 ^ 8) on Hold)
      as (Ht & Hshow & Hkeep).
  set (old := rg page 1 mod 2 ^ 8) in *.
  destruct on.
  - change (ISL68137_VOUT_AVS =? ISL68137_VOUT_AVS) with true. cbv iota.
    replace (rg page 33 mod 2 ^ 16 <? 0) with false
      by (symmetry; apply Z.ltb_ge; lia).
    rewrite (Z.mod_small (rg page 33 mod 2 ^ 16)) by lia.
    change (0 <? 0) with false. cbv iota.
    cbv [SimPmbus.put SimPmbus.regs].
    rewrite Z.eqb_refl. change (1 =? 33) with false. cbn [andb].
    fold old. set (tmp := Z.lor _ _) in *.
    destruct (tmp =? old) eqn:Esame; cbv beta iota delta [negb fst snd].
    + apply Z.eqb_eq in Esame.
      replace (old <? 0) with false by (symmetry; apply Z.ltb_ge; lia).
      rewrite Z.eqb_refl. change (1 =? 33) with false.
      change (33 =? 33) with true. cbn [andb]. fold old.
      rewrite <- Esame, Hshow.
      split; [reflexivity|]. split; [reflexivity|]. split; [reflexivity|].
      split; [apply Z.mod_small; lia|]. split.
      * intros p r0 H1 H2. rewrite (Hne p r0 33 H2). reflexivity.
      * rewrite <- !app_assoc. reflexivity.
    + change (0 <? 0) with false. cbv iota.
      rewrite Z.eqb_refl. change (1 =? 1) with true. change (33 =? 1) with false.
      change (33 =? 33) with true. cbn [andb].
      rewrite (Z.mod_small tmp) by (change (2 ^ 8) with 256; lia).
      rewrite Hshow.
      split; [reflexivity|]. split; [reflexivity|]. split; [exact Hkeep|].
      split; [apply Z.mod_small; lia|]. split.
      * intros p r0 H1 H2. rewrite (Hne p r0 1 H1), (Hne p r0 33 H2).
        reflexivity.
      * rewrite <- !app_assoc. reflexivity.
  - change (0 =? ISL68137_VOUT_AVS) with false. cbv iota.
    cbv [SimPmbus.put SimPmbus.regs].
    fold old. set (tmp := Z.lor _ _) in *.
    destruct (tmp =? old) eqn:Esame; cbv beta iota delta [negb fst snd].
    + apply Z.eqb_eq in Esame.
      replace (old <? 0) with false by (symmetry; apply Z.ltb_ge; lia).
      fold old. rewrite <- Esame, Hshow.
      split; [reflexivity|]. split; [reflexivity|]. split; [reflexivity|].
      split; [reflexivity|]. split; [reflexivity|]. reflexivity.
    + change (0 <? 0) with false. cbv iota.
      rewrite Z.eqb_refl. change (1 =? 1) with true. change (33 =? 1) with false.
      cbn [andb].
      rewrite (Z.mod_small tmp) by (change (2 ^ 8) with 256; lia).
      rewrite Hshow.
      split; [reflexivity|]. split; [reflexivity|]. split; [exact Hkeep|].
      split; [reflexivity|]. split.
      * intros p r0 H1 H2. rewrite (Hne p r0 1 H1). reflexivity.
      * reflexivity.
Qed.

Lemma avs_store_then_show_witness :
  let w := SimPmbus.start 0x80 in
  let r := Hwmon.isl68137_avs_enable_store_page 1 (bytes_of_string "on") 3 w in
  snd r = Ok 3
  /\ snd (Hwmon.isl68137_avs_enable_show_page 1 (fst r))
     = (2, bytes_of_string "1" ++ [NL]).
Proof.
  intros w r.
  destruct (avs_store_then_show w 1 3 (bytes_of_string "on") true
              eq_refl ltac:(vm_compute; reflexivity) ltac:(lia))
    as (H1 & H2 & _).
  split; [exact H1 | exact H2].
Defined.

(** ** Malformed lines *)

Module RejectProps.

Import Parser Format Decode.

Lemma text_line_In (l : list Z) (c : Z) :
  text_line l = true -> In c l -> c <> NUL /\ c <> NL.
Proof.
  unfold text_line. intros H Hin. rewrite forallb_forall in H.
  specialize (H c Hin). apply andb_true_iff in H. destruct H as [H0 H1].
  apply negb_true_iff, Z.eqb_neq in H0.
  apply negb_true_iff, Z.eqb_neq in H1. auto.
Qed.

Lemma skipn_two (l : list Z) : forall off,
  (off + 2 <= length l)%nat ->
  skipn off l = nth off l 0 :: nth (S off) l 0 :: skipn (S (S off)) l.
Proof.
  induction l as [|c l IH]; intros off H; [simpl in H; lia|].
  destruct off as [|off].
  - destruct l as [|c1 l]; [simpl in H; lia | reflexivity].
  - cbn [skipn nth]. rewrite IH by (simpl in H; lia). reflexivity.
Qed.

(** The decoder on a pair of characters inside a text line. *)
Lemma hextou8_in_line (l rest : list Z) (off : nat) :
  text_line l = true -> Forall byte_range l -> (off + 2 <= length l)%nat ->
  raa_dmpvr2_hextou8 (skipn off (l ++ rest))
  = if pair_ok l off then Ok (pair_decoded l off) else Err (- EINVAL).
Proof.
  intros Ht Hb Hlen. rewrite ParseProps.skipn_app_le by lia.
  rewrite skipn_two by exact Hlen.
  unfold pair_ok, pair_decoded.
  assert (Ha : In (nth off l 0) l) by (apply nth_In; lia).
  assert (Hc : In (nth (S off) l 0) l) by (apply nth_In; lia).
  set (a := nth off l 0) in *. set (b := nth (S off) l 0) in *.
  cbn [app]. rewrite Forall_forall in Hb.
  rewrite HexProps.hextou8_decoded by (apply Hb; assumption).
  destruct (text_line_In l b Ht Hc) as [Hnul Hnl].
  apply Z.eqb_neq in Hnul. apply Z.eqb_neq in Hnl. rewrite Hnul, Hnl.
  cbn [orb]. rewrite andb_false_r.
  destruct (is_hex a && is_hex b); cbn [orb]; [reflexivity|].
  destruct ((a =? 43) && is_hex b); reflexivity.
Qed.

Lemma forallb_seq_false (f : nat -> bool) (n : nat) :
  forallb f (seq 0 n) = false -> exists k, (k < n)%nat /\ f k = false.
Proof.
  intros H. destruct (forallb f (seq 0 n)) eqn:E; [discriminate H|]. clear H.
  assert (Hex : exists k, In k (seq 0 n) /\ f k = false).
  { induction (seq 0 n) as [|x xs IH]; [discriminate E|].
    cbn [forallb] in E. destruct (f x) eqn:Ex.
    - destruct (IH E) as (k & Hk & Hf). exists k. split; [now right | exact Hf].
    - exists x. split; [now left | exact Ex]. }
  destruct Hex as (k & Hk & Hf). apply in_seq in Hk. exists k. split; [lia|auto].
Qed.

Lemma forallb_seq_true (f : nat -> bool) (n k : nat) :
  forallb f (seq 0 n) = true -> (k < n)%nat -> f k = true.
Proof.
  intros H Hk. rewrite forallb_forall in H. apply H. apply in_seq. lia.
Qed.

(** A malformed pair among those a header has decoded. *)
Lemma parse_header_bytes_bad (l rest : list Z) (count : nat) : forall off k,
  text_line l = true -> Forall byte_range l ->
  (off + 2 * count <= length l)%nat ->
  (k < count)%nat -> pair_ok l (off + 2 * k) = false ->
  parse_header_bytes (skipn off (l ++ rest)) count = Err (- EINVAL).
Proof.
  induction count as [|j IH]; intros off k Ht Hb Hlen Hk Hbad; [lia|].
  cbn [parse_header_bytes].
  rewrite hextou8_in_line by (auto; lia).
  destruct (pair_ok l off) eqn:E0; [|reflexivity].
  cbn [bind]. rewrite skipn_skipn.
  destruct k as [|k].
  - rewrite Nat.mul_0_r, Nat.add_0_r in Hbad. congruence.
  - rewrite (IH (2 + off)%nat k); auto; try lia.
    replace (2 + off + 2 * k)%nat with (off + 2 * S k)%nat by lia. exact Hbad.
Qed.

Lemma store_out {A : Type} (l : list A) : forall (i : nat) (x : A),
  (length l <= i)%nat -> store l i x = Undefined.
Proof.
  induction l as [|a l IH]; intros i x Hi.
  - destruct i; reflexivity.
  - destruct i as [|i]; [simpl in Hi; lia|].
    cbn [store]. rewrite IH by (simpl in Hi; lia). reflexivity.
Qed.

(** A malformed pair among those the payload loop decodes. *)
Lemma parse_payload_bad (l rest : list Z) (todo : nat) : forall j d k,
  text_line l = true -> Forall byte_range l -> (16 <= length l)%nat ->
  length d = 4%nat ->
  (j <= k < j + todo)%nat -> (k < 4)%nat ->
  pair_ok l (8 + 2 * k) = false ->
  parse_payload (l ++ rest) d j todo = Err (- EINVAL).
Proof.
  induction todo as [|todo IH]; intros j d k Ht Hb Hlen Hd Hk Hk4 Hbad; [lia|].
  cbn [parse_payload]. unfold dsta.
  rewrite hextou8_in_line by (auto; lia).
  destruct (pair_ok l (8 + 2 * j)) eqn:E0; [|reflexivity].
  cbn [bind].
  destruct (ParseProps.store_ok d j (pair_decoded l (8 + 2 * j)) ltac:(lia))
    as (d1 & Hs & Hl1).
  rewrite Hs. cbn [bind].
  assert (k <> j) by (intros ->; congruence).
  apply (IH (S j) d1 k); auto; lia.
Qed.

(** Five well-formed payload pairs and a declared length above 4: the
    fifth byte is stored past the end of [data]. *)
Lemma parse_payload_overrun (l rest : list Z) (todo : nat) : forall j d,
  text_line l = true -> Forall byte_range l -> (18 <= length l)%nat ->
  length d = 4%nat ->
  forallb (fun k => pair_ok l (8 + 2 * k)) (seq 0 5) = true ->
  (j <= 4)%nat -> (4 < j + todo)%nat ->
  parse_payload (l ++ rest) d j todo = Undefined.
Proof.
  induction todo as [|todo IH]; intros j d Ht Hb Hlen Hd Hok Hj Htodo; [lia|].
  cbn [parse_payload]. unfold dsta.
  rewrite hextou8_in_line by (auto; lia).
  rewrite (forallb_seq_true _ 5 j Hok) by lia. cbn [bind].
  destruct (Nat.eq_dec j 4) as [->|Hne].
  - rewrite store_out by lia. reflexivity.
  - destruct (ParseProps.store_ok d j (pair_decoded l (8 + 2 * j)) ltac:(lia))
      as (d1 & Hs & Hl1).
    rewrite Hs. cbn [bind]. apply IH; auto; lia.
Qed.

Lemma parse_cmd_bad (l rest : list Z) (cs : list raa_dmpvr_cfg_cmd) (i : nat) :
  text_line l = true -> Forall byte_range l -> (16 <= length l)%nat ->
  malformed_command l = true ->
  (i < length cs)%nat -> Forall data4 cs ->
  parse_cmd (l ++ rest) cs i = Err (- EINVAL).
Proof.
  intros Ht Hb Hlen Hbad Hi Hcs. unfold parse_cmd, lsta, csta.
  rewrite hextou8_in_line by (auto; lia).
  unfold malformed_command in Hbad.
  destruct (pair_ok l 2) eqn:E2; [|reflexivity]. cbn [bind].
  destruct (nth_error cs i) as [old|] eqn:Eo;
    [|apply nth_error_None in Eo; lia].
  unfold load. rewrite Eo. cbn [of_option bind].
  rewrite hextou8_in_line by (auto; lia).
  destruct (pair_ok l 6) eqn:E6; [|reflexivity]. cbn [bind negb orb] in *.
  assert (Hold : length (data old) = 4%nat).
  { rewrite Forall_forall in Hcs. apply Hcs. eapply nth_error_In, Eo. }
  apply negb_true_iff in Hbad. apply forallb_seq_false in Hbad.
  destruct Hbad as (k & Hk & Hf).
  fold (declared_len l).
  rewrite (parse_payload_bad l rest (declared_len l) 0 (data old) k);
    auto; try lia.
Qed.

Lemma parse_cmd_overrun (l rest : list Z) (cs : list raa_dmpvr_cfg_cmd)
    (i : nat) :
  text_line l = true -> Forall byte_range l -> (18 <= length l)%nat ->
  overlong_command l = true ->
  (i < length cs)%nat -> Forall data4 cs ->
  parse_cmd (l ++ rest) cs i = Undefined.
Proof.
  intros Ht Hb Hlen Hbad Hi Hcs. unfold parse_cmd, lsta, csta.
  unfold overlong_command in Hbad.
  apply andb_true_iff in Hbad. destruct Hbad as [Hbad Hlong].
  apply andb_true_iff in Hbad. destruct Hbad as [Hbad Hpairs].
  apply andb_true_iff in Hbad. destruct Hbad as [E2 E6].
  apply Nat.ltb_lt in Hlong.
  rewrite hextou8_in_line by (auto; lia). rewrite E2. cbn [bind].
  destruct (nth_error cs i) as [old|] eqn:Eo;
    [|apply nth_error_None in Eo; lia].
  unfold load. rewrite Eo. cbn [of_option bind].
  rewrite hextou8_in_line by (auto; lia). rewrite E6. cbn [bind].
  assert (Hold : length (data old) = 4%nat).
  { rewrite Forall_forall in Hcs. apply Hcs. eapply nth_error_In, Eo. }
  fold (declared_len l).
  rewrite (parse_payload_overrun l rest (declared_len l) 0 (data old));
    auto; lia.
Qed.

(** One pass of the command loop over a long data line that is followed
    by another line. *)
Lemma parse_cmds_step (l0 nxt R : list Z) (cs : list raa_dmpvr_cfg_cmd)
    (i fuel : nat) :
  data_line l0 = true -> long_line l0 = true -> text_line nxt = true ->
  (i + length (command_lines [l0]) <= length cs)%nat ->
  Forall data4 cs ->
  exists cs',
    parse_cmds (S fuel) (Some (l0 ++ NUL :: nxt ++ NL :: R))
      (Some (nxt ++ NL :: R)) cs i
    = parse_cmds fuel (Some (nxt ++ NUL :: R)) (Some R) cs'
        (i + length (command_lines [l0]))
    /\ length cs' = length cs /\ Forall data4 cs'.
Proof.
  intros Hl Hlong Hnxt Hi Hcs.
  pose proof (ParseProps.data_line_text l0 Hl) as Hnt.
  apply ScanProps.nonempty_text_spec in Hnt. destruct Hnt as [Ht _].
  unfold long_line in Hlong. apply Nat.ltb_lt in Hlong.
  cbn [parse_cmds]. rewrite ScanProps.strlen_text by auto. cbn [bind].
  replace (length l0 <=? dsta + 2)%nat with false
    by (symmetry; apply Nat.leb_gt; unfold dsta; lia).
  rewrite ParseProps.strncmp_49_line by lia. cbn [bind].
  unfold command_lines in *. cbn [filter] in *.
  destruct (starts_49 l0) eqn:E49; cbn [negb length] in *.
  - cbn [bind Klib.strsep]. rewrite ParseProps.strsep_line by exact Hnxt.
    cbn [bind Klib.tok Klib.cursor]. rewrite Nat.add_0_r.
    exists cs. auto.
  - unfold data_line, sentinel_line in Hl. rewrite E49 in Hl.
    rewrite andb_false_r in Hl. cbn [orb] in Hl.
    destruct (ParseProps.parse_cmd_ok l0 (NUL :: nxt ++ NL :: R) cs i Hl
                ltac:(lia) Hcs) as (cs' & Hp & Hlen & Hcs').
    rewrite Hp. cbn [bind Klib.strsep].
    rewrite ParseProps.strsep_line by exact Hnxt.
    cbn [bind Klib.tok Klib.cursor].
    replace (i + 1)%nat with (S i) by lia.
    exists cs'. auto.
Qed.

(** The command loop over well-formed long lines [l0 :: pre] arrives at
    the line [l] that follows them. *)
Lemma parse_cmds_prefix (pre : list (list Z)) (l : list Z)
    (post : list (list Z)) (tl : list Z) :
  forall (l0 : list Z) (cs : list raa_dmpvr_cfg_cmd) (i fuel : nat),
    data_line l0 = true -> long_line l0 = true ->
    forallb data_line pre = true -> forallb long_line pre = true ->
    text_line l = true ->
    (length pre + 1 <= fuel)%nat ->
    (i + length (command_lines (l0 :: pre)) <= length cs)%nat ->
    Forall data4 cs ->
    exists cs',
      parse_cmds fuel
        (Some (l0 ++ NUL :: unlines (pre ++ l :: post) ++ NUL :: tl))
        (Some (unlines (pre ++ l :: post) ++ NUL :: tl)) cs i
      = parse_cmds (fuel - (length pre + 1))
          (Some (l ++ NUL :: unlines post ++ NUL :: tl))
          (Some (unlines post ++ NUL :: tl)) cs'
          (i + length (command_lines (l0 :: pre)))
      /\ length cs' = length cs /\ Forall data4 cs'.
Proof.
  induction pre as [|l1 pre IH];
    intros l0 cs i fuel Hl0 Hlong0 Hpre Hlongs Hl Hfuel Hi Hcs;
    (destruct fuel as [|fuel]; [cbn [length] in Hfuel; lia|]).
  - cbn [app length Nat.add]. rewrite ScanProps.unlines_cons.
    replace (S fuel - 1)%nat with fuel by lia.
    apply parse_cmds_step; auto.
  - cbn [forallb] in Hpre, Hlongs.
    apply andb_true_iff in Hpre. destruct Hpre as [Hl1 Hpre].
    apply andb_true_iff in Hlongs. destruct Hlongs as [Hlong1 Hlongs].
    pose proof (ParseProps.data_line_text l1 Hl1) as Hnt.
    apply ScanProps.nonempty_text_spec in Hnt. destruct Hnt as [Ht1 _].
    cbn [app]. rewrite (ScanProps.unlines_cons l1).
    assert (Hsplit : length (command_lines (l0 :: l1 :: pre))
                     = (length (command_lines [l0])
                        + length (command_lines (l1 :: pre)))%nat).
    { unfold command_lines. cbn [filter].
      destruct (negb (starts_49 l0)); cbn [length]; lia. }
    destruct (parse_cmds_step l0 l1
                (unlines (pre ++ l :: post) ++ NUL :: tl) cs i fuel
                Hl0 Hlong0 Ht1 ltac:(lia) Hcs) as (cs1 & Hstep & Hlen1 & Hcs1).
    rewrite Hstep.
    cbn [length] in Hfuel.
    destruct (IH l1 cs1 (i + length (command_lines [l0]))%nat fuel
                Hl1 Hlong1 Hpre Hlongs Hl ltac:(lia) ltac:(lia) Hcs1)
      as (cs' & Hr & Hlen' & Hcs').
    exists cs'. rewrite Hr. cbn [length].
    replace (S fuel - (S (length pre) + 1))%nat
      with (fuel - (length pre + 1))%nat by lia.
    rewrite Hsplit, Nat.add_assoc.
    split; [reflexivity|]. split; [congruence | exact Hcs'].
Qed.

(** The command loop at a long command line that parse_cmd does not
    take: the loop leaves with the outcome of parse_cmd. *)
Lemma parse_cmds_at_err (fuel : nat) (l R1 : list Z) (buf : option (list Z))
    (cs : list raa_dmpvr_cfg_cmd) (i : nat) (r : Z) :
  text_line l = true -> (10 < length l)%nat -> starts_49 l = false ->
  parse_cmd (l ++ NUL :: R1) cs i = Err r ->
  parse_cmds (S fuel) (Some (l ++ NUL :: R1)) buf cs i = Err r.
Proof.
  intros Ht Hlong H49 Hp.
  cbn [parse_cmds]. rewrite ScanProps.strlen_text by auto. cbn [bind].
  replace (length l <=? dsta + 2)%nat with false
    by (symmetry; apply Nat.leb_gt; unfold dsta; lia).
  rewrite ParseProps.strncmp_49_line by lia. cbn [bind]. rewrite H49, Hp.
  reflexivity.
Qed.

Lemma parse_cmds_at_undefined (fuel : nat) (l R1 : list Z)
    (buf : option (list Z)) (cs : list raa_dmpvr_cfg_cmd) (i : nat) :
  text_line l = true -> (10 < length l)%nat -> starts_49 l = false ->
  parse_cmd (l ++ NUL :: R1) cs i = Undefined ->
  parse_cmds (S fuel) (Some (l ++ NUL :: R1)) buf cs i = Undefined.
Proof.
  intros Ht Hlong H49 Hp.
  cbn [parse_cmds]. rewrite ScanProps.strlen_text by auto. cbn [bind].
  replace (length l <=? dsta + 2)%nat with false
    by (symmetry; apply Nat.leb_gt; unfold dsta; lia).
  rewrite ParseProps.strncmp_49_line by lia. cbn [bind]. rewrite H49, Hp.
  reflexivity.
Qed.

End RejectProps.

Module ReachProps.

Import Parser Format Decode.

Lemma command_lines_app (a b : list (list Z)) :
  command_lines (a ++ b) = command_lines a ++ command_lines b.
Proof. unfold command_lines. apply filter_app. Qed.

Lemma header_is_long_data (h : list Z) :
  header_line h = true -> data_line h = true /\ long_line h = true.
Proof.
  intros Hh. destruct (ParseMain.header_line_parts h Hh) as (Ht & H49 & _).
  split.
  - unfold data_line, sentinel_line. rewrite Ht, H49. reflexivity.
  - unfold header_line, hex_pairs_at in Hh.
    apply andb_true_iff in Hh. destruct Hh as [_ Hh].
    apply andb_true_iff in Hh. destruct Hh as [Hh _].
    apply Nat.leb_le in Hh. unfold long_line. apply Nat.ltb_lt. lia.
Qed.

(** The sizing pass and the allocation of raa_dmpvr2_parse_cfg on a file
    of non-empty text lines whose number gives a slot count in range. *)
Lemma parse_after_sizing (kmalloc : Z -> option (nat -> Z)) (junk : nat -> Z)
    (ls : list (list Z)) (tl : list Z) :
  forallb nonempty_text ls = true ->
  slots_in_range ls = true ->
  Z.of_nat (length (unlines ls)) < 2 ^ Klib.BITS_PER_LONG ->
  kmalloc (count_commands (List.tl ls) * sizeof_cfg_cmd) = Some junk ->
  parse_cfg_filled kmalloc (unlines ls ++ NUL :: tl)
  = (r1 <- Klib.strsep (Some (unlines ls ++ NUL :: tl)) ;;
     id <- parse_header_line (Klib.tok r1) ;;
     r2 <- Klib.strsep (Klib.cursor r1) ;;
     rev <- parse_header_line (Klib.tok r2) ;;
     ' (cs, filled) <- parse_cmds (S (S (length (unlines ls ++ NUL :: tl))))
                         (Klib.tok r2) (Klib.cursor r2)
                         (fresh_cmds junk (count_commands (List.tl ls))) 0 ;;
     Ok (mk_cfg id rev
           (Z.quot (Z.of_nat (length ls) - RAA_DMPVR2_CFG_HEAD_LEN)
                   RAA_DMPVR2_CFG_SLOT_LEN)
           (count_commands (List.tl ls)) cs, filled)).
Proof.
  intros Hall Hslots Hbig Hk.
  destruct (ScanProps.sizing_pass ls tl Hall Hbig) as [Hlen Hscan].
  unfold parse_cfg_filled. rewrite Hlen. cbn [bind]. rewrite Hscan.
  cbn [bind]. unfold slots_in_range in Hslots. cbv zeta in Hslots.
  apply andb_true_iff in Hslots. destruct Hslots as [H1 H16].
  apply Z.leb_le in H1. apply Z.leb_le in H16.
  assert (Hmax : Z.max 1 (Z.of_nat (length ls)) = Z.of_nat (length ls)).
  { apply Z.max_r. destruct (Z_lt_le_dec (Z.of_nat (length ls)) 1); [|lia].
    exfalso. unfold RAA_DMPVR2_CFG_HEAD_LEN, RAA_DMPVR2_CFG_SLOT_LEN in H1.
    assert (Hz : length ls = 0%nat) by lia. rewrite Hz in H1.
    vm_compute in H1. apply H1. reflexivity. }
  rewrite Hmax.
  replace ((_ <? 1) || (RAA_DMPVR2_CFG_MAX_SLOT <? _)) with false
    by (symmetry; apply orb_false_iff; split; apply Z.ltb_ge; lia).
  rewrite Hk. reflexivity.
Qed.

(** On a file with two well-formed headers, raa_dmpvr2_parse_cfg arrives
    at the line [l] that follows the well-formed long lines [pre]. *)
Lemma parse_reaches (kmalloc : Z -> option (nat -> Z)) (junk : nat -> Z)
    (h1 h2 : list Z) (pre : list (list Z)) (l : list Z)
    (post : list (list Z)) (tl : list Z) :
  let ls := h1 :: h2 :: pre ++ l :: post in
  header_line h1 = true -> header_line h2 = true ->
  forallb data_line pre = true -> forallb long_line pre = true ->
  nonempty_text l = true -> forallb nonempty_text post = true ->
  slots_in_range ls = true ->
  Z.of_nat (length (unlines ls)) < 2 ^ Klib.BITS_PER_LONG ->
  kmalloc (count_commands (pre ++ l :: post) * sizeof_cfg_cmd) = Some junk ->
  exists cs fuel id rev slots ccnt,
    Forall data4 cs
    /\ length cs = length (command_lines (pre ++ l :: post))
    /\ parse_cfg_filled kmalloc (unlines ls ++ NUL :: tl)
       = (' (cs', filled) <-
            parse_cmds (S fuel) (Some (l ++ NUL :: unlines post ++ NUL :: tl))
              (Some (unlines post ++ NUL :: tl)) cs
              (length (command_lines pre)) ;;
          Ok (mk_cfg id rev slots ccnt cs', filled)).
Proof.
  intros ls Hh1 Hh2 Hpre Hlongs Hl Hpost Hslots Hbig Hk.
  destruct (ParseMain.header_line_parts h1 Hh1) as (Ht1 & _ & Hn1).
  destruct (ParseMain.header_line_parts h2 Hh2) as (Ht2 & H492 & Hn2).
  destruct (header_is_long_data h2 Hh2) as [Hd2 Hlong2].
  pose proof (ScanProps.nonempty_text_spec l Hl) as [Htl _].
  assert (Hall : forallb nonempty_text ls = true).
  { subst ls. cbn [forallb]. rewrite Hn1, Hn2. cbn [andb].
    rewrite forallb_app. cbn [forallb]. rewrite Hl, Hpost, andb_true_r.
    apply forallb_forall. intros x Hx. apply ParseProps.data_line_text.
    rewrite forallb_forall in Hpre. apply Hpre, Hx. }
  assert (Hcc : count_commands (List.tl ls) = count_commands (pre ++ l :: post)).
  { subst ls. cbn [List.tl]. rewrite ScanProps.count_commands_cons, H492.
    cbn [negb]. lia. }
  rewrite (parse_after_sizing kmalloc junk ls tl Hall Hslots Hbig)
    by (rewrite Hcc; exact Hk).
  rewrite Hcc. subst ls.
  rewrite (ScanProps.unlines_cons h1), (ScanProps.unlines_cons h2).
  cbn [Klib.strsep]. rewrite ParseProps.strsep_line by exact Ht1.
  cbn [bind Klib.tok Klib.cursor].
  rewrite ParseProps.parse_header_line_ok by exact Hh1. cbn [bind Klib.strsep].
  rewrite ParseProps.strsep_line by exact Ht2.
  cbn [bind Klib.tok Klib.cursor].
  rewrite ParseProps.parse_header_line_ok by exact Hh2. cbn [bind].
  match goal with
  | |- context [parse_cmds ?f _ _ _ _] => set (fuel := f)
  end.
  assert (Hfresh : length (fresh_cmds junk (count_commands (pre ++ l :: post)))
                   = length (command_lines (pre ++ l :: post))).
  { rewrite ParseInv.length_fresh_cmds, ContentProps.count_commands_length.
    lia. }
  assert (Hcl : command_lines (h2 :: pre) = command_lines pre).
  { unfold command_lines. cbn [filter]. rewrite H492. reflexivity. }
  assert (Hfuel : (length pre + 2 <= fuel)%nat).
  { subst fuel. repeat (rewrite length_app || rewrite length_cons).
    pose proof (ParseMain.length_unlines_ge (pre ++ l :: post)) as Hge.
    rewrite length_app in Hge. cbn [length] in Hge. lia. }
  destruct (RejectProps.parse_cmds_prefix pre l post tl h2
              (fresh_cmds junk (count_commands (pre ++ l :: post))) 0 fuel
              Hd2 Hlong2 Hpre Hlongs Htl ltac:(lia))
    as (cs & Hr & Hlen & Hcs).
  - rewrite Hcl, Hfresh, command_lines_app, length_app. lia.
  - apply ParseMain.fresh_cmds_data4.
  - rewrite Hr. rewrite Hcl. cbn [Nat.add].
    exists cs, (fuel - (length pre + 1) - 1)%nat.
    do 4 eexists. split; [exact Hcs|]. split; [congruence|].
    replace (S (fuel - (length pre + 1) - 1))
      with (fuel - (length pre + 1))%nat by lia.
    reflexivity.
Qed.

End ReachProps.

(** X17.  A malformed command line is refused.  In a file with two
    well-formed headers, let the lines after them be well-formed and longer
    than 10 characters up to a line [l] of at least 16 characters that does
    not begin with "49" and has a malformed hex pair in its length field,
    its command field, or among the payload pairs its declared length
    covers.  Then raa_dmpvr2_parse_cfg returns -EINVAL, whatever follows
    [l]. *)
Theorem malformed_command_rejected :
  forall (kmalloc : Z -> option (nat -> Z)) (junk : nat -> Z)
         (h1 h2 : list Z) (pre : list (list Z)) (l : list Z)
         (post : list (list Z)) (tl : list Z),
    let ls := h1 :: h2 :: pre ++ l :: post in
    Format.header_line h1 = true -> Format.header_line h2 = true ->
    forallb Format.data_line pre = true ->
    forallb Format.long_line pre = true ->
    Format.text_line l = true -> Forall Format.byte_range l ->
    (16 <= length l)%nat -> Format.starts_49 l = false ->
    Decode.malformed_command l = true ->
    forallb Format.nonempty_text post = true ->
    Decode.slots_in_range ls = true ->
    Z.of_nat (length (Format.unlines ls)) < 2 ^ Klib.BITS_PER_LONG ->
    kmalloc (Format.count_commands (pre ++ l :: post) * Parser.sizeof_cfg_cmd)
      = Some junk ->
    Parser.raa_dmpvr2_parse_cfg kmalloc (Format.unlines ls ++ NUL :: tl)
    = Err (- EINVAL).
Proof.
  intros kmalloc junk h1 h2 pre l post tl ls Hh1 Hh2 Hpre Hlongs Ht Hb Hlen
         H49 Hbad Hpost Hslots Hbig Hk.
  assert (Hl : Format.nonempty_text l = true).
  { unfold Format.nonempty_text. rewrite Ht.
    destruct l; [simpl in Hlen; lia | reflexivity]. }
  destruct (ReachProps.parse_reaches kmalloc junk h1 h2 pre l post tl
              Hh1 Hh2 Hpre Hlongs Hl Hpost Hslots Hbig Hk)
    as (cs & fuel & id & rev & slots & ccnt & Hcs & Hlcs & Hp).
  unfold Parser.raa_dmpvr2_parse_cfg. fold ls in Hp. rewrite Hp.
  rewrite (RejectProps.parse_cmds_at_err fuel l _ _ cs _ (- EINVAL));
    auto; try lia.
  apply RejectProps.parse_cmd_bad; auto.
  assert (Hone : (1 <= length (Decode.command_lines (l :: post)))%nat).
  { unfold Decode.command_lines. cbn [filter]. rewrite H49.
    cbn [negb length]. lia. }
  rewrite Hlcs, ReachProps.command_lines_app, length_app. lia.
Qed.

Lemma malformed_command_rejected_witness :
  Parser.raa_dmpvr2_parse_cfg Sim.plain_kmalloc
    (Format.unlines (Sim.hdr_id :: Sim.hdr_rev
                     :: [Sim.cmd4] ++ bytes_of_string "0007002011ZZ3344"
                     :: repeat Sim.sentinel 644) ++ NUL :: [])
  = Err (- EINVAL).
Proof.
  apply (malformed_command_rejected Sim.plain_kmalloc (fun _ => 0)
           Sim.hdr_id Sim.hdr_rev [Sim.cmd4]
           (bytes_of_string "0007002011ZZ3344") (repeat Sim.sentinel 644) []);
    first [vm_compute; reflexivity
          |vm_compute; repeat constructor; discriminate
          |vm_compute; lia].
Defined.

(** X18.  The declared payload length is not checked against the four
    bytes of [data].  In the same setting, a line of at least 18
    characters whose length and command fields and first five payload pairs
    are well-formed, and whose declared length is above 4, makes
    raa_dmpvr2_parse_cfg store its fifth payload byte past the end of
    [cmds[i].data]. *)
Theorem overlong_command_overruns :
  forall (kmalloc : Z -> option (nat -> Z)) (junk : nat -> Z)
         (h1 h2 : list Z) (pre : list (list Z)) (l : list Z)
         (post : list (list Z)) (tl : list Z),
    let ls := h1 :: h2 :: pre ++ l :: post in
    Format.header_line h1 = true -> Format.header_line h2 = true ->
    forallb Format.data_line pre = true ->
    forallb Format.long_line pre = true ->
    Format.text_line l = true -> Forall Format.byte_range l ->
    (18 <= length l)%nat -> Format.starts_49 l = false ->
    Decode.overlong_command l = true ->
    forallb Format.nonempty_text post = true ->
    Decode.slots_in_range ls = true ->
    Z.of_nat (length (Format.unlines ls)) < 2 ^ Klib.BITS_PER_LONG ->
    kmalloc (Format.count_commands (pre ++ l :: post) * Parser.sizeof_cfg_cmd)
      = Some junk ->
    Parser.raa_dmpvr2_parse_cfg kmalloc (Format.unlines ls ++ NUL :: tl)
    = Undefined.
Proof.
  intros kmalloc junk h1 h2 pre l post tl ls Hh1 Hh2 Hpre Hlongs Ht Hb Hlen
         H49 Hbad Hpost Hslots Hbig Hk.
  assert (Hl : Format.nonempty_text l = true).
  { unfold Format.nonempty_text. rewrite Ht.
    destruct l; [simpl in Hlen; lia | reflexivity]. }
  destruct (ReachProps.parse_reaches kmalloc junk h1 h2 pre l post tl
              Hh1 Hh2 Hpre Hlongs Hl Hpost Hslots Hbig Hk)
    as (cs & fuel & id & rev & slots & ccnt & Hcs & Hlcs & Hp).
  unfold Parser.raa_dmpvr2_parse_cfg. fold ls in Hp. rewrite Hp.
  rewrite (RejectProps.parse_cmds_at_undefined fuel l _ _ cs _);
    auto; try lia.
  apply RejectProps.parse_cmd_overrun; auto.
  assert (Hone : (1 <= length (Decode.command_lines (l :: post)))%nat).
  { unfold Decode.command_lines. cbn [filter]. rewrite H49.
    cbn [negb length]. lia. }
  rewrite Hlcs, ReachProps.command_lines_app, length_app. lia.
Qed.

Lemma overlong_command_overruns_witness :
  Parser.raa_dmpvr2_parse_cfg Sim.plain_kmalloc
    (Format.unlines (Sim.hdr_id :: Sim.hdr_rev
                     :: [Sim.cmd4] ++ bytes_of_string "000800201122334455"
                     :: repeat Sim.sentinel 644) ++ NUL :: [])
  = Undefined.
Proof.
  apply (overlong_command_overruns Sim.plain_kmalloc (fun _ => 0)
           Sim.hdr_id Sim.hdr_rev [Sim.cmd4]
           (bytes_of_string "000800201122334455") (repeat Sim.sentinel 644) []);
    first [vm_compute; reflexivity
          |vm_compute; repeat constructor; discriminate
          |vm_compute; lia].
Defined.

(** X19.  A malformed identity header is refused.  In a file of non-empty
    text lines whose number gives a slot count in range, a first line of at
    least 16 characters with a malformed hex pair among the four from
    column 8 makes raa_dmpvr2_parse_cfg return -EINVAL; so does such a
    second line after a first line whose four pairs are hexadecimal.  The
    type field of a header line is not looked at. *)
Theorem malformed_header_rejected :
  forall (kmalloc : Z -> option (nat -> Z)) (junk : nat -> Z)
         (h1 h2 : list Z) (body : list (list Z)) (tl : list Z),
    let ls := h1 :: h2 :: body in
    forallb Format.nonempty_text ls = true ->
    Forall Format.byte_range h1 -> Forall Format.byte_range h2 ->
    (16 <= length h1)%nat -> (16 <= length h2)%nat ->
    Decode.malformed_header h1 = true
    \/ (Format.hex_pairs_at 8 4 h1 = true
        /\ Decode.malformed_header h2 = true) ->
    Decode.slots_in_range ls = true ->
    Z.of_nat (length (Format.unlines ls)) < 2 ^ Klib.BITS_PER_LONG ->
    kmalloc (Format.count_commands (h2 :: body) * Parser.sizeof_cfg_cmd)
      = Some junk ->
    Parser.raa_dmpvr2_parse_cfg kmalloc (Format.unlines ls ++ NUL :: tl)
    = Err (- EINVAL).
Proof.
  intros kmalloc junk h1 h2 body tl ls Hall Hb1 Hb2 Hl1 Hl2 Hbad Hslots Hbig Hk.
  unfold Parser.raa_dmpvr2_parse_cfg.
  rewrite (ReachProps.parse_after_sizing kmalloc junk ls tl Hall Hslots Hbig)
    by exact Hk.
  subst ls. cbn [forallb] in Hall.
  apply andb_true_iff in Hall. destruct Hall as [Hn1 Hall].
  apply andb_true_iff in Hall. destruct Hall as [Hn2 _].
  apply ScanProps.nonempty_text_spec in Hn1. destruct Hn1 as [Ht1 _].
  apply ScanProps.nonempty_text_spec in Hn2. destruct Hn2 as [Ht2 _].
  rewrite (ScanProps.unlines_cons h1), (ScanProps.unlines_cons h2).
  cbn [Klib.strsep]. rewrite ParseProps.strsep_line by exact Ht1.
  cbn [bind Klib.tok Klib.cursor Parser.parse_header_line].
  unfold Parser.dsta.
  destruct Hbad as [Hbad|[Hgood Hbad]].
  - unfold Decode.malformed_header in Hbad. apply negb_true_iff in Hbad.
    apply RejectProps.forallb_seq_false in Hbad. destruct Hbad as (k & Hk4 & Hf).
    rewrite (RejectProps.parse_header_bytes_bad h1 _ 4 8 k); auto; lia.
  - rewrite ParseProps.parse_header_bytes_ok
      by (intros k Hk4; apply (ParseProps.hex_pairs_sub 8 4 k h1 Hgood Hk4)).
    cbn [bind Klib.strsep]. rewrite ParseProps.strsep_line by exact Ht2.
    cbn [bind Klib.tok Klib.cursor Parser.parse_header_line].
    unfold Decode.malformed_header in Hbad. apply negb_true_iff in Hbad.
    apply RejectProps.forallb_seq_false in Hbad. destruct Hbad as (k & Hk4 & Hf).
    unfold Parser.dsta.
    rewrite (RejectProps.parse_header_bytes_bad h2 _ 4 8 k); auto; lia.
Qed.

Lemma malformed_header_rejected_witness :
  Parser.raa_dmpvr2_parse_cfg Sim.plain_kmalloc
    (Format.unlines (bytes_of_string "490700000403020G0000" :: Sim.hdr_rev
                     :: Sim.cmd4 :: Sim.cmd2 :: repeat Sim.sentinel 644)
     ++ NUL :: [])
  = Err (- EINVAL).
Proof.
  apply (malformed_header_rejected Sim.plain_kmalloc (fun _ => 0)
           (bytes_of_string "490700000403020G0000") Sim.hdr_rev
           (Sim.cmd4 :: Sim.cmd2 :: repeat Sim.sentinel 644) []);
    first [vm_compute; reflexivity
          |vm_compute; repeat constructor; discriminate
          |vm_compute; lia
          |left; vm_compute; reflexivity].
Defined.

(** ** A complete programming run *)

Module RunProps.

Import Driver Traffic.

Lemma advance_advance (w : Sim.world) (n m : nat) (e e' : list Sim.bus_event) :
  advance (advance w n e) m e' = advance w (n + m) (e ++ e').
Proof.
  unfold advance.
  cbn [Sim.script Sim.fallback Sim.word_status Sim.now Sim.tick Sim.junk
       Sim.log].
  rewrite skipn_skipn, length_app, Nat2Z.inj_add, app_assoc.
  f_equal; [f_equal; lia | lia].
Qed.

Lemma script_advance (w : Sim.world) (n : nat) (e : list Sim.bus_event) :
  Sim.script (advance w n e) = skipn n (Sim.script w).
Proof. reflexivity. Qed.

Lemma transfer_adv (w : Sim.world) (msgs : list i2c_msg) :
  i2c_transfer w msgs
  = (advance w 1 [Sim.Transfer msgs],
     match Sim.script w with
     | a :: _ => a
     | [] => Sim.fallback w
     end).
Proof.
  cbn [i2c_transfer Sim.sim_platform]. unfold Sim.sim_transfer, advance.
  f_equal. cbn [length].
  f_equal; try (destruct (Sim.script w); reflexivity); lia.
Qed.

Lemma write_word_adv (w : Sim.world) (c v : Z) :
  i2c_smbus_write_word_data w c v
  = (advance w 0 [Sim.WriteWord c v], Sim.word_status w).
Proof.
  cbn [i2c_smbus_write_word_data Sim.sim_platform].
  unfold Sim.sim_write_word, advance. f_equal. cbn [length skipn].
  f_equal; try reflexivity; lia.
Qed.

Lemma forallb_skipn {A : Type} (f : A -> bool) (n : nat) : forall l,
  forallb f l = true -> forallb f (skipn n l) = true.
Proof.
  induction n as [|n IH]; intros l H; [exact H|].
  destruct l as [|a l]; [reflexivity|].
  cbn [skipn]. apply IH. cbn [forallb] in H.
  apply andb_true_iff in H. tauto.
Qed.

Lemma healthy_advance (w : Sim.world) (n : nat) (e : list Sim.bus_event) :
  healthy w = true -> healthy (advance w n e) = true.
Proof.
  unfold healthy, advance.
  cbn [Sim.script Sim.fallback Sim.word_status]. intros H.
  apply andb_true_iff in H. destruct H as [H Hf].
  apply andb_true_iff in H. destruct H as [Hw Hs].
  rewrite Hw, Hf, (forallb_skipn _ n _ Hs). reflexivity.
Qed.

Lemma healthy_answer (w : Sim.world) :
  healthy w = true ->
  (fst match Sim.script w with
       | a :: _ => a
       | [] => Sim.fallback w
       end <? 0) = false.
Proof.
  unfold healthy. intros H.
  apply andb_true_iff in H. destruct H as [H Hf].
  apply andb_true_iff in H. destruct H as [_ Hs].
  apply Z.ltb_ge. destruct (Sim.script w) as [|a sc].
  - apply Z.leb_le in Hf. exact Hf.
  - cbn [forallb] in Hs. apply andb_true_iff in Hs.
    destruct Hs as [Ha _]. apply Z.leb_le in Ha. exact Ha.
Qed.

(** One command on a bus whose transactions succeed. *)
Lemma send_one_adv (c : raa_dmpvr_cfg_cmd) (w : Sim.world) :
  sendable c = true -> healthy w = true ->
  send_one c w
  = (advance w (if len c =? 4 then 1%nat else 0%nat) [wire_event c], Ok None).
Proof.
  intros Hc Hw. destruct (WireProps.sendable_spec c Hc)
    as (d0 & d1 & d2 & d3 & Hd & H0 & H1 & H2 & H3 & Hl).
  destruct Hl as [Hl|Hl].
  - rewrite (WireProps.send_one_word c w d0 d1 d2 d3) by assumption.
    rewrite write_word_adv. cbn [fst snd].
    unfold healthy in Hw.
    apply andb_true_iff in Hw. destruct Hw as [Hw _].
    apply andb_true_iff in Hw. destruct Hw as [Hws _].
    apply Z.leb_le in Hws.
    replace (Sim.word_status w <? 0) with false
      by (symmetry; apply Z.ltb_ge; exact Hws).
    unfold wire_event. rewrite Hl, Hd. reflexivity.
  - rewrite (WireProps.send_one_block c w d0 d1 d2 d3) by assumption.
    rewrite transfer_adv. cbn [fst snd]. rewrite (healthy_answer w Hw).
    unfold wire_event. rewrite Hl, Hd. reflexivity.
Qed.

Lemma block_writes_cons (c : raa_dmpvr_cfg_cmd) (cs : list raa_dmpvr_cfg_cmd) :
  block_writes (c :: cs)
  = Nat.add (if len c =? 4 then 1%nat else 0%nat) (block_writes cs).
Proof.
  unfold block_writes. cbn [filter]. destruct (len c =? 4); reflexivity.
Qed.

Lemma send_loop_adv (cs : list raa_dmpvr_cfg_cmd) :
  forall (pre : list raa_dmpvr_cfg_cmd) (w : Sim.world),
    forallb sendable cs = true -> healthy w = true ->
    send_loop (pre ++ cs) (length pre) (length cs) w
    = (advance w (block_writes cs) (map wire_event cs), Ok 0).
Proof.
  induction cs as [|c cs IH]; intros pre w Hcs Hw.
  - cbn [send_loop length map]. unfold io_ret, advance, block_writes.
    cbn [filter length skipn]. rewrite app_nil_r. destruct w. cbn.
    f_equal. f_equal. lia.
  - cbn [forallb] in Hcs. apply andb_true_iff in Hcs. destruct Hcs as [Hc Hcs].
    cbn [length send_loop]. unfold io_bind at 1, io_lift, load.
    rewrite nth_error_app2 by lia. rewrite Nat.sub_diag. cbn [nth_error].
    cbn [of_option]. unfold io_bind at 1.
    rewrite (send_one_adv c w Hc Hw).
    replace (pre ++ c :: cs) with ((pre ++ [c]) ++ cs)
      by (rewrite <- app_assoc; reflexivity).
    replace (S (length pre)) with (length (pre ++ [c]))
      by (rewrite length_app; cbn [length]; lia).
    rewrite IH by (auto using healthy_advance).
    rewrite advance_advance, block_writes_cons. reflexivity.
Qed.

Lemma send_cfg_adv (cfg : raa_dmpvr2_cfg) (w : Sim.world) :
  forallb sendable (cmds cfg) = true ->
  cmd_cnt cfg = Z.of_nat (length (cmds cfg)) ->
  healthy w = true ->
  raa_dmpvr2_send_cfg cfg w
  = (advance w (block_writes (cmds cfg)) (map wire_event (cmds cfg)), Ok 0).
Proof.
  intros Hcs Hcnt Hw. unfold raa_dmpvr2_send_cfg.
  rewrite Hcnt, Nat2Z.id.
  apply (send_loop_adv (cmds cfg) [] w Hcs Hw).
Qed.

(** The identity check against a device that reports the identity of the
    configuration. *)
Lemma verify_adv (cfg : raa_dmpvr2_cfg) (w : Sim.world) (x y0 y1 y2 y3 : Z)
    (rest : list (Z * option (list Z))) :
  Sim.script w
  = Sim.reads (x :: dev_id cfg)
    :: Sim.reads [y0; y1; y2; y3; nth 3 (dev_rev cfg) 0] :: rest ->
  length (dev_id cfg) = 4%nat -> length (dev_rev cfg) = 4%nat ->
  Forall Format.byte_range (x :: dev_id cfg) ->
  Forall Format.byte_range [y0; y1; y2; y3; nth 3 (dev_rev cfg) 0] ->
  raa_dmpvr2_verify_device cfg w = (advance w 2 identity_traffic, Ok 0).
Proof.
  intros Hs Hid Hrev Hbx Hby.
  destruct (VerifyProps.verify_device_on_reads cfg w
              (advance w 1 [Sim.Transfer [I2C_WR [PMBUS_IC_DEVICE_ID]; I2C_RD 5]])
              (advance w 2 identity_traffic)
              (x :: dev_id cfg) [y0; y1; y2; y3; nth 3 (dev_rev cfg) 0])
    as (status & Hv & Hiff); auto.
  - rewrite transfer_adv, Hs. reflexivity.
  - rewrite transfer_adv, advance_advance, script_advance, Hs. reflexivity.
  - cbn [length]. lia.
  - rewrite Hv. do 2 f_equal. apply Hiff. split; reflexivity.
Qed.

(** The capacity check against a device that has [d] slots left. *)
Lemma check_adv (cfg : raa_dmpvr2_cfg) (w : Sim.world) (d : Z) (r3 : list Z)
    (rest : list (Z * option (list Z))) :
  Sim.script w = Sim.reads (d :: r3) :: rest ->
  Format.byte_range d ->
  raa_dmpvr2_check_cfg cfg w
  = (advance w 1 capacity_traffic,
     Ok (if d <? slot_cnt cfg then - EINVAL else 0)).
Proof.
  intros Hs Hd.
  apply (EngineProps.check_cfg_on_read cfg w _ 2 d r3); [|exact Hd].
  rewrite write_word_adv. cbn [fst].
  rewrite transfer_adv, advance_advance, script_advance, Hs. reflexivity.
Qed.

(** The result phase with a device that is ready at the first poll, on a
    clock that takes at most 200 ticks per transaction. *)
Lemma result_adv (cfg : raa_dmpvr2_cfg) (w : Sim.world) (fuel : nat)
    (st b0 b1 : list Z) (rest : list (Z * option (list Z))) :
  Sim.script w = Sim.reads (1 :: st) :: Sim.reads b0 :: Sim.reads b1 :: rest ->
  0 <= Sim.tick w <= 200 ->
  length b0 = 4%nat -> length b1 = 4%nat ->
  Forall Format.byte_range b0 -> Forall Format.byte_range b1 ->
  0 <= slot_cnt cfg <= 16 ->
  (1 < fuel)%nat ->
  raa_dmpvr2_cfg_write_result fuel cfg w
  = (advance w 3 result_traffic,
     Ok (if forallb (fun k => Format.spec_nibble b0 b1 (Z.of_nat k) =? 1)
                    (seq 0 (Z.to_nat (slot_cnt cfg)))
         then 0 else - EIO)).
Proof.
  intros Hs Htick Hl0 Hl1 Hr0 Hr1 Hslots Hfuel.
  set (e1 := Sim.WriteWord RAA_DMPVR2_DMA_ADDR RAA_DMPVR2_PRGM_STATUS_ADDR).
  set (e2 := Sim.Transfer [I2C_WR [RAA_DMPVR2_DMA_FIX]; I2C_RD 4]).
  set (e3 := Sim.WriteWord RAA_DMPVR2_DMA_ADDR RAA_DMPVR2_BANK0_STATUS_ADDR).
  set (e5 := Sim.WriteWord RAA_DMPVR2_DMA_ADDR RAA_DMPVR2_BANK1_STATUS_ADDR).
  assert (H1 : fst (i2c_smbus_write_word_data w RAA_DMPVR2_DMA_ADDR
                      RAA_DMPVR2_PRGM_STATUS_ADDR) = advance w 0 [e1])
    by (rewrite write_word_adv; reflexivity).
  assert (H2 : Observe.after_polls 1 (advance w 0 [e1]) = advance w 1 [e1; e2]).
  { cbn [Observe.after_polls]. unfold Observe.poll_read.
    rewrite transfer_adv. cbn [fst]. rewrite advance_advance. reflexivity. }
  assert (H3 : fst (i2c_smbus_write_word_data (advance w 1 [e1; e2])
                      RAA_DMPVR2_DMA_ADDR RAA_DMPVR2_BANK0_STATUS_ADDR)
               = advance w 1 [e1; e2; e3]).
  { rewrite write_word_adv. cbn [fst]. rewrite advance_advance. reflexivity. }
  assert (H5 : fst (i2c_smbus_write_word_data (advance w 2 [e1; e2; e3; e2])
                      RAA_DMPVR2_DMA_ADDR RAA_DMPVR2_BANK1_STATUS_ADDR)
               = advance w 2 [e1; e2; e3; e2; e5]).
  { rewrite write_word_adv. cbn [fst]. rewrite advance_advance. reflexivity. }
  apply (ResultProps.write_result_ready Sim.world Sim.sim_platform cfg w
           (advance w 2 [e1; e2; e3; e2]) (advance w 3 result_traffic)
           0 fuel st b0 b1 2 2);
    rewrite ?H1, ?H2, ?H3, ?H5; auto.
  - intros m Hm. lia.
  - intros m Hm. assert (m = 0%nat) as -> by lia.
    cbn [Observe.after_polls]. unfold Observe.expired, Klib.time_after.
    cbn [jiffies HZ Sim.sim_platform]. unfold advance. cbn [Sim.now length].
    replace (Sim.now w + 100 + 100 - (Sim.now w + Z.of_nat 1 * Sim.tick w))
      with (200 - Sim.tick w) by lia.
    unfold Klib.to_long, Klib.BITS_PER_LONG.
    rewrite Z.mod_small by lia.
    replace (200 - Sim.tick w <? 2 ^ (64 - 1)) with true
      by (symmetry; apply Z.ltb_lt; lia).
    apply Z.ltb_ge. lia.
  - cbn [Observe.after_polls]. unfold Observe.poll_read.
    rewrite transfer_adv, script_advance, Hs. reflexivity.
  - rewrite transfer_adv, advance_advance, script_advance, Hs. reflexivity.
  - rewrite transfer_adv, advance_advance, script_advance, Hs. reflexivity.
Qed.

End RunProps.

Module RunMain.

Import Driver Traffic.

Lemma parse_cfg_facts (kmalloc : Z -> option (nat -> Z)) (buf : list Z)
    (cfg : raa_dmpvr2_cfg) :
  Parser.raa_dmpvr2_parse_cfg kmalloc buf = Ok cfg ->
  1 <= slot_cnt cfg <= RAA_DMPVR2_CFG_MAX_SLOT
  /\ Z.of_nat (length (cmds cfg)) = cmd_cnt cfg
  /\ length (dev_id cfg) = 4%nat /\ Forall Format.byte_range (dev_id cfg)
  /\ length (dev_rev cfg) = 4%nat /\ Forall Format.byte_range (dev_rev cfg).
Proof.
  unfold Parser.raa_dmpvr2_parse_cfg. intros H.
  destruct (Parser.parse_cfg_filled kmalloc buf) as [[c filled]| | |] eqn:E;
    try discriminate H.
  cbn [bind] in H. inversion H; subst c.
  destruct (ParseInv.parse_cfg_filled_inv kmalloc buf cfg filled E)
    as (H1 & _ & H3 & _ & _ & H6 & H7 & H8 & H9).
  auto 10.
Qed.

(** The whole of raa_dmpvr2_write_cfg against a simulated device that
    matches the configuration and programs every slot. *)
Lemma write_cfg_run (w : Sim.world) (fuel : nat) (ubuf : list Z)
    (cfg : raa_dmpvr2_cfg) (x y0 y1 y2 y3 d : Z) (r3 st b0 b1 : list Z)
    (acks rest : list (Z * option (list Z))) :
  Forall Format.byte_range ubuf ->
  Parser.raa_dmpvr2_parse_cfg (kmalloc w) ubuf = Ok cfg ->
  forallb sendable (cmds cfg) = true ->
  healthy w = true ->
  0 <= Sim.tick w <= 200 ->
  Sim.script w
  = Sim.reads (x :: dev_id cfg)
    :: Sim.reads [y0; y1; y2; y3; nth 3 (dev_rev cfg) 0]
    :: Sim.reads (d :: r3)
    :: acks ++ Sim.reads (1 :: st) :: Sim.reads b0 :: Sim.reads b1 :: rest ->
  length acks = block_writes (cmds cfg) ->
  Forall Format.byte_range [x; y0; y1; y2; y3] ->
  slot_cnt cfg <= d < 256 ->
  length b0 = 4%nat -> length b1 = 4%nat ->
  Forall Format.byte_range b0 -> Forall Format.byte_range b1 ->
  forallb (fun k => Format.spec_nibble b0 b1 (Z.of_nat k) =? 1)
          (seq 0 (Z.to_nat (slot_cnt cfg))) = true ->
  (1 < fuel)%nat ->
  raa_dmpvr2_write_cfg fuel ubuf 0 w
  = (advance w (length acks + 6)
       (identity_traffic ++ capacity_traffic
        ++ map wire_event (cmds cfg) ++ result_traffic),
     Ok (Z.of_nat (length ubuf))).
Proof.
  intros Hub Hparse Hsend Hw Htick Hs Hacks Hxy Hd Hl0 Hl1 Hr0 Hr1 Hall Hfuel.
  destruct (parse_cfg_facts _ _ _ Hparse)
    as (Hslots & Hcnt & Hid & Hidb & Hrev & Hrevb).
  unfold RAA_DMPVR2_CFG_MAX_SLOT in Hslots.
  unfold raa_dmpvr2_write_cfg.
  assert (Hk : forall sz, kmalloc w sz = Some (fun _ => Sim.junk w))
    by reflexivity.
  rewrite !Hk.
  rewrite ShortInput.write_buffer_whole
    by (try exact Hub; rewrite length_map, length_seq; reflexivity).
  rewrite Hparse. unfold program_device.
  rewrite !Forall_cons_iff in Hxy.
  destruct Hxy as (Hx & Hy0 & Hy1 & Hy2 & Hy3 & _).
  assert (Hr3 : Format.byte_range (nth 3 (dev_rev cfg) 0)).
  { rewrite Forall_forall in Hrevb. apply Hrevb. apply nth_In. lia. }
  unfold io_bind at 1.
  rewrite (RunProps.verify_adv cfg w x y0 y1 y2 y3 _ Hs Hid Hrev
             (Forall_cons _ Hx Hidb)
             (Forall_cons _ Hy0 (Forall_cons _ Hy1 (Forall_cons _ Hy2
                (Forall_cons _ Hy3 (Forall_cons _ Hr3 (Forall_nil _))))))).
  change (negb (0 =? 0)) with false. cbv iota.
  unfold io_bind at 1.
  rewrite (RunProps.check_adv cfg _ d r3
             (acks ++ Sim.reads (1 :: st) :: Sim.reads b0 :: Sim.reads b1 :: rest))
    by (try (rewrite RunProps.script_advance, Hs; reflexivity);
        unfold Format.byte_range; lia).
  replace (d <? slot_cnt cfg) with false by (symmetry; apply Z.ltb_ge; lia).
  change (negb (0 =? 0)) with false. cbv iota.
  unfold io_bind at 1.
  rewrite RunProps.send_cfg_adv
    by (auto using RunProps.healthy_advance; lia).
  change (negb (0 =? 0)) with false. cbv iota.
  unfold io_bind at 1.
  rewrite !RunProps.advance_advance.
  rewrite (RunProps.result_adv cfg _ fuel st b0 b1 rest); auto; try lia.
  - rewrite Hall. change (negb (0 =? 0)) with false. cbv iota.
    unfold io_ret. rewrite RunProps.advance_advance.
    f_equal.
    replace (2 + (1 + block_writes (cmds cfg)) + 3)%nat
      with (length acks + 6)%nat by lia.
    rewrite <- !app_assoc. reflexivity.
  - rewrite RunProps.script_advance, Hs.
    replace (2 + (1 + block_writes (cmds cfg)))%nat
      with (3 + length acks)%nat by lia.
    cbn [Nat.add skipn]. rewrite skipn_app, skipn_all, Nat.sub_diag.
    reflexivity.
Qed.

End RunMain.

(** X20.  A complete programming run.  Suppose the written bytes parse
    into a configuration whose commands all have length 2 or 4, and the
    simulated device answers the identity reads with the id bytes and the
    last revision byte of the configuration, reports at least as many free
    slots as the configuration needs, accepts every command, reports the
    status byte 1 at the first poll, and reports status 1 for every slot.
    Then raa_dmpvr2_write_cfg returns the number of bytes written, and the
    traffic on the bus is: the two identity reads, the capacity read, one
    transaction per command in file order, then the status poll and the two
    bank reads. *)
Theorem successful_programming_run :
  forall (w : Sim.world) (fuel : nat) (ubuf : list Z) (cfg : raa_dmpvr2_cfg)
         (x y0 y1 y2 y3 d : Z) (r3 st b0 b1 : list Z)
         (acks rest : list (Z * option (list Z))),
    Forall Format.byte_range ubuf ->
    Parser.raa_dmpvr2_parse_cfg (kmalloc w) ubuf = Ok cfg ->
    forallb Traffic.sendable (cmds cfg) = true ->
    Traffic.healthy w = true ->
    0 <= Sim.tick w <= 200 ->
    Sim.script w
    = Sim.reads (x :: dev_id cfg)
      :: Sim.reads [y0; y1; y2; y3; nth 3 (dev_rev cfg) 0]
      :: Sim.reads (d :: r3)
      :: acks ++ Sim.reads (1 :: st) :: Sim.reads b0 :: Sim.reads b1 :: rest ->
    length acks = Traffic.block_writes (cmds cfg) ->
    Forall Format.byte_range [x; y0; y1; y2; y3] ->
    slot_cnt cfg <= d < 256 ->
    length b0 = 4%nat -> length b1 = 4%nat ->
    Forall Format.byte_range b0 -> Forall Format.byte_range b1 ->
    forallb (fun k => Format.spec_nibble b0 b1 (Z.of_nat k) =? 1)
            (seq 0 (Z.to_nat (slot_cnt cfg))) = true ->
    (1 < fuel)%nat ->
    Driver.raa_dmpvr2_write_cfg fuel ubuf 0 w
    = (Traffic.advance w (length acks + 6)
         (Traffic.identity_traffic ++ Traffic.capacity_traffic
          ++ map Traffic.wire_event (cmds cfg) ++ Traffic.result_traffic),
       Ok (Z.of_nat (length ubuf))).
Proof.
  intros w fuel ubuf cfg x y0 y1 y2 y3 d r3 st b0 b1 acks rest.
  apply RunMain.write_cfg_run.
Qed.

Lemma successful_programming_run_witness :
  let cfg := mk_cfg [1; 2; 3; 4] [0; 0; 0; 5] 1 2
               [mk_cmd 16 4 [170; 187; 204; 221]; mk_cmd 32 2 [17; 34; 0; 0]] in
  let w := Sim.start [Sim.reads [4; 1; 2; 3; 4]; Sim.reads [4; 0; 0; 0; 5];
                      Sim.reads [1; 0; 0; 0]; Sim.written;
                      Sim.reads [1; 0; 0; 0]; Sim.reads [1; 0; 0; 0];
                      Sim.reads [0; 0; 0; 0]] Sim.written in
  let r := Driver.raa_dmpvr2_write_cfg 100 (Sim.blob Sim.lines_648) 0 w in
  snd r = Ok (Z.of_nat (length (Sim.blob Sim.lines_648)))
  /\ Sim.log (fst r)
     = Traffic.identity_traffic ++ Traffic.capacity_traffic
       ++ [Sim.Transfer [I2C_WR [16; 170; 187; 204; 221]];
           Sim.WriteWord 32 8721]
       ++ Traffic.result_traffic.
Proof.
  intros cfg w r. subst r.
  assert (Hbytes : forall l,
            forallb (fun c => (0 <=? c) && (c <? 256)) l = true ->
            Forall Format.byte_range l).
  { intros l H. apply Forall_forall. intros c Hc.
    rewrite forallb_forall in H. specialize (H c Hc).
    apply andb_true_iff in H. destruct H as [H0 H1].
    apply Z.leb_le in H0. apply Z.ltb_lt in H1.
    unfold Format.byte_range. lia. }
  rewrite (successful_programming_run w 100 (Sim.blob Sim.lines_648) cfg
             4 4 0 0 0 1 [0; 0; 0] [0; 0; 0] [1; 0; 0; 0] [0; 0; 0; 0]
             [Sim.written] []).
  - split; reflexivity.
  - apply Hbytes. vm_compute. reflexivity.
  - vm_compute. reflexivity.
  - vm_compute. reflexivity.
  - vm_compute. reflexivity.
  - vm_compute. split; discriminate.
  - reflexivity.
  - reflexivity.
  - apply Hbytes. vm_compute. reflexivity.
  - cbn. lia.
  - reflexivity.
  - reflexivity.
  - apply Hbytes. vm_compute. reflexivity.
  - apply Hbytes. vm_compute. reflexivity.
  - vm_compute. reflexivity.
  - lia.
Defined.

(** ** From the file to the bus *)

Module FileProps.

Import Parser Format Decode Traffic.

Lemma parse_payload_bytes (line : list Z) (todo : nat) : forall d j d',
  parse_payload line d j todo = Ok d' ->
  Forall byte_range d -> Forall byte_range d'.
Proof.
  induction todo as [|todo IH]; intros d j d' H Hd; cbn [parse_payload] in H.
  - inversion H; subst; exact Hd.
  - apply ParseInv.bind_ok in H. destruct H as (b & Hb & H).
    apply ParseInv.bind_ok in H. destruct H as (d1 & Hs & H).
    apply ParseInv.hextou8_byte in Hb.
    apply (IH d1 (S j) d' H).
    eapply ParseProps.store_Forall; [exact Hs | exact Hd|].
    unfold byte_range. lia.
Qed.

Lemma parse_cmd_bytes (line : list Z) (cs cs' : list raa_dmpvr_cfg_cmd)
    (i : nat) :
  parse_cmd line cs i = Ok cs' ->
  Forall byte_data cs -> Forall byte_data cs'.
Proof.
  unfold parse_cmd. intros H Hcs.
  apply ParseInv.bind_ok in H. destruct H as (b & _ & H).
  apply ParseInv.bind_ok in H. destruct H as (old & Ho & H).
  apply ParseInv.bind_ok in H. destruct H as (c & _ & H).
  apply ParseInv.bind_ok in H. destruct H as (d & Hd & H).
  unfold load in Ho. destruct (nth_error cs i) as [o|] eqn:Eo;
    [|discriminate Ho].
  inversion Ho; subst o.
  assert (Hold : byte_data old).
  { rewrite Forall_forall in Hcs. apply Hcs. eapply nth_error_In, Eo. }
  eapply ParseProps.store_Forall; [exact H | exact Hcs|].
  unfold byte_data in *. cbn [data].
  eapply parse_payload_bytes; eauto.
Qed.

Lemma parse_cmds_bytes (fuel : nat) : forall line buf cs i cs' i',
  parse_cmds fuel line buf cs i = Ok (cs', i') ->
  Forall byte_data cs -> Forall byte_data cs'.
Proof.
  induction fuel as [|fuel IH]; intros line buf cs i cs' i' H Hcs;
    cbn [parse_cmds] in H; [discriminate H|].
  destruct line as [l|]; [|inversion H; subst; auto].
  apply ParseInv.bind_ok in H. destruct H as (n & _ & H).
  destruct (n <=? dsta + 2)%nat; [inversion H; subst; auto|].
  apply ParseInv.bind_ok in H. destruct H as (is49 & _ & H).
  apply ParseInv.bind_ok in H. destruct H as ([cs1 i1] & H1 & H).
  apply ParseInv.bind_ok in H. destruct H as (r & _ & H).
  destruct is49.
  - inversion H1; subst. eapply IH; eauto.
  - apply ParseInv.bind_ok in H1. destruct H1 as (cs2 & Hp & H1).
    inversion H1; subst.
    eapply IH; [exact H|]. eapply parse_cmd_bytes; eauto.
Qed.

Lemma fresh_cmds_bytes (junk : nat -> Z) (ccnt : Z) :
  (forall n, byte_range (junk n)) -> Forall byte_data (fresh_cmds junk ccnt).
Proof.
  intros Hj. unfold fresh_cmds. apply Forall_forall. intros c Hc.
  apply in_map_iff in Hc. destruct Hc as (k & <- & _).
  unfold byte_data. cbn [data]. repeat constructor; apply Hj.
Qed.

Lemma parse_cfg_bytes (kmalloc : Z -> option (nat -> Z)) (buf : list Z)
    (cfg : raa_dmpvr2_cfg) :
  raa_dmpvr2_parse_cfg kmalloc buf = Ok cfg ->
  (forall sz junk, kmalloc sz = Some junk -> forall n, byte_range (junk n)) ->
  Forall byte_data (cmds cfg) /\ Forall data4 (cmds cfg).
Proof.
  unfold raa_dmpvr2_parse_cfg. intros H Hj.
  destruct (parse_cfg_filled kmalloc buf) as [[c filled]| | |] eqn:E;
    try discriminate H.
  cbn [bind] in H. inversion H; subst c. split.
  - unfold parse_cfg_filled in E.
    apply ParseInv.bind_ok in E. destruct E as (n & _ & E).
    apply ParseInv.bind_ok in E. destruct E as ([lcnt ccnt] & _ & E).
    destruct ((_ <? 1) || _); [discriminate E|].
    destruct (kmalloc _) as [junk|] eqn:Ek; [|discriminate E].
    apply ParseInv.bind_ok in E. destruct E as (r1 & _ & E).
    apply ParseInv.bind_ok in E. destruct E as (id & _ & E).
    apply ParseInv.bind_ok in E. destruct E as (r2 & _ & E).
    apply ParseInv.bind_ok in E. destruct E as (rev & _ & E).
    apply ParseInv.bind_ok in E. destruct E as ([cs fl] & Hloop & E).
    inversion E; subst. cbn [cmds].
    eapply parse_cmds_bytes; [exact Hloop|].
    apply fresh_cmds_bytes. exact (Hj _ _ Ek).
  - destruct (ParseInv.parse_cfg_filled_inv kmalloc buf cfg filled E)
      as (_ & _ & _ & _ & H5 & _). exact H5.
Qed.

(** A command line of a well-formed file declares the length 2 or 4. *)
Lemma command_line_len (l : list Z) :
  command_line l = true ->
  pair_value 2 l - 3 = 2 \/ pair_value 2 l - 3 = 4.
Proof.
  unfold command_line. intros H.
  apply andb_true_iff in H. destruct H as [_ H].
  apply orb_true_iff in H.
  destruct H as [H|H]; apply andb_true_iff in H; destruct H as [H _];
    apply Z.eqb_eq in H; lia.
Qed.

Lemma command_lines_are_commands (body : list (list Z)) :
  forallb data_line body = true ->
  Forall (fun l => command_line l = true) (command_lines body).
Proof.
  intros H. apply Forall_forall. intros l Hl.
  unfold command_lines in Hl. apply filter_In in Hl. destruct Hl as [Hin H49].
  rewrite forallb_forall in H. specialize (H l Hin).
  unfold data_line, sentinel_line in H. apply negb_true_iff in H49.
  rewrite H49, andb_false_r in H. exact H.
Qed.

(** An entry that holds what a command line says is one the engine sends,
    as the transaction the line asks for. *)
Lemma entry_of_line (c : raa_dmpvr_cfg_cmd) (l : list Z) :
  command_view c = decode_command l ->
  command_line l = true -> data4 c -> byte_data c ->
  sendable c = true /\ wire_event c = line_event l.
Proof.
  intros Hv Hl H4 Hb. unfold line_event. rewrite <- Hv.
  unfold command_view, decode_command in Hv.
  injection Hv as Hcmd Hlen _.
  assert (Hlen' : len c = 2 \/ len c = 4)
    by (rewrite Hlen; apply command_line_len, Hl).
  unfold data4 in H4. unfold byte_data in Hb.
  destruct (data c) as [|d0 [|d1 [|d2 [|d3 [|? ?]]]]] eqn:Ed;
    try discriminate H4.
  split.
  - unfold sendable. rewrite Ed. cbn [length Nat.eqb forallb].
    rewrite !Forall_cons_iff in Hb.
    destruct Hb as (B0 & B1 & B2 & B3 & _). unfold byte_range in *.
    repeat (apply andb_true_iff; split);
      try (apply Z.leb_le; lia); try (apply Z.ltb_lt; lia);
      try reflexivity.
    apply orb_true_iff. destruct Hlen' as [->| ->]; auto.
  - unfold wire_event, view_event, command_view. rewrite Ed.
    destruct Hlen' as [->| ->]; reflexivity.
Qed.

Lemma entries_of_lines : forall (cs : list raa_dmpvr_cfg_cmd)
    (lines : list (list Z)),
  map command_view cs = map decode_command lines ->
  Forall (fun l => command_line l = true) lines ->
  Forall data4 cs -> Forall byte_data cs ->
  forallb sendable cs = true /\ map wire_event cs = map line_event lines.
Proof.
  induction cs as [|c cs IH]; intros lines Hv Hl H4 Hb;
    destruct lines as [|l lines]; try discriminate Hv.
  - split; reflexivity.
  - cbn [map] in Hv.
    assert (Hc : command_view c = decode_command l) by congruence.
    assert (Ht : map command_view cs = map decode_command lines)
      by congruence.
    clear Hv. rename Ht into Hv.
    inversion Hl; subst. inversion H4; subst. inversion Hb; subst.
    destruct (entry_of_line c l Hc) as [Hs He]; auto.
    destruct (IH lines Hv) as [Hss Hes]; auto.
    cbn [forallb map]. rewrite Hs, Hss, He, Hes. split; reflexivity.
Qed.

End FileProps.

(** X21.  From the file to the bus.  A well-formed file without short
    lines, parsed into memory that holds bytes, gives a configuration every
    command of which the engine sends (length 2 or 4), and the transaction
    of each command is the one its line of the file asks for: a write-word
    of the two payload bytes, low byte first, or a block write of the
    command code and the four payload bytes in the order of the line. *)
Theorem file_commands_reach_the_bus :
  forall (kmalloc : Z -> option (nat -> Z)) (junk : nat -> Z) (k : Z)
         (ls : list (list Z)) (tl : list Z),
    Format.well_formed k ls = true ->
    forallb Format.long_line (skipn 2 ls) = true ->
    Z.of_nat (length (Format.unlines ls)) < 2 ^ Klib.BITS_PER_LONG ->
    kmalloc (Format.count_commands (skipn 2 ls) * Parser.sizeof_cfg_cmd)
      = Some junk ->
    (forall sz j, kmalloc sz = Some j -> forall n, Format.byte_range (j n)) ->
    exists cfg,
      Parser.raa_dmpvr2_parse_cfg kmalloc (Format.unlines ls ++ NUL :: tl)
        = Ok cfg
      /\ forallb Traffic.sendable (cmds cfg) = true
      /\ map Traffic.wire_event (cmds cfg)
         = map Traffic.line_event (Decode.command_lines (skipn 2 ls)).
Proof.
  intros kmalloc junk k ls tl Hwf Hlong Hbig Hk Hj.
  destruct ls as [|h1 [|h2 body]];
    try (unfold Format.well_formed in Hwf; rewrite andb_false_r in Hwf;
         discriminate Hwf).
  cbn [skipn] in *.
  destruct (ContentProps.parse_cfg_content kmalloc junk k h1 h2 body tl
              Hwf Hlong Hbig Hk) as (cfg & Hp & Hv).
  exists cfg. split; [exact Hp|].
  destruct (FileProps.parse_cfg_bytes kmalloc _ cfg Hp Hj) as [Hb H4].
  apply (FileProps.entries_of_lines (cmds cfg) _ Hv); auto.
  apply FileProps.command_lines_are_commands.
  unfold Format.well_formed in Hwf.
  apply andb_true_iff in Hwf. destruct Hwf as [_ Hwf].
  apply andb_true_iff in Hwf. tauto.
Qed.

Lemma file_commands_reach_the_bus_witness :
  exists cfg,
    Parser.raa_dmpvr2_parse_cfg Sim.plain_kmalloc (Sim.blob Sim.lines_648)
      = Ok cfg
    /\ map Traffic.wire_event (cmds cfg)
       = [Sim.Transfer [I2C_WR [16; 170; 187; 204; 221]];
          Sim.WriteWord 32 8721].
Proof.
  destruct (file_commands_reach_the_bus Sim.plain_kmalloc (fun _ => 0) 1
              Sim.lines_648 []) as (cfg & Hp & _ & Hv).
  - vm_compute. reflexivity.
  - vm_compute. reflexivity.
  - vm_compute. reflexivity.
  - reflexivity.
  - intros sz j Hj n. unfold Sim.plain_kmalloc in Hj. inversion Hj.
    unfold Format.byte_range. lia.
  - exists cfg. split; [exact Hp|]. rewrite Hv. vm_compute. reflexivity.
Defined.

(** ** Failures that leave the device alone *)

(** X22.  Failures of isl68137_avs_enable_store_page.  A string that
    kstrtobool refuses is answered with its error code without any PMBus
    access.  On a device that does not answer, enabling stops at the read of
    VOUT_COMMAND and disabling at the update of OPERATION; both return -EIO
    and leave every register as it was. *)
Theorem avs_store_failures :
  forall (w : SimPmbus.world) (page count : Z) (buf : list Z),
    (forall e, Hwmon.kstrtobool buf = Err e ->
       Hwmon.isl68137_avs_enable_store_page page buf count w = (w, Ok e))
    /\ (forall on, Hwmon.kstrtobool buf = Ok on ->
          SimPmbus.dead w = true ->
          let r := Hwmon.isl68137_avs_enable_store_page page buf count w in
          snd r = Ok (- EIO)
          /\ SimPmbus.regs (fst r) = SimPmbus.regs w
          /\ SimPmbus.log (fst r)
             = SimPmbus.log w
               ++ [if on
                   then SimPmbus.ReadWord page 0xff Pmbus.PMBUS_VOUT_COMMAND
                   else SimPmbus.UpdateByte page Pmbus.PMBUS_OPERATION
                          ISL68137_VOUT_AVS 0]).
Proof.
  intros w page count buf. split.
  - intros e He. unfold Hwmon.isl68137_avs_enable_store_page.
    rewrite He. reflexivity.
  - intros on Hon Hdead r. subst r.
    unfold Hwmon.isl68137_avs_enable_store_page. rewrite Hon.
    destruct on.
    + change (ISL68137_VOUT_AVS =? ISL68137_VOUT_AVS) with true. cbv iota.
      cbn [Pmbus.pmbus_read_word_data SimPmbus.sim_core].
      unfold SimPmbus.sim_read_word. rewrite Hdead.
      change (- EIO <? 0) with true. cbv iota. cbn [fst snd SimPmbus.regs
        SimPmbus.log]. auto.
    + change (0 =? ISL68137_VOUT_AVS) with false. cbv iota.
      cbn [Pmbus.pmbus_update_byte_data SimPmbus.sim_core].
      unfold SimPmbus.sim_update_byte. rewrite Hdead.
      change (- EIO <? 0) with true. cbv iota. cbn [fst snd SimPmbus.regs
        SimPmbus.log]. auto.
Qed.

Lemma avs_store_failures_witness :
  let w := SimPmbus.mk_world (fun _ _ => 0x80) true [] in
  Hwmon.isl68137_avs_enable_store_page 0 (bytes_of_string "maybe") 5 w
  = (w, Ok (- EINVAL))
  /\ snd (Hwmon.isl68137_avs_enable_store_page 0 (bytes_of_string "1") 1 w)
     = Ok (- EIO).
Proof.
  intros w. split.
  - destruct (avs_store_failures w 0 5 (bytes_of_string "maybe")) as [H _].
    apply H. vm_compute. reflexivity.
  - destruct (avs_store_failures w 0 1 (bytes_of_string "1")) as [_ H].
    destruct (H true) as [H1 _]; [vm_compute; reflexivity | reflexivity |].
    exact H1.
Defined.

(** X23.  Exhausted memory.  For a file of non-empty text lines whose
    number gives a slot count in range, a failed allocation of the command
    array makes raa_dmpvr2_parse_cfg return -ENOMEM, and
    raa_dmpvr2_write_cfg returns that status without a bus transfer. *)
Theorem allocation_failure_reported :
  forall (W : Type) (P : Platform W) (fuel : nat) (w : W)
         (j0 junk : nat -> Z) (ls : list (list Z)) (tl : list Z),
    let ubuf := Format.unlines ls ++ NUL :: tl in
    forallb Format.nonempty_text ls = true ->
    Decode.slots_in_range ls = true ->
    Z.of_nat (length (Format.unlines ls)) < 2 ^ Klib.BITS_PER_LONG ->
    Forall Format.byte_range ubuf ->
    kmalloc w Driver.sizeof_cfg = Some j0 ->
    kmalloc w (Z.of_nat (length ubuf)) = Some junk ->
    kmalloc w (Format.count_commands (List.tl ls) * Parser.sizeof_cfg_cmd)
      = None ->
    Parser.raa_dmpvr2_parse_cfg (kmalloc w) ubuf = Err (- ENOMEM)
    /\ Driver.raa_dmpvr2_write_cfg fuel ubuf 0 w = (w, Ok (- ENOMEM)).
Proof.
  intros W P fuel w j0 junk ls tl ubuf Hall Hslots Hbig Hb H0 H1 Hnone.
  assert (Hp : Parser.raa_dmpvr2_parse_cfg (kmalloc w) ubuf = Err (- ENOMEM)).
  { subst ubuf. unfold Parser.raa_dmpvr2_parse_cfg, Parser.parse_cfg_filled.
    destruct (ScanProps.sizing_pass ls tl Hall Hbig) as [Hlen Hscan].
    rewrite Hlen. cbn [bind]. rewrite Hscan. cbn [bind].
    unfold Decode.slots_in_range in Hslots. cbv zeta in Hslots.
    apply andb_true_iff in Hslots. destruct Hslots as [Hs1 Hs16].
    apply Z.leb_le in Hs1. apply Z.leb_le in Hs16.
    assert (Hmax : Z.max 1 (Z.of_nat (length ls)) = Z.of_nat (length ls)).
    { apply Z.max_r. destruct (Z_lt_le_dec (Z.of_nat (length ls)) 1); [|lia].
      exfalso. assert (Hz : length ls = 0%nat) by lia. rewrite Hz in Hs1.
      vm_compute in Hs1. apply Hs1. reflexivity. }
    rewrite Hmax.
    replace ((_ <? 1) || (RAA_DMPVR2_CFG_MAX_SLOT <? _)) with false
      by (symmetry; apply orb_false_iff; split; apply Z.ltb_ge; lia).
    rewrite Hnone. reflexivity. }
  split; [exact Hp|].
  unfold Driver.raa_dmpvr2_write_cfg. rewrite H0. fold ubuf. rewrite H1.
  rewrite ShortInput.write_buffer_whole
    by (try exact Hb; rewrite length_map, length_seq; reflexivity).
  rewrite Hp. reflexivity.
Qed.

Lemma allocation_failure_reported_witness :
  Driver.raa_dmpvr2_write_cfg (P := Starved.refusing 12) 10
    (Sim.blob Sim.lines_648) 0 tt
  = (tt, Ok (- ENOMEM)).
Proof.
  assert (Hbytes : forall l,
            forallb (fun c => (0 <=? c) && (c <? 256)) l = true ->
            Forall Format.byte_range l).
  { intros l H. apply Forall_forall. intros c Hc.
    rewrite forallb_forall in H. specialize (H c Hc).
    apply andb_true_iff in H. destruct H as [H0 H1].
    apply Z.leb_le in H0. apply Z.ltb_lt in H1.
    unfold Format.byte_range. lia. }
  apply (proj2 (allocation_failure_reported unit (Starved.refusing 12) 10 tt
                  (fun _ => 0) (fun _ => 0) Sim.lines_648 []
                  ltac:(vm_compute; reflexivity)
                  ltac:(vm_compute; reflexivity)
                  ltac:(vm_compute; reflexivity)
                  ltac:(apply Hbytes; vm_compute; reflexivity)
                  ltac:(reflexivity)
                  ltac:(vm_compute; reflexivity)
                  ltac:(vm_compute; reflexivity))).
Defined.
